(** * Task / User service: the route handlers of [routes/tasks.js] and
    [routes/users.js] over a model of the document store.

    The handlers are embedded as programs of a small state-and-error monad:
    the state is the pair of collections, the response already sent and the
    outcomes the store will give to the coming operations; an error is a
    JavaScript exception object.  Identifiers are strings, the two
    collections are finite maps from [_id] to document.

    The store holds every [_id] in one spelling, [canon] of the strings
    that are cast to it.  [findById] is modelled on requests that spell
    the identifier as the store does: it reads the collection under the
    string it is given.  A statement about an identifier that need not be
    a key of the store says what it takes of the spelling: [canon id = id]
    where a document is found, nothing under [canon id] either where none
    is.  The lists of identifiers given to [$in] are cast element by
    element. *)

From stdpp Require Import gmap strings list fin_maps.
From Stdlib Require Import ZArith Ascii String Lia.

Open Scope string_scope.
Open Scope Z_scope.

(** ** Documents *)

(** A Task document as the handlers hold it in memory: [name] and
    [deadline] may be undefined until the schema has validated them. *)
Record Task := mkTask {
  name : option string;
  description : string;
  deadline : option Z;
  completed : bool;
  assignedUser : string;
  assignedUserName : string;
  dateCreated : Z
}.

Record User := mkUser {
  u_name : string;
  email : string;
  pendingTasks : list string;
  u_dateCreated : Z
}.

Record Store := mkStore {
  tasks : gmap string Task;
  users : gmap string User
}.

(** ** JavaScript helpers *)

(** [!!s] for a string-valued property that may be absent. *)
Definition truthy (s : option string) : bool :=
  match s with Some s => negb (String.eqb s "") | None => false end.

(** A string is the sequence of its UTF-8 bytes.  The white space [trim]
    and [parseInt] skip is the WhiteSpace and LineTerminator of
    ECMAScript: U+0009 to U+000D and U+0020, of one byte each; U+00A0, of
    two bytes; U+1680, U+2000 to U+200A, U+2028, U+2029, U+202F, U+205F,
    U+3000 and U+FEFF, of three bytes. *)
Definition isWhiteSpace (c : ascii) : bool :=
  match nat_of_ascii c with
  | 9%nat | 10%nat | 11%nat | 12%nat | 13%nat | 32%nat => true
  | _ => false
  end.

Definition isWhiteSpace2 (c1 c2 : ascii) : bool :=
  ((nat_of_ascii c1 =? 194) && (nat_of_ascii c2 =? 160))%nat.

Definition isWhiteSpace3 (c1 c2 c3 : ascii) : bool :=
  let n1 := nat_of_ascii c1 in
  let n2 := nat_of_ascii c2 in
  let n3 := nat_of_ascii c3 in
  ((n1 =? 225) && (n2 =? 154) && (n3 =? 128)
   || (n1 =? 226) && (n2 =? 128)
      && ((128 <=? n3) && (n3 <=? 138) || (n3 =? 168) || (n3 =? 169) || (n3 =? 175))
   || (n1 =? 226) && (n2 =? 129) && (n3 =? 159)
   || (n1 =? 227) && (n2 =? 128) && (n3 =? 128)
   || (n1 =? 239) && (n2 =? 187) && (n3 =? 191))%nat.

(** The string without its leading white space. *)
Fixpoint skipWhite (s : string) : string :=
  match s with
  | String c1 s1 =>
      if isWhiteSpace c1 then skipWhite s1 else
      match s1 with
      | String c2 s2 =>
          if isWhiteSpace2 c1 c2 then skipWhite s2 else
          match s2 with
          | String c3 s3 => if isWhiteSpace3 c1 c2 c3 then skipWhite s3 else s
          | EmptyString => s
          end
      | EmptyString => s
      end
  | EmptyString => EmptyString
  end.

(** [s.trim() === '']: white space and nothing else. *)
Definition isBlank (s : string) : bool := String.eqb (skipWhite s) "".

(** [v && String(v).trim() !== ''] *)
Definition nonBlank (v : option string) : bool :=
  match v with
  | Some s => negb (String.eqb s "") && negb (isBlank s)
  | None => false
  end.

(** [v || d] *)
Definition orDefault (v : option string) (d : string) : string :=
  match v with
  | Some s => if String.eqb s "" then d else s
  | None => d
  end.

(** [parseInt(s, 10)]: leading white space, an optional sign, then the
    longest run of decimal digits; [None] is NaN.  The value is the exact
    integer, which is what JavaScript gives below 2^53. *)
Definition digitOf (c : ascii) : option Z :=
  let n := nat_of_ascii c in
  if (48 <=? n)%nat && (n <=? 57)%nat then Some (Z.of_nat n - 48) else None.

Fixpoint digits (acc : option Z) (s : string) : option Z :=
  match s with
  | String c s' =>
      match digitOf c with
      | Some d => digits (Some (10 * default 0 acc + d)) s'
      | None => acc
      end
  | EmptyString => acc
  end.

Definition parseInt (s : string) : option Z :=
  match skipWhite s with
  | String "-" s' => Z.opp <$> digits None s'
  | String "+" s' => digits None s'
  | s' => digits None s'
  end.

(** [$addToSet] and [$pull] on an array of identifiers. *)
Definition addToSet (x : string) (l : list string) : list string :=
  if decide (x ∈ l) then l else l ++ [x].
Definition pull (x : string) (l : list string) : list string :=
  filter (fun y => y ≠ x) l.

(** [new Set(l)], kept as the list of its elements in insertion order. *)
Fixpoint Set_from (l : list string) : list string :=
  match l with
  | [] => []
  | x :: l' => x :: filter (fun y => y ≠ x) (Set_from l')
  end.
Definition Set_has (s : list string) (x : string) : bool := bool_decide (x ∈ s).

Definition setPending (f : list string -> list string) (u : User) : User :=
  mkUser (u_name u) (email u) (f (pendingTasks u)) (u_dateCreated u).

Definition unassign (t : Task) : Task :=
  mkTask (name t) (description t) (deadline t) (completed t) "" "unassigned" (dateCreated t).
Definition assignTo (uid uname : string) (t : Task) : Task :=
  mkTask (name t) (description t) (deadline t) (completed t) uid uname (dateCreated t).

(** A thrown object, with the properties the handlers inspect. *)
Record Err := mkErr {
  e_name : string;
  e_message : string;
  e_status : option nat;
  e_code : option Z;
  e_path : option string
}.

Definition storeFailure : Err := mkErr "MongoError" "store failure" None None None.
Definition castError_id : Err :=
  mkErr "CastError" "Cast to ObjectId failed" None None (Some "_id").
Definition validationError : Err :=
  mkErr "ValidationError" "validation failed" None None None.
Definition duplicateKey : Err :=
  mkErr "MongoServerError" "E11000 duplicate key error" None (Some 11000) None.
Definition headersSent : Err :=
  mkErr "Error" "Cannot set headers after they are sent to the client" None None None.
Definition typeError : Err := mkErr "TypeError" "Cannot read properties" None None None.
Definition selectError : Err :=
  mkErr "TypeError" "Invalid select() argument. Must be string or object." None None None.
Definition httpError (st : nat) (msg : string) : Err :=
  mkErr "Error" msg (Some st) None None.

(** ** Request bodies and query strings *)

(** The body of a Task request.  [b_completed] is the truthiness of
    [body.completed]; [b_deadline] is [None] when the property is absent
    or is not a date. *)
Record TaskBody := mkTaskBody {
  b_name : option string;
  b_description : option string;
  b_deadline : option Z;
  b_completed : bool;
  b_assignedUser : option string;
  b_assignedUserName : option string
}.

Record UserBody := mkUserBody {
  ub_name : option string;
  ub_email : option string;
  ub_pendingTasks : option (list string)
}.

(** [req.query] of a list request. *)
Record ListQuery := mkListQuery {
  q_where : option string;
  q_sort : option string;
  q_select : option string;
  q_skip : option string;
  q_limit : option string;
  q_count : option string
}.

(** ** What the handlers take from their libraries *)

(** [JSON.parse] with the values it produces, their truthiness and the
    empty object; [mongoose.Types.ObjectId.isValid] and the spelling
    [String(new ObjectId(s))] of the identifier a valid string [s] is cast
    to, which is the spelling of every [_id] the store holds; the store's
    reading of a filter and of a sort specification on each collection,
    [None] when it rejects the value; whether [Query.select] takes a
    value (a string or an object) and whether the store accepts it as a
    projection. *)
Class Platform := {
  JSON : Type;
  JSON_parse : string -> option JSON;
  JSON_truthy : JSON -> bool;
  emptyObject : JSON;
  isValid : string -> bool;
  canon : string -> string;
  Task_filter : JSON -> option (string * Task -> bool);
  Task_order : JSON -> option (list (string * Task) -> list (string * Task));
  User_filter : JSON -> option (string * User -> bool);
  User_order : JSON -> option (list (string * User) -> list (string * User));
  select_takes : JSON -> bool;
  projection_ok : JSON -> bool
}.

Section Service.

Context {P : Platform}.

(** ** Responses *)

(** A projection: the one given in the request, or ['-__v']. *)
Inductive Projection :=
| Select (j : JSON)
| HideVersion.

(** The [data] of an envelope; a list of documents comes with the
    projection it is rendered under. *)
Inductive Data :=
| DEmpty                                   (* {} *)
| DUndefined
| DCount (n : nat)
| DTask (id : string) (t : Task)
| DUser (id : string) (u : User)
| DTasks (sel : Projection) (l : list (string * Task))
| DUsers (sel : Projection) (l : list (string * User))
| DErr (e : Err).

Record Envelope := mkEnvelope { message : string; data : Data }.

(** [body = None] is a response sent without a body ([res.send()]). *)
Record Response := mkResponse { status : nat; body : option Envelope }.

Definition json (st : nat) (msg : string) (d : Data) : Response :=
  mkResponse st (Some (mkEnvelope msg d)).

(** ** The handler monad *)

(** [faults] lists, for the store operations still to come, whether each
    one fails; past its end every operation succeeds. *)
Record World := mkWorld {
  db : Store;
  sent : option Response;
  faults : list bool
}.

Definition M (A : Type) : Type := World -> (Err + A) * World.

Definition ret {A} (a : A) : M A := fun w => (inr a, w).
Definition throw {A} (e : Err) : M A := fun w => (inl e, w).
Definition bind {A B} (m : M A) (k : A -> M B) : M B :=
  fun w => match m w with
           | (inr a, w') => k a w'
           | (inl e, w') => (inl e, w')
           end.

Notation "'let*' x ':=' m 'in' k" := (bind m (fun x => k))
  (at level 10, x pattern, m at level 100, k at level 200).

(** [try { m } catch (err) { h err }] *)
Definition try_catch {A} (m : M A) (h : Err -> M A) : M A :=
  fun w => match m w with
           | (inr a, w') => (inr a, w')
           | (inl e, w') => h e w'
           end.

Definition when (b : bool) (m : M unit) : M unit := if b then m else ret tt.

(** Every store operation starts by consuming one outcome. *)
Definition tick : M unit :=
  fun w => match faults w with
           | true :: fs => (inl storeFailure, mkWorld (db w) (sent w) fs)
           | false :: fs => (inr tt, mkWorld (db w) (sent w) fs)
           | [] => (inr tt, w)
           end.

Definition getStore : M Store := fun w => (inr (db w), w).
Definition putStore (s : Store) : M unit :=
  fun w => (inr tt, mkWorld s (sent w) (faults w)).

(** [res.status(st).json(..)] / [res.send()]: the first response is the
    one the client receives, a second one throws. *)
Definition send (r : Response) : M unit :=
  fun w => match sent w with
           | None => (inr tt, mkWorld (db w) (Some r) (faults w))
           | Some _ => (inl headersSent, w)
           end.

(** [session.withTransaction(body)]: the writes of [body] are kept when it
    returns and the commit succeeds, and discarded otherwise; a response
    sent from inside is not taken back. *)
Definition withTransaction {A} (body : M A) : M A :=
  fun w => match body w with
           | (inr a, w') =>
               match tick w' with
               | (inr _, w'') => (inr a, w'')
               | (inl e, w'') => (inl e, mkWorld (db w) (sent w'') (faults w''))
               end
           | (inl e, w') => (inl e, mkWorld (db w) (sent w') (faults w'))
           end.

(** Running a handler on a store: the response received and the store left. *)
Definition run (h : M unit) (fs : list bool) (s : Store) : option Response * Store :=
  match h (mkWorld s None fs) with
  | (_, w) => (sent w, db w)
  end.

(** ** The store *)

(** A query on [_id] casts the value first; the cast is taken to accept
    the strings [isValid] accepts. *)
Definition castId (id : string) : M unit :=
  if isValid id then ret tt else throw castError_id.

Fixpoint castIds (ids : list string) : M unit :=
  match ids with
  | [] => ret tt
  | id :: ids' => let* _ := castId id in castIds ids'
  end.

(** Modelled from the spec: the schema of [models/task.js], which is not
    part of the sources: name is required and non-empty, deadline is
    required. *)
Definition Task_validate (t : Task) : bool :=
  match name t, deadline t with
  | Some n, Some _ => negb (String.eqb n "")
  | _, _ => false
  end.

(** [Model.findById(id)]: the cast, then the read of the document under
    the identifier.  The string is taken in the spelling of the store
    ([canon id = id], as for every key of a collection); for another
    spelling of a stored identifier the code finds the document and this
    definition does not. *)
Definition Task_findById (id : string) : M (option Task) :=
  let* _ := castId id in
  let* _ := tick in
  let* s := getStore in
  ret (tasks s !! id).

(** The same on the users. *)
Definition User_findById (id : string) : M (option User) :=
  let* _ := castId id in
  let* _ := tick in
  let* s := getStore in
  ret (users s !! id).

(** [doc.save()]: validation, then an insert for a new document and an
    update for one that was read from the store. *)
Definition Task_save (isNew : bool) (id : string) (t : Task) : M Task :=
  if negb (Task_validate t) then throw validationError else
  let* _ := tick in
  let* s := getStore in
  if isNew && bool_decide (is_Some (tasks s !! id)) then throw duplicateKey else
  let* _ := putStore (mkStore (<[id := t]> (tasks s)) (users s)) in
  ret t.

Definition Task_deleteOne (id : string) : M unit :=
  let* _ := tick in
  let* s := getStore in
  putStore (mkStore (delete id (tasks s)) (users s)).

(** [Task.updateMany({ _id: { $in: ids }, assignedUser: au }, { $set: .. })],
    each of the two conditions being optional.  The elements of [ids] are
    cast to identifiers, so a task matches under any spelling of its
    [_id]; [assignedUser] is a string of the schema and is compared as
    one. *)
Definition Task_matches (ids : option (list string)) (au : option string)
    (id : string) (t : Task) : bool :=
  match ids with Some l => bool_decide (id ∈ canon <$> l) | None => true end &&
  match au with Some a => String.eqb (assignedUser t) a | None => true end.

Definition Task_updateMany (ids : option (list string)) (au : option string)
    (upd : Task -> Task) : M unit :=
  let* _ := castIds (default [] ids) in
  let* _ := tick in
  let* s := getStore in
  putStore (mkStore
    (map_imap (fun id t => Some (if Task_matches ids au id t then upd t else t)) (tasks s))
    (users s)).

(** [User.findByIdAndUpdate(id, { $pull / $addToSet: { pendingTasks: .. } })]:
    nothing is written when no user has that identifier. *)
Definition User_findByIdAndUpdate (id : string) (f : list string -> list string) : M unit :=
  let* _ := castId id in
  let* _ := tick in
  let* s := getStore in
  putStore (mkStore (tasks s) (alter (setPending f) id (users s))).

(** Modelled from the spec: the schema of [models/user.js], which is not
    part of the sources: email is unique among the users. *)
Definition emailTaken (id : string) (u : User) (us : gmap string User) : bool :=
  bool_decide (Exists (fun p => p.1 ≠ id ∧ email p.2 = email u) (map_to_list us)).

Definition User_save (id : string) (u : User) : M User :=
  let* _ := tick in
  let* s := getStore in
  if emailTaken id u (users s) then throw duplicateKey else
  let* _ := putStore (mkStore (tasks s) (<[id := u]> (users s))) in
  ret u.

Definition User_deleteOne (id : string) : M unit :=
  let* _ := tick in
  let* s := getStore in
  putStore (mkStore (tasks s) (delete id (users s))).

(** ** routes/tasks.js *)

Definition isBadIdCast (err : Err) : bool :=
  String.eqb (e_name err) "CastError" && bool_decide (e_path err = Some "_id").

(** The result is the document [findById(str).select({ name: 1 })]
    returns, that is its [_id], which is [str] in the spelling of the
    store, and its [name]. *)
Definition ensureUserExists (userId : option string) : M (option (string * string)) :=
  if negb (truthy userId) then ret None else
  let str := default "" userId in
  if negb (isValid str) then throw (httpError 400 "assignedUser must be a valid ObjectId") else
  let* u := User_findById str in
  match u with
  | None => throw (httpError 400 "assignedUser not found")
  | Some u => ret (Some (str, u_name u))
  end.

(** The assignee of a request body, as POST and PUT compute it:
    [('', 'unassigned')] unless [body.assignedUser] is given and not
    blank, and then the identifier and name of the user found. *)
Definition resolveAssignee (b : TaskBody) : M (string * string) :=
  if nonBlank (b_assignedUser b) then
    let* assignedUserDoc := ensureUserExists (b_assignedUser b) in
    match assignedUserDoc with
    | Some (id, nm) => ret (id, nm)
    | None => throw typeError
    end
  else ret ("", "unassigned").

(** POST /api/tasks; [newId] is the identifier [new Task] generates and
    [now] the value of [new Date()].  First the callback given to
    [withTransaction], then the [catch] clause, then the handler. *)
Definition tasksRoute_post_txn (newId : string) (now : Z) (b : TaskBody) : M Task :=
  let* assignee := resolveAssignee b in
  let task := mkTask (b_name b) (orDefault (b_description b) "") (b_deadline b)
                (b_completed b) (fst assignee) (snd assignee) now in
  let* savedTask := Task_save true newId task in
  let* _ := when (negb (String.eqb (assignedUser savedTask) "")
                  && negb (completed savedTask))
              (User_findByIdAndUpdate (assignedUser savedTask) (addToSet newId)) in
  ret savedTask.

Definition tasksRoute_post_catch (err : Err) : M unit :=
  if bool_decide (e_status err = Some 400%nat) then send (json 400 (e_message err) DEmpty)
  else if String.eqb (e_name err) "ValidationError" then
    send (json 400 "Invalid task data: name and deadline are required" DEmpty)
  else send (json 500 "Error creating task" DEmpty).

Definition tasksRoute_post (newId : string) (now : Z) (b : TaskBody) : M unit :=
  try_catch
    (let* savedTask := withTransaction (tasksRoute_post_txn newId now b) in
     send (json 201 "Task created successfully" (DTask newId savedTask)))
    tasksRoute_post_catch.

(** PUT /api/tasks/:id *)
Definition taskRoute_put_txn (id : string) (b : TaskBody) : M (option Task) :=
  let* task := Task_findById id in
  match task with
  | None => let* _ := send (json 404 "Task not found" DEmpty) in ret None
  | Some task =>
      let* assignee := resolveAssignee b in
      let nextAssignedUser := fst assignee in
      let nextAssignedUserName := snd assignee in
      let prevAssigned := assignedUser task in
      let prevCompleted := completed task in
      let task' := mkTask (b_name b) (orDefault (b_description b) "") (b_deadline b)
                     (b_completed b) nextAssignedUser nextAssignedUserName
                     (dateCreated task) in
      let* updated := Task_save false id task' in
      let* _ := when (negb (String.eqb prevAssigned "")
                      && negb (String.eqb prevAssigned nextAssignedUser))
                  (User_findByIdAndUpdate prevAssigned (pull id)) in
      let* _ := when (negb (String.eqb nextAssignedUser "") && negb (completed updated))
                  (User_findByIdAndUpdate nextAssignedUser (addToSet id)) in
      let* _ := when (String.eqb prevAssigned nextAssignedUser
                      && negb (String.eqb nextAssignedUser ""))
                  (if negb prevCompleted && completed updated then
                     User_findByIdAndUpdate nextAssignedUser (pull id)
                   else if prevCompleted && negb (completed updated) then
                     User_findByIdAndUpdate nextAssignedUser (addToSet id)
                   else ret tt) in
      ret (Some updated)
  end.

Definition taskRoute_put_catch (err : Err) : M unit :=
  if isBadIdCast err then send (json 404 "Task not found" DEmpty)
  else if bool_decide (e_status err = Some 400%nat) then send (json 400 (e_message err) DEmpty)
  else if String.eqb (e_name err) "ValidationError" then
    send (json 400 "Invalid task data: name and deadline are required" DEmpty)
  else send (json 500 "Error updating task" DEmpty).

Definition taskRoute_put (id : string) (b : TaskBody) : M unit :=
  try_catch
    (let* updated := withTransaction (taskRoute_put_txn id b) in
     send (json 200 "Task updated successfully"
             (match updated with Some t => DTask id t | None => DUndefined end)))
    taskRoute_put_catch.

(** DELETE /api/tasks/:id *)
Definition taskRoute_delete_txn (id : string) : M unit :=
  let* task := Task_findById id in
  match task with
  | None => send (json 404 "Task not found" DEmpty)
  | Some task =>
      let assignedUser_ := assignedUser task in
      let* _ := Task_deleteOne id in
      let* _ := when (negb (String.eqb assignedUser_ "") && negb (completed task))
                  (User_findByIdAndUpdate assignedUser_ (pull id)) in
      send (mkResponse 204 None)
  end.

Definition taskRoute_delete_catch (err : Err) : M unit :=
  if isBadIdCast err then send (json 404 "Task not found" DEmpty)
  else send (json 500 "Error deleting task" DEmpty).

Definition taskRoute_delete (id : string) : M unit :=
  try_catch (withTransaction (taskRoute_delete_txn id)) taskRoute_delete_catch.

(** ** List queries *)

(** What [Model.find(where).sort(..).select(..).skip(..).limit(..)] has
    accumulated when it is executed. *)
Record Query := mkQuery {
  filter_ : JSON;
  sort_ : option JSON;
  select_ : Projection;
  skip_ : option Z;
  limit_ : option Z
}.

Definition dquote : string := String (ascii_of_nat 34) EmptyString.

Definition parseJSON (q : option string) (fieldName : string) : M (option JSON) :=
  if negb (truthy q) then ret None else
  match JSON_parse (default "" q) with
  | Some j => ret (Some j)
  | None => throw (httpError 400 ("Invalid JSON in " ++ dquote ++ fieldName ++ dquote))
  end.

(** [parseJSON(..) || {}] *)
Definition orEmpty (j : option JSON) : JSON :=
  match j with
  | Some v => if JSON_truthy v then v else emptyObject
  | None => emptyObject
  end.

(** [if (sort) query = query.sort(sort)] *)
Definition ifTruthy (j : option JSON) : option JSON :=
  match j with
  | Some v => if JSON_truthy v then Some v else None
  | None => None
  end.

Definition projectionOf (select : option JSON) : Projection :=
  match ifTruthy select with
  | Some v => Select v
  | None => HideVersion
  end.

(** [query.select(sel)], which throws on a value that is neither a string
    nor an object. *)
Definition Query_select (sel : Projection) : M unit :=
  match sel with
  | Select v => if select_takes v then ret tt else throw selectError
  | HideVersion => ret tt
  end.

(** [if (req.query.skip) { n = parseInt(..); if (!Number.isNaN(n)) query.skip(n) }] *)
Definition skipOf (rq : ListQuery) : option Z :=
  if truthy (q_skip rq) then parseInt (default "" (q_skip rq)) else None.

(** [if (req.query.limit) { n = parseInt(..); if (!Number.isNaN(n) && n > 0) query.limit(n) }
     else <dflt>] *)
Definition limitOf (rq : ListQuery) (dflt : option Z) : option Z :=
  if truthy (q_limit rq) then
    match parseInt (default "" (q_limit rq)) with
    | Some n => if 0 <? n then Some n else None
    | None => None
    end
  else dflt.

(** Whether the store accepts the projection of a query. *)
Definition projected (sel : Projection) : bool :=
  match sel with
  | Select v => projection_ok v
  | HideVersion => true
  end.

(** Executing a query on the documents of a collection.  The store refuses
    a projection it does not accept and a negative skip. *)
Definition exec {Doc} (flt : JSON -> option (string * Doc -> bool))
    (ord : JSON -> option (list (string * Doc) -> list (string * Doc)))
    (docs : list (string * Doc)) (q : Query) : M (list (string * Doc)) :=
  let* _ := tick in
  if negb (projected (select_ q)) then throw storeFailure else
  match flt (filter_ q) with
  | None => throw storeFailure
  | Some p =>
      match (match sort_ q with
             | None => Some (fun l => l)
             | Some j => ord j
             end) with
      | None => throw storeFailure
      | Some srt =>
          let sorted := srt (List.filter p docs) in
          match skip_ q with
          | Some n =>
              if n <? 0 then throw storeFailure
              else
                let skipped := drop (Z.to_nat n) sorted in
                ret (match limit_ q with
                     | Some k => take (Z.to_nat k) skipped
                     | None => skipped
                     end)
          | None =>
              ret (match limit_ q with
                   | Some k => take (Z.to_nat k) sorted
                   | None => sorted
                   end)
          end
      end
  end.

Definition countDocuments {Doc} (flt : JSON -> option (string * Doc -> bool))
    (docs : list (string * Doc)) (where_ : JSON) : M nat :=
  let* _ := tick in
  match flt where_ with
  | None => throw storeFailure
  | Some p => ret (List.length (List.filter p docs))
  end.

(** The query GET /api/tasks builds in its list branch. *)
Definition tasksRoute_query (rq : ListQuery) (where_ : JSON) : M Query :=
  let* sort := parseJSON (q_sort rq) "sort" in
  let* select := parseJSON (q_select rq) "select" in
  let* _ := Query_select (projectionOf select) in
  ret (mkQuery where_ (ifTruthy sort) (projectionOf select)
         (skipOf rq) (limitOf rq (Some 100))).

(** GET /api/tasks *)
Definition tasksRoute_get (rq : ListQuery) : M unit :=
  try_catch
    (let* w := parseJSON (q_where rq) "where" in
     let where_ := orEmpty w in
     let* s := getStore in
     if bool_decide (q_count rq = Some "true") then
       let* count := countDocuments Task_filter (map_to_list (tasks s)) where_ in
       send (json 200 "OK" (DCount count))
     else
       let* query := tasksRoute_query rq where_ in
       let* tasks := exec Task_filter Task_order (map_to_list (tasks s)) query in
       send (json 200 "OK" (DTasks (select_ query) tasks)))
    (fun e =>
       let status := match e_status e with Some 0%nat | None => 500%nat | Some st => st end in
       let msg := if bool_decide (e_status e = Some 400%nat) then e_message e
                  else "Error getting tasks" in
       send (json status msg DEmpty)).

(** ** routes/users.js *)

(** The query GET /api/users builds in its list branch. *)
Definition usersRoute_query (rq : ListQuery) (where_ : JSON) : M Query :=
  let* sort := parseJSON (q_sort rq) "sort" in
  let* select := parseJSON (q_select rq) "select" in
  let* _ := Query_select (projectionOf select) in
  ret (mkQuery where_ (ifTruthy sort) (projectionOf select)
         (skipOf rq) (limitOf rq None)).

(** GET /api/users *)
Definition usersRoute_get (rq : ListQuery) : M unit :=
  try_catch
    (let* w := parseJSON (q_where rq) "where" in
     let where_ := orEmpty w in
     let* s := getStore in
     if bool_decide (q_count rq = Some "true") then
       let* count := countDocuments User_filter (map_to_list (users s)) where_ in
       send (json 200 "OK" (DCount count))
     else
       let* query := usersRoute_query rq where_ in
       let* users := exec User_filter User_order (map_to_list (users s)) query in
       send (json 200 "OK" (DUsers (select_ query) users)))
    (fun e =>
       let status := match e_status e with Some 0%nat | None => 500%nat | Some st => st end in
       send (json status (orDefault (Some (e_message e)) "Error getting users") DEmpty)).

Definition isCastError (err : Err) : bool :=
  String.eqb (e_name err) "CastError" && bool_decide (e_path err = Some "_id").

(** PUT /api/users/:id *)
Definition userRoute_put_catch (err : Err) : M unit :=
  if isCastError err then send (json 404 "User not found" DEmpty)
  else if bool_decide (e_code err = Some 11000) then
    send (json 409 "User with this email already exists" (DErr err))
  else if String.eqb (e_name err) "ValidationError" then
    send (json 400 "Validation error" (DErr err))
  else send (json 500 "Error updating user" (DErr err)).

(** The document read under [id] has [id] as its [_id]: [String(user._id)]
    is [id]. *)
Definition userRoute_put (id : string) (b : UserBody) : M unit :=
  try_catch
    (let* user := User_findById id in
     match user with
     | None => send (json 404 "User not found" DEmpty)
     | Some user =>
         if negb (truthy (ub_name b)) || negb (truthy (ub_email b)) then
           send (json 400 "name and email are required for PUT" DEmpty)
         else
           let name_ := default "" (ub_name b) in
           let email_ := default "" (ub_email b) in
           let oldPending := Set_from (pendingTasks user) in
           let newPending := Set_from (default [] (ub_pendingTasks b)) in
           let user' := mkUser name_ email_ newPending (u_dateCreated user) in
           let* updated := User_save id user' in
           let removed := List.filter (fun t => negb (Set_has newPending t)) oldPending in
           let* _ := when (negb (Nat.eqb (List.length removed) 0))
                       (Task_updateMany (Some removed) (Some id) unassign) in
           let added := List.filter (fun t => negb (Set_has oldPending t)) newPending in
           let* _ := when (negb (Nat.eqb (List.length added) 0))
                       (Task_updateMany (Some added) None (assignTo id (u_name user'))) in
           send (json 200 "User updated successfully" (DUser id updated))
     end)
    userRoute_put_catch.

(** DELETE /api/users/:id *)
Definition userRoute_delete_catch (err : Err) : M unit :=
  if isCastError err then send (json 404 "User not found" DEmpty)
  else send (json 500 "Error deleting user" (DErr err)).

(** As in PUT, [String(user._id)] is [id]. *)
Definition userRoute_delete (id : string) : M unit :=
  try_catch
    (let* user := User_findById id in
     match user with
     | None => send (json 404 "User not found" DEmpty)
     | Some user =>
         let* _ := Task_updateMany None (Some id) unassign in
         let* _ := User_deleteOne id in
         send (json 200 "User deleted successfully" DEmpty)
     end)
    userRoute_delete_catch.

End Service.

Notation "'let*' x ':=' m 'in' k" := (bind m (fun x => k))
  (at level 10, x pattern, m at level 100, k at level 200).

(** A world in which no coming operation fails. *)
Abbreviation calm s o := (mkWorld s o []).

(** * Specification *)

(** ** The cross-collection invariant and the coordinator's rules *)

(** [pendingTasks] of the user [uid], empty when there is no such user. *)
Definition pend (us : gmap string User) (uid : string) : list string :=
  match us !! uid with
  | Some u => pendingTasks u
  | None => []
  end.

Definition pendingOf (s : Store) (uid : string) : list string := pend (users s) uid.

(** A task is assigned to a user and not completed exactly when the user's
    [pendingTasks] holds its identifier. *)
Definition consistent (s : Store) : Prop :=
  forall tid t uid u,
    tasks s !! tid = Some t -> users s !! uid = Some u ->
    (assignedUser t = uid /\ completed t = false) <-> tid ∈ pendingTasks u.

Definition consistentb (s : Store) : bool :=
  forallb (fun pt =>
    forallb (fun pu =>
      Bool.eqb (String.eqb (assignedUser pt.2) pu.1 && negb (completed pt.2))
               (bool_decide (pt.1 ∈ pendingTasks pu.2)))
      (map_to_list (users s)))
    (map_to_list (tasks s)).

(** The three rules of a Task replacement as the specification words
    them, each as an update of the users: pull from the previous assignee
    when it is set and differs from the next; add to the next assignee
    when it is set and the task is not completed; for an unchanged
    assignee, pull or add when the completed flag flips. *)
Definition putRule1 (id prev next : string) (us : gmap string User) : gmap string User :=
  if negb (String.eqb prev "") && negb (String.eqb prev next)
  then alter (setPending (pull id)) prev us else us.

Definition putRule2 (id next : string) (nextCompleted : bool)
    (us : gmap string User) : gmap string User :=
  if negb (String.eqb next "") && negb nextCompleted
  then alter (setPending (addToSet id)) next us else us.

Definition putRule3 (id prev next : string) (prevCompleted nextCompleted : bool)
    (us : gmap string User) : gmap string User :=
  if String.eqb prev next && negb (String.eqb next "") then
    if negb prevCompleted && nextCompleted then alter (setPending (pull id)) next us
    else if prevCompleted && negb nextCompleted then alter (setPending (addToSet id)) next us
    else us
  else us.

(** The two secondary writes of PUT /api/users/:id, on the tasks. *)
Definition unassignRemoved {P : Platform} (id : string) (removed : list string)
    (ts : gmap string Task) : gmap string Task :=
  if negb (Nat.eqb (List.length removed) 0)
  then map_imap (fun k t => Some (if Task_matches (Some removed) (Some id) k t
                                  then unassign t else t)) ts
  else ts.

Definition assignAdded {P : Platform} (id uname : string) (added : list string)
    (ts : gmap string Task) : gmap string Task :=
  if negb (Nat.eqb (List.length added) 0)
  then map_imap (fun k t => Some (if Task_matches (Some added) None k t
                                  then assignTo id uname t else t)) ts
  else ts.

(** The body with another [assignedUserName]. *)
Definition withAssignedUserName (x : option string) (b : TaskBody) : TaskBody :=
  mkTaskBody (b_name b) (b_description b) (b_deadline b) (b_completed b)
    (b_assignedUser b) x.

(** No user has the empty identifier. *)
Definition noEmptyUser (s : Store) : Prop := users s !! "" = None.

Section Specification.

Context {P : Platform}.

(** The assignee a request body resolves to on a store. *)
Definition resolved (s : Store) (b : TaskBody) (next nextName : string) : Prop :=
  (nonBlank (b_assignedUser b) = false /\ next = "" /\ nextName = "unassigned") \/
  (nonBlank (b_assignedUser b) = true /\ b_assignedUser b = Some next /\
   isValid next = true /\
   exists u, users s !! next = Some u /\ nextName = u_name u).

(** The assignee written with a task: nobody, or a user of the store
    under the name the store holds. *)
Definition assigneeStored (s : Store) (next nextName : string) : Prop :=
  (next = "" /\ nextName = "unassigned") \/
  (exists u, users s !! next = Some u /\ nextName = u_name u).

(** The request spells the identifier as the store spells identifiers. *)
Definition canonical (id : string) : Prop := isValid id = true -> canon id = id.

(** The body spells its assignee as the store spells identifiers. *)
Definition canonicalAssignee (b : TaskBody) : Prop :=
  forall str, b_assignedUser b = Some str -> canonical str.

(** ** List requests *)

(** The filter, the sort specification and the projection a list request
    asks for. *)
Definition whereOf (rq : ListQuery) : JSON :=
  orEmpty (if truthy (q_where rq) then JSON_parse (default "" (q_where rq)) else None).

Definition sortOf (rq : ListQuery) : option JSON :=
  ifTruthy (if truthy (q_sort rq) then JSON_parse (default "" (q_sort rq)) else None).

Definition selectOf (q_select : option string) : Projection :=
  projectionOf (if truthy q_select then JSON_parse (default "" q_select) else None).

(** The order the store gives the documents under a sort specification,
    when it accepts it. *)
Definition orderBy {Doc} (ord : JSON -> option (list Doc -> list Doc))
    (sort : option JSON) : option (list Doc -> list Doc) :=
  match sort with
  | None => Some (fun l => l)
  | Some j => ord j
  end.

(** A list without the documents the request skips. *)
Definition skipped {A} (rq : ListQuery) (l : list A) : list A :=
  match skipOf rq with
  | Some n => drop (Z.to_nat n) l
  | None => l
  end.

(** [Query.select] takes the projection and the store accepts it. *)
Definition accepted (sel : Projection) : Prop :=
  match sel with
  | Select v => select_takes v = true /\ projection_ok v = true
  | HideVersion => True
  end.

(** Computations that neither answer nor write. *)
Definition quiet {A} (m : M A) : Prop :=
  forall w res w', m w = (res, w') -> sent w' = sent w /\ db w' = db w.

(** The [data] a list request on the tasks computes before it answers. *)
Definition tasksRoute_data (rq : ListQuery) : M Data :=
  let* w := parseJSON (q_where rq) "where" in
  let where_ := orEmpty w in
  let* s := getStore in
  if bool_decide (q_count rq = Some "true") then
    let* count := countDocuments Task_filter (map_to_list (tasks s)) where_ in
    ret (DCount count)
  else
    let* query := tasksRoute_query rq where_ in
    let* tasks := exec Task_filter Task_order (map_to_list (tasks s)) query in
    ret (DTasks (select_ query) tasks).

Definition usersRoute_data (rq : ListQuery) : M Data :=
  let* w := parseJSON (q_where rq) "where" in
  let where_ := orEmpty w in
  let* s := getStore in
  if bool_decide (q_count rq = Some "true") then
    let* count := countDocuments User_filter (map_to_list (users s)) where_ in
    ret (DCount count)
  else
    let* query := usersRoute_query rq where_ in
    let* users := exec User_filter User_order (map_to_list (users s)) query in
    ret (DUsers (select_ query) users).

(** Computations that do not answer. *)
Definition silent {A} (m : M A) : Prop :=
  forall w res w', m w = (res, w') -> sent w' = sent w.

End Specification.

(** * A concrete platform and store *)

(** The identifiers of the examples are strings of 24 hexadecimal digits,
    which [ObjectId.isValid] accepts. *)
Definition isHexDigit (c : ascii) : bool :=
  let n := nat_of_ascii c in
  ((48 <=? n) && (n <=? 57) || (97 <=? n) && (n <=? 102) || (65 <=? n) && (n <=? 70))%nat.

Fixpoint allHex (s : string) : bool :=
  match s with
  | EmptyString => true
  | String c s' => isHexDigit c && allHex s'
  end.

Definition isHex24 (s : string) : bool :=
  Nat.eqb (String.length s) 24 && allHex s.

(** The spelling of an identifier: its hexadecimal digits in lower case. *)
Definition lowerCaseDigit (c : ascii) : ascii :=
  let n := nat_of_ascii c in
  if (65 <=? n)%nat && (n <=? 70)%nat then ascii_of_nat (n + 32) else c.

Fixpoint lowerCase (s : string) : string :=
  match s with
  | EmptyString => EmptyString
  | String c s' => String (lowerCaseDigit c) (lowerCase s')
  end.

(** A platform for the examples: the only text that parses is the empty
    object, every filter keeps every document, no sort reorders and every
    projection is accepted. *)
Definition examplePlatform : Platform := {|
  JSON := unit;
  JSON_parse := fun s => if String.eqb s "{}" then Some tt else None;
  JSON_truthy := fun _ => true;
  emptyObject := tt;
  isValid := isHex24;
  canon := lowerCase;
  Task_filter := fun _ => Some (fun _ => true);
  Task_order := fun _ => Some (fun l => l);
  User_filter := fun _ => Some (fun _ => true);
  User_order := fun _ => Some (fun l => l);
  select_takes := fun _ => true;
  projection_ok := fun _ => true
|}.

Definition alice : string := "aaaaaaaaaaaaaaaaaaaaaaaa".
Definition bob : string := "bbbbbbbbbbbbbbbbbbbbbbbb".
Definition carol : string := "cccccccccccccccccccccccc".
Definition task1 : string := "111111111111111111111111".
Definition task2 : string := "222222222222222222222222".
Definition task3 : string := "333333333333333333333333".

Definition writeTask : Task := mkTask (Some "write") "" (Some 10) false alice "Alice" 1.
Definition readTask : Task := mkTask (Some "read") "" (Some 20) true alice "Alice" 2.
Definition aliceUser : User := mkUser "Alice" "alice@example.org" [task1] 0.
Definition bobUser : User := mkUser "Bob" "bob@example.org" [] 0.

(** Alice has [task1] pending; [task2] is a completed task of hers; Bob
    has nothing. *)
Definition store0 : Store :=
  mkStore (<[task1 := writeTask]> (<[task2 := readTask]> ∅))
          (<[alice := aliceUser]> (<[bob := bobUser]> ∅)).

(** PUT /api/tasks/[task1], handing the task over to Bob. *)
Definition toBob : TaskBody :=
  mkTaskBody (Some "write") None (Some 10) false (Some bob) (Some "Mallory").

(** PUT /api/users/[bob], claiming [task1]. *)
Definition bobClaims : UserBody :=
  mkUserBody (Some "Bob") (Some "bob@example.org") (Some [task1]).

(** [task1] once it is Bob's. *)
Definition handedOver : Task := mkTask (Some "write") "" (Some 10) false bob "Bob" 1.

(** [store0] after the handover by PUT /api/tasks/[task1]. *)
Definition store1 : Store :=
  mkStore (<[task1 := handedOver]> (<[task2 := readTask]> ∅))
          (<[alice := mkUser "Alice" "alice@example.org" [] 0]>
             (<[bob := mkUser "Bob" "bob@example.org" [task1] 0]> ∅)).

(** [store0] after the claim by PUT /api/users/[bob]: Alice's list is as
    it was. *)
Definition store2 : Store :=
  mkStore (<[task1 := handedOver]> (<[task2 := readTask]> ∅))
          (<[alice := aliceUser]>
             (<[bob := mkUser "Bob" "bob@example.org" [task1] 0]> ∅)).

(** [store0] with Bob's document replaced and the tasks untouched. *)
Definition store2_half : Store :=
  mkStore (tasks store0)
          (<[alice := aliceUser]>
             (<[bob := mkUser "Bob" "bob@example.org" [task1] 0]> ∅)).

(** [store0] after DELETE /api/users/[alice], and after
    DELETE /api/tasks/[task1]. *)
Definition store0_noAlice : Store :=
  mkStore (<[task1 := mkTask (Some "write") "" (Some 10) false "" "unassigned" 1]>
             (<[task2 := mkTask (Some "read") "" (Some 20) true "" "unassigned" 2]> ∅))
          (<[bob := bobUser]> ∅).

Definition store0_noTask1 : Store :=
  mkStore (<[task2 := readTask]> ∅)
          (<[alice := mkUser "Alice" "alice@example.org" [] 0]> (<[bob := bobUser]> ∅)).

(** [store0] after POST /api/tasks creates [task3] for Bob. *)
Definition created : Task := mkTask (Some "write") "" (Some 10) false bob "Bob" 3.

Definition store3 : Store :=
  mkStore (<[task3 := created]> (tasks store0))
          (<[alice := aliceUser]>
             (<[bob := mkUser "Bob" "bob@example.org" [task3] 0]> ∅)).

(** POST /api/users for Carol, who names [task1] in her [pendingTasks],
    and [store0] after it. *)
Definition carolJoins : UserBody :=
  mkUserBody (Some "Carol") (Some "carol@example.org") (Some [task1]).
Definition carolUser : User := mkUser "Carol" "carol@example.org" [task1] 5.

Definition store4 : Store :=
  mkStore (tasks store0) (<[carol := carolUser]> (users store0)).

(** A task whose identifier has a letter, the same identifier spelled in
    upper case, and PUT /api/users/[bob] claiming the task under that
    spelling, with the stores before and after. *)
Definition task4 : string := "44444444444444444444444a".
Definition task4_upper : string := "44444444444444444444444A".
Definition planTask : Task := mkTask (Some "plan") "" (Some 30) false "" "unassigned" 4.

Definition bobClaimsUpper : UserBody :=
  mkUserBody (Some "Bob") (Some "bob@example.org") (Some [task4_upper]).

Definition store5 : Store :=
  mkStore (<[task4 := planTask]> (tasks store0)) (users store0).

Definition store6 : Store :=
  mkStore (<[task4 := mkTask (Some "plan") "" (Some 30) false bob "Bob" 4]> (tasks store0))
          (<[alice := aliceUser]>
             (<[bob := mkUser "Bob" "bob@example.org" [task4_upper] 0]> ∅)).

(** A NO-BREAK SPACE, in UTF-8. *)
Definition nbsp : string :=
  String (ascii_of_nat 194) (String (ascii_of_nat 160) EmptyString).

(** Bodies of task requests: one without a name, and one whose assignee
    is a blank string. *)
Definition nameless : TaskBody := mkTaskBody None None (Some 10) false None None.
Definition toBlank : TaskBody :=
  mkTaskBody (Some "write") None (Some 10) false (Some " ") None.

(** [store0] after POST /api/tasks creates [task3] for nobody. *)
Definition store3_unassigned : Store :=
  mkStore (<[task3 := mkTask (Some "write") "" (Some 10) false "" "unassigned" 3]>
             (tasks store0))
          (users store0).

(** The number of documents a response lists. *)
Definition listed {P : Platform} (r : option Response) : option nat :=
  match r with
  | Some r =>
      match body r with
      | Some e =>
          match data e with
          | DTasks _ l => Some (List.length l)
          | DUsers _ l => Some (List.length l)
          | _ => None
          end
      | None => None
      end
  | None => None
  end.

(** Query strings of list requests. *)
Definition noParameters : ListQuery := mkListQuery None None None None None None.
Definition withLimit (v : string) : ListQuery :=
  mkListQuery None None None None (Some v) None.
Definition withSkip (v : string) : ListQuery :=
  mkListQuery None None None (Some v) None None.
Definition withWhere (v : string) : ListQuery :=
  mkListQuery (Some v) None None None None None.
Definition countWithSort (v : string) : ListQuery :=
  mkListQuery None (Some v) None None None (Some "true").

(** A store of 101 tasks and 101 users. *)
Definition manyKeys : list string :=
  map (fun n => String (ascii_of_nat (33 + n)) EmptyString) (seq 0 101).
Definition bigStore : Store :=
  mkStore (list_to_map (map (fun k => (k, writeTask)) manyKeys))
          (list_to_map (map (fun k => (k, bobUser)) manyKeys)).

(** * Properties *)

(** ** Properties of the helpers *)

Example parseInt_digits : parseInt "12abc" = Some 12.
Proof. reflexivity. Qed.

Example parseInt_NaN : parseInt "abc" = None /\ parseInt "-" = None.
Proof. split; reflexivity. Qed.

Example parseInt_signed : parseInt " -5" = Some (-5) /\ parseInt "+7" = Some 7.
Proof. split; reflexivity. Qed.

Example nonBlank_spaces : nonBlank (Some "  ") = false /\ nonBlank (Some " a ") = true.
Proof. split; reflexivity. Qed.

Example Set_from_duplicates : Set_from ["a"; "b"; "a"; "c"; "b"] = ["a"; "b"; "c"].
Proof. reflexivity. Qed.

Example addToSet_twice : addToSet "a" (addToSet "a" ["b"]) = ["b"; "a"].
Proof. reflexivity. Qed.

Lemma pull_not_in (x : string) (l : list string) : x ∉ pull x l.
Proof. unfold pull. rewrite list_elem_of_filter. tauto. Qed.

Lemma pull_other (x y : string) (l : list string) : y ≠ x -> y ∈ pull x l <-> y ∈ l.
Proof. intros Hne. unfold pull. rewrite list_elem_of_filter. tauto. Qed.

Lemma addToSet_in (x : string) (l : list string) : x ∈ addToSet x l.
Proof. unfold addToSet. case_decide; [done|]. apply elem_of_app. right. by left. Qed.

Lemma addToSet_other (x y : string) (l : list string) :
  y ≠ x -> y ∈ addToSet x l <-> y ∈ l.
Proof.
  intros Hne. unfold addToSet. case_decide; [done|].
  rewrite elem_of_app, list_elem_of_singleton. tauto.
Qed.

Lemma addToSet_idem (x : string) (l : list string) :
  addToSet x (addToSet x l) = addToSet x l.
Proof.
  unfold addToSet at 1. case_decide as H; [done|].
  destruct H. apply addToSet_in.
Qed.

Lemma pull_idem (x : string) (l : list string) : pull x (pull x l) = pull x l.
Proof.
  unfold pull. induction l as [|y l IH]; [done|].
  rewrite (filter_cons _ y l). case_decide.
  - rewrite filter_cons. case_decide; [|done]. by f_equal.
  - done.
Qed.

Lemma addToSet_NoDup (x : string) (l : list string) : NoDup l -> NoDup (addToSet x l).
Proof.
  intros Hnd. unfold addToSet. case_decide as H; [done|].
  apply NoDup_app. split; [done|]. split.
  - intros y Hy Hy'. apply list_elem_of_singleton in Hy'. by subst.
  - apply NoDup_singleton.
Qed.

Lemma pull_NoDup (x : string) (l : list string) : NoDup l -> NoDup (pull x l).
Proof. intros. unfold pull. by apply NoDup_filter. Qed.

Lemma Set_from_elem (l : list string) (x : string) : x ∈ Set_from l <-> x ∈ l.
Proof.
  induction l as [|y l IH]; cbn; [done|].
  rewrite !elem_of_cons, list_elem_of_filter, IH.
  destruct (decide (x = y)); tauto.
Qed.

Lemma Set_from_NoDup (l : list string) : NoDup (Set_from l).
Proof.
  induction l as [|y l IH]; cbn; [constructor|].
  constructor.
  - rewrite list_elem_of_filter. tauto.
  - by apply NoDup_filter.
Qed.

(** ** The rules of PUT /api/tasks/:id on [pendingTasks] *)

Lemma alter_is_Some (g : User -> User) (u uid : string) (us : gmap string User) :
  is_Some (alter g u us !! uid) <-> is_Some (us !! uid).
Proof.
  destruct (decide (u = uid)) as [->|Hne].
  - rewrite lookup_alter_eq. destruct (us !! uid); cbn; split; intros [? ?]; eauto; done.
  - by rewrite lookup_alter_ne.
Qed.

Lemma pend_alter_ne (g : User -> User) (u uid : string) (us : gmap string User) :
  u ≠ uid -> pend (alter g u us) uid = pend us uid.
Proof. intros Hne. unfold pend. by rewrite lookup_alter_ne. Qed.

Lemma pend_alter_pull (id u : string) (us : gmap string User) :
  pend (alter (setPending (pull id)) u us) u = pull id (pend us u).
Proof. unfold pend. rewrite lookup_alter_eq. by destruct (us !! u). Qed.

Lemma pend_alter_add (id u : string) (us : gmap string User) :
  is_Some (us !! u) ->
  pend (alter (setPending (addToSet id)) u us) u = addToSet id (pend us u).
Proof. intros [usr Hu]. unfold pend. rewrite lookup_alter_eq, Hu. done. Qed.

Lemma pull_mem (id u uid x : string) (us : gmap string User) :
  x ∈ pend (alter (setPending (pull id)) u us) uid <->
  x ∈ pend us uid /\ ~ (x = id /\ uid = u).
Proof.
  destruct (decide (u = uid)) as [->|Hne].
  - rewrite pend_alter_pull. unfold pull. rewrite list_elem_of_filter. tauto.
  - rewrite pend_alter_ne by done. split; [|tauto]. intros; split; [done|]. intros [_ ?]. done.
Qed.

Lemma add_mem (id u uid x : string) (us : gmap string User) :
  is_Some (us !! u) ->
  x ∈ pend (alter (setPending (addToSet id)) u us) uid <->
  x ∈ pend us uid \/ (x = id /\ uid = u).
Proof.
  intros Hu. destruct (decide (u = uid)) as [->|Hne].
  - rewrite pend_alter_add by done.
    destruct (decide (x = id)) as [->|Hx].
    + split; [auto|]. intros _. apply addToSet_in.
    + rewrite addToSet_other by done. tauto.
  - rewrite pend_alter_ne by done. split; [auto|]. intros [?|[_ ?]]; [done|]. by subst.
Qed.

Lemma putRule1_is_Some id prev next uid us :
  is_Some (putRule1 id prev next us !! uid) <-> is_Some (us !! uid).
Proof. unfold putRule1. case_match; [apply alter_is_Some|done]. Qed.

Lemma putRule2_is_Some id next nc uid us :
  is_Some (putRule2 id next nc us !! uid) <-> is_Some (us !! uid).
Proof. unfold putRule2. case_match; [apply alter_is_Some|done]. Qed.

Lemma putRule3_is_Some id prev next pc nc uid us :
  is_Some (putRule3 id prev next pc nc us !! uid) <-> is_Some (us !! uid).
Proof. unfold putRule3. repeat case_match; try apply alter_is_Some; done. Qed.

Lemma putRule1_mem id prev next uid x us :
  x ∈ pend (putRule1 id prev next us) uid <->
  x ∈ pend us uid /\ ~ (x = id /\ uid = prev /\ prev ≠ "" /\ prev ≠ next).
Proof.
  unfold putRule1.
  destruct (String.eqb prev "") eqn:E1; cbn.
  { apply String.eqb_eq in E1. tauto. }
  apply String.eqb_neq in E1.
  destruct (String.eqb prev next) eqn:E2; cbn.
  { apply String.eqb_eq in E2. tauto. }
  apply String.eqb_neq in E2. rewrite pull_mem. tauto.
Qed.

Lemma putRule2_mem id next nc uid x us :
  (next = "" \/ is_Some (us !! next)) ->
  x ∈ pend (putRule2 id next nc us) uid <->
  x ∈ pend us uid \/ (x = id /\ uid = next /\ next ≠ "" /\ nc = false).
Proof.
  intros Hex. unfold putRule2.
  destruct (String.eqb next "") eqn:E1; cbn.
  { apply String.eqb_eq in E1. tauto. }
  apply String.eqb_neq in E1. destruct Hex as [?|Hex]; [done|].
  destruct nc; cbn.
  - split; [auto|]. intros [?|(_ & _ & _ & ?)]; done.
  - rewrite add_mem by done. tauto.
Qed.

Lemma putRule3_mem id prev next pc nc uid x us :
  (next = "" \/ is_Some (us !! next)) ->
  x ∈ pend (putRule3 id prev next pc nc us) uid <->
  (x ∈ pend us uid /\
     ~ (x = id /\ uid = next /\ prev = next /\ next ≠ "" /\ pc = false /\ nc = true)) \/
  (x = id /\ uid = next /\ prev = next /\ next ≠ "" /\ pc = true /\ nc = false).
Proof.
  intros Hex. unfold putRule3.
  destruct (String.eqb prev next) eqn:E1; cbn.
  2: { apply String.eqb_neq in E1. tauto. }
  apply String.eqb_eq in E1.
  destruct (String.eqb next "") eqn:E2; cbn.
  { apply String.eqb_eq in E2. tauto. }
  apply String.eqb_neq in E2. destruct Hex as [?|Hex]; [done|].
  destruct pc, nc; cbn; rewrite ?pull_mem, ?add_mem by done;
    try tauto; intuition congruence.
Qed.

Lemma pend_alter_NoDup (f : list string -> list string) (u uid : string)
    (us : gmap string User) :
  (forall l, NoDup l -> NoDup (f l)) ->
  NoDup (pend us uid) -> NoDup (pend (alter (setPending f) u us) uid).
Proof.
  intros Hf. destruct (decide (u = uid)) as [->|Hne].
  - unfold pend. rewrite lookup_alter_eq. destruct (us !! uid); cbn; auto.
  - by rewrite pend_alter_ne.
Qed.

Lemma putRules_NoDup id prev next pc nc uid us :
  NoDup (pend us uid) ->
  NoDup (pend (putRule3 id prev next pc nc
                 (putRule2 id next nc (putRule1 id prev next us))) uid).
Proof.
  intros Hnd.
  assert (H1 : NoDup (pend (putRule1 id prev next us) uid)).
  { unfold putRule1. case_match; [|done].
    apply pend_alter_NoDup; [apply pull_NoDup|done]. }
  assert (H2 : NoDup (pend (putRule2 id next nc (putRule1 id prev next us)) uid)).
  { unfold putRule2. case_match; [|done].
    apply pend_alter_NoDup; [apply addToSet_NoDup|done]. }
  unfold putRule3. repeat case_match; try done;
    apply pend_alter_NoDup; auto using pull_NoDup, addToSet_NoDup.
Qed.

Lemma updateMany_lookup {P : Platform} ids au upd (ts : gmap string Task) tid :
  map_imap (fun id t => Some (if Task_matches ids au id t then upd t else t)) ts !! tid =
  (fun t => if Task_matches ids au tid t then upd t else t) <$> ts !! tid.
Proof. rewrite map_lookup_imap. by destruct (ts !! tid). Qed.

(** ** PUT /api/users/:id *)

Lemma elem_of_List_filter (p : string -> bool) (l : list string) (x : string) :
  x ∈ List.filter p l <-> x ∈ l /\ p x = true.
Proof. rewrite !list_elem_of_In. apply filter_In. Qed.

(** The identifiers in the first set and not in the second. *)
Lemma elem_of_difference_filter (l1 l2 : list string) (x : string) :
  x ∈ List.filter (fun t => negb (Set_has (Set_from l2) t)) (Set_from l1) <->
  x ∈ l1 /\ x ∉ l2.
Proof.
  rewrite elem_of_List_filter, Set_from_elem. unfold Set_has.
  rewrite negb_true_iff, bool_decide_eq_false, Set_from_elem. tauto.
Qed.

Lemma unassignRemoved_lookup {P : Platform} id removed ts tid :
  unassignRemoved id removed ts !! tid =
  (fun t => if bool_decide (tid ∈ canon <$> removed) && String.eqb (assignedUser t) id
            then unassign t else t) <$> ts !! tid.
Proof.
  unfold unassignRemoved. destruct removed as [|x removed]; cbn [List.length Nat.eqb negb].
  - destruct (ts !! tid) as [t|]; [|done]. cbn.
    rewrite bool_decide_eq_false_2; [done|]. apply not_elem_of_nil.
  - by rewrite updateMany_lookup.
Qed.

Lemma assignAdded_lookup {P : Platform} id uname added ts tid :
  assignAdded id uname added ts !! tid =
  (fun t => if bool_decide (tid ∈ canon <$> added) then assignTo id uname t else t)
    <$> ts !! tid.
Proof.
  unfold assignAdded. destruct added as [|x added]; cbn [List.length Nat.eqb negb].
  - destruct (ts !! tid) as [t|]; [|done]. cbn.
    rewrite bool_decide_eq_false_2; [done|]. apply not_elem_of_nil.
  - rewrite updateMany_lookup. destruct (ts !! tid) as [t|]; [|done]. cbn.
    unfold Task_matches. by rewrite andb_true_r.
Qed.

Lemma limitOf_absent rq dflt : q_limit rq = None -> limitOf rq dflt = dflt.
Proof. unfold limitOf. by intros ->. Qed.

Lemma skipOf_absent rq : q_skip rq = None -> skipOf rq = None.
Proof. unfold skipOf. by intros ->. Qed.

Lemma consistentb_spec (s : Store) : consistentb s = true <-> consistent s.
Proof.
  unfold consistentb, consistent. rewrite forallb_forall. split.
  - intros Hall tid t uid u Ht Hu.
    specialize (Hall (tid, t)). rewrite <- list_elem_of_In, elem_of_map_to_list in Hall.
    specialize (Hall Ht). rewrite forallb_forall in Hall.
    specialize (Hall (uid, u)). rewrite <- list_elem_of_In, elem_of_map_to_list in Hall.
    specialize (Hall Hu). apply Bool.eqb_prop in Hall. cbn in Hall.
    rewrite <- (bool_decide_eq_true (tid ∈ pendingTasks u)), <- Hall.
    rewrite andb_true_iff, String.eqb_eq, negb_true_iff. done.
  - intros Hc [tid t] Ht. rewrite <- list_elem_of_In, elem_of_map_to_list in Ht.
    rewrite forallb_forall. intros [uid u] Hu.
    rewrite <- list_elem_of_In, elem_of_map_to_list in Hu. cbn.
    specialize (Hc tid t uid u Ht Hu).
    match goal with |- Bool.eqb ?x ?y = true => assert (Hxy : x = y) end.
    { apply Bool.eq_iff_eq_true.
      rewrite andb_true_iff, String.eqb_eq, negb_true_iff, bool_decide_eq_true. done. }
    rewrite Hxy. apply Bool.eqb_reflx.
Qed.

(** ** The invariant along the handlers *)

(** The invariant, read on [pend]. *)
Lemma consistent_pend (s : Store) :
  consistent s <->
  forall tid t uid,
    tasks s !! tid = Some t -> is_Some (users s !! uid) ->
    (assignedUser t = uid /\ completed t = false) <-> tid ∈ pend (users s) uid.
Proof.
  unfold consistent, pend. split.
  - intros Hc tid t uid Ht [u Hu]. rewrite Hu. by apply Hc.
  - intros Hc tid t uid u Ht Hu. specialize (Hc tid t uid Ht (ex_intro _ u Hu)).
    by rewrite Hu in Hc.
Qed.

Lemma putRules_is_Some id prev next pc nc uid (us : gmap string User) :
  is_Some (putRule3 id prev next pc nc (putRule2 id next nc (putRule1 id prev next us)) !! uid)
  <-> is_Some (us !! uid).
Proof. by rewrite putRule3_is_Some, putRule2_is_Some, putRule1_is_Some. Qed.

(** Membership after the three rules. *)
Lemma putRules_mem id prev next pc nc uid x (us : gmap string User) :
  (next = "" \/ is_Some (us !! next)) ->
  x ∈ pend (putRule3 id prev next pc nc (putRule2 id next nc (putRule1 id prev next us))) uid
  <->
  (x ≠ id /\ x ∈ pend us uid) \/
  (x = id /\ uid = next /\ next ≠ "" /\ nc = false) \/
  (x = id /\ x ∈ pend us uid /\ ~ (uid = prev /\ prev ≠ "" /\ prev ≠ next) /\
   ~ (uid = next /\ prev = next /\ next ≠ "" /\ pc = false /\ nc = true)).
Proof.
  intros Hex.
  assert (Hex1 : next = "" \/ is_Some (putRule1 id prev next us !! next)).
  { destruct Hex; [by left|right]. by apply putRule1_is_Some. }
  assert (Hex2 : next = "" \/
     is_Some (putRule2 id next nc (putRule1 id prev next us) !! next)).
  { destruct Hex1; [by left|right]. by apply putRule2_is_Some. }
  rewrite putRule3_mem, putRule2_mem, putRule1_mem by done.
  destruct (decide (x = id)) as [->|Hx]; [|tauto].
  destruct pc, nc; intuition congruence.
Qed.

Lemma putRules_mem_id id prev next pc nc uid (us : gmap string User) :
  (next = "" \/ is_Some (us !! next)) ->
  id ∈ pend (putRule3 id prev next pc nc (putRule2 id next nc (putRule1 id prev next us))) uid
  <->
  (uid = next /\ next ≠ "" /\ nc = false) \/
  (id ∈ pend us uid /\ ~ (uid = prev /\ prev ≠ "" /\ prev ≠ next) /\
   ~ (uid = next /\ prev = next /\ next ≠ "" /\ pc = false /\ nc = true)).
Proof. intros Hex. rewrite putRules_mem by done. tauto. Qed.

Lemma putRules_mem_other id prev next pc nc uid x (us : gmap string User) :
  (next = "" \/ is_Some (us !! next)) -> x ≠ id ->
  x ∈ pend (putRule3 id prev next pc nc (putRule2 id next nc (putRule1 id prev next us))) uid
  <-> x ∈ pend us uid.
Proof. intros Hex Hx. rewrite putRules_mem by done. tauto. Qed.

(** The step of the invariant at the replaced task: from "in the previous
    assignee's list exactly when not completed" to the same for the next
    assignee. *)
Lemma put_invariant_step (prev next uid : string) (pc nc : bool) (wasIn : Prop) :
  uid ≠ "" ->
  ((prev = uid /\ pc = false) <-> wasIn) ->
  (next = uid /\ nc = false) <->
  (uid = next /\ next ≠ "" /\ nc = false) \/
  (wasIn /\ ~ (uid = prev /\ prev ≠ "" /\ prev ≠ next) /\
   ~ (uid = next /\ prev = next /\ next ≠ "" /\ pc = false /\ nc = true)).
Proof.
  intros Huid Hold. split.
  - intros [-> Hnc]. by left.
  - intros [(-> & _ & Hnc)|(Hin & H1 & H2)]; [done|].
    apply Hold in Hin as [-> ->].
    destruct (decide (uid = next)) as [->|Hn].
    + split; [done|]. destruct nc; [|done]. exfalso. by apply H2.
    + exfalso. by apply H1.
Qed.

Section Properties.

Context {P : Platform}.

Lemma tick_calm s o : tick (calm s o) = (inr tt, calm s o).
Proof. reflexivity. Qed.

Lemma Task_findById_calm id s o :
  Task_findById id (calm s o) =
  if isValid id then (inr (tasks s !! id), calm s o) else (inl castError_id, calm s o).
Proof. unfold Task_findById, castId, bind. by destruct (isValid id). Qed.

Lemma User_findById_calm id s o :
  User_findById id (calm s o) =
  if isValid id then (inr (users s !! id), calm s o) else (inl castError_id, calm s o).
Proof. unfold User_findById, castId, bind. by destruct (isValid id). Qed.

Lemma Task_save_calm id t s o :
  Task_save false id t (calm s o) =
  if Task_validate t then (inr t, calm (mkStore (<[id := t]> (tasks s)) (users s)) o)
  else (inl validationError, calm s o).
Proof. unfold Task_save, bind. by destruct (Task_validate t). Qed.

Lemma User_findByIdAndUpdate_calm id f s o :
  User_findByIdAndUpdate id f (calm s o) =
  if isValid id
  then (inr tt, calm (mkStore (tasks s) (alter (setPending f) id (users s))) o)
  else (inl castError_id, calm s o).
Proof. unfold User_findByIdAndUpdate, castId, bind. by destruct (isValid id). Qed.

(** A guarded update of one user's [pendingTasks] either is performed or
    fails on the cast of the identifier. *)
Lemma when_update_calm (c : bool) id f s o :
  when c (User_findByIdAndUpdate id f) (calm s o) =
    (inr tt, calm (mkStore (tasks s)
                     (if c then alter (setPending f) id (users s) else users s)) o) \/
  when c (User_findByIdAndUpdate id f) (calm s o) = (inl castError_id, calm s o).
Proof.
  destruct c; cbn.
  - rewrite User_findByIdAndUpdate_calm. destruct (isValid id); auto.
  - left. by destruct s.
Qed.

(** The assignee of a body, on a store where no operation fails: either the
    pair it resolves to, or an error of status 400; the store is not
    written. *)
Lemma resolveAssignee_calm b s o :
  (exists next nextName,
      resolveAssignee b (calm s o) = (inr (next, nextName), calm s o) /\
      resolved s b next nextName) \/
  (exists e, resolveAssignee b (calm s o) = (inl e, calm s o) /\ e_status e = Some 400%nat).
Proof.
  unfold resolveAssignee, resolved.
  destruct (nonBlank (b_assignedUser b)) eqn:Hnb.
  2: { left. exists "", "unassigned". split; [done|]. by left. }
  destruct (b_assignedUser b) as [u|] eqn:Hu; [|done].
  cbn in Hnb. apply andb_prop in Hnb as [Hne _].
  unfold bind, ensureUserExists. cbn. rewrite Hne. cbn.
  destruct (isValid u) eqn:Hv; cbn.
  2: { right. eexists. split; [reflexivity|done]. }
  unfold bind. rewrite User_findById_calm, Hv.
  destruct (users s !! u) as [usr|] eqn:Hus; cbn.
  - left. exists u, (u_name usr). split; [done|]. right. eauto 10.
  - right. eexists. split; [reflexivity|done].
Qed.

Lemma taskRoute_put_catch_calm e s :
  exists r, taskRoute_put_catch e (calm s None) = (inr tt, calm s (Some r)) /\
            status r ≠ 200%nat.
Proof.
  unfold taskRoute_put_catch.
  repeat match goal with |- context [if ?c then _ else _] => destruct c end;
    eexists; (split; [reflexivity|done]).
Qed.

(** The callback of PUT /api/tasks/:id when no operation fails: an error
    with nothing sent, or the 404 of a missing task, or the new document
    saved and the three rules applied in order. *)
Lemma taskRoute_put_txn_calm (id : string) (b : TaskBody) (s : Store) res w :
  taskRoute_put_txn id b (calm s None) = (res, w) ->
  (exists e s2, res = inl e /\ w = calm s2 None) \/
  (exists r, res = inr None /\ w = calm s (Some r) /\ status r = 404%nat) \/
  (exists t next nextName,
    tasks s !! id = Some t /\
    resolved s b next nextName /\
    let t' := mkTask (b_name b) (orDefault (b_description b) "") (b_deadline b)
                (b_completed b) next nextName (dateCreated t) in
    Task_validate t' = true /\
    res = inr (Some t') /\
    w = calm (mkStore (<[id := t']> (tasks s))
           (putRule3 id (assignedUser t) next (completed t) (b_completed b)
              (putRule2 id next (b_completed b)
                 (putRule1 id (assignedUser t) next (users s))))) None).
Proof.
  unfold taskRoute_put_txn. unfold bind at 1. rewrite Task_findById_calm.
  destruct (isValid id) eqn:Hid; [|intros [= <- <-]; left; eauto].
  destruct (tasks s !! id) as [t|] eqn:Ht.
  2: { intros [= <- <-]. right; left. eexists. split; [reflexivity|done]. }
  unfold bind at 1.
  destruct (resolveAssignee_calm b s None) as [(next & nextName & -> & Hres)|(e & -> & He)];
    [|intros [= <- <-]; left; eauto].
  cbn [fst snd]. unfold bind at 1. rewrite Task_save_calm.
  match goal with |- context [Task_validate ?x] => destruct (Task_validate x) eqn:Hval end;
    [|intros [= <- <-]; left; eauto].
  cbn [completed].
  unfold bind at 1.
  match goal with |- context [when ?c (User_findByIdAndUpdate ?u ?f) (calm ?s0 ?o)] =>
    destruct (when_update_calm c u f s0 o) as [-> | ->] end;
    [|intros [= <- <-]; left; eauto].
  unfold bind at 1.
  match goal with |- context [when ?c (User_findByIdAndUpdate ?u ?f) (calm ?s0 ?o)] =>
    destruct (when_update_calm c u f s0 o) as [-> | ->] end;
    [|intros [= <- <-]; left; eauto].
  cbn [tasks users]. unfold bind at 1.
  fold (putRule1 id (assignedUser t) next (users s)).
  fold (putRule2 id next (b_completed b) (putRule1 id (assignedUser t) next (users s))).
  destruct (String.eqb (assignedUser t) next && negb (String.eqb next "")) eqn:Hc; cbn [when].
  2: { intros [= <- <-]. right; right. exists t, next, nextName.
       unfold putRule3. rewrite Hc. done. }
  destruct (negb (completed t) && b_completed b) eqn:Hc1.
  { rewrite User_findByIdAndUpdate_calm.
    destruct (isValid next); intros [= <- <-]; [|left; eauto].
    right; right. exists t, next, nextName. unfold putRule3. rewrite Hc, Hc1. done. }
  destruct (completed t && negb (b_completed b)) eqn:Hc2.
  { rewrite User_findByIdAndUpdate_calm.
    destruct (isValid next); intros [= <- <-]; [|left; eauto].
    right; right. exists t, next, nextName. unfold putRule3. rewrite Hc, Hc1, Hc2. done. }
  intros [= <- <-]. right; right. exists t, next, nextName.
  unfold putRule3. rewrite Hc, Hc1, Hc2. by destruct s.
Qed.

Lemma taskRoute_put_ok (id : string) (b : TaskBody) (s s' : Store) (r : Response) :
  run (taskRoute_put id b) [] s = (Some r, s') ->
  status r = 200%nat ->
  exists t next nextName,
    tasks s !! id = Some t /\
    resolved s b next nextName /\
    let t' := mkTask (b_name b) (orDefault (b_description b) "") (b_deadline b)
                (b_completed b) next nextName (dateCreated t) in
    Task_validate t' = true /\
    r = json 200 "Task updated successfully" (DTask id t') /\
    s' = mkStore (<[id := t']> (tasks s))
           (putRule3 id (assignedUser t) next (completed t) (b_completed b)
              (putRule2 id next (b_completed b)
                 (putRule1 id (assignedUser t) next (users s)))).
Proof.
  unfold run, taskRoute_put, try_catch. unfold bind at 1. unfold withTransaction.
  destruct (taskRoute_put_txn id b (calm s None)) as [res w] eqn:E.
  apply taskRoute_put_txn_calm in E
    as [(e & s2 & -> & ->)|[(r0 & -> & -> & Hr0)|(t & next & nextName & Ht & Hres & Hval & -> & ->)]].
  - cbn [db sent faults].
    destruct (taskRoute_put_catch_calm e s) as (r1 & -> & Hr1).
    cbn. intros [= <- <-]. done.
  - cbn. intros [= <- <-] Hst. rewrite Hr0 in Hst. done.
  - cbn. intros [= <- <-] _. exists t, next, nextName. done.
Qed.

(** The user a body resolves to exists in the store. *)
Lemma resolved_exists s b next nextName :
  resolved s b next nextName -> next = "" \/ is_Some (users s !! next).
Proof.
  intros [(_ & -> & _)|(_ & _ & _ & u & Hu & _)]; [by left|right; eauto].
Qed.

Lemma resolved_stored s b next nextName :
  resolved s b next nextName -> assigneeStored s next nextName.
Proof.
  intros [(_ & -> & ->)|(_ & _ & _ & u & Hu & ->)]; [by left|right; eauto].
Qed.

(** C3: on a successful PUT /api/tasks/:id the users are updated by the
    three rules, evaluated one after the other: the task's identifier is
    pulled from the previous assignee when that one is set and differs
    from the next; it is added to the next assignee when that one is set
    and the task is not completed; for an unchanged assignee it is added
    when the task goes from completed to not completed and pulled when it
    goes the other way.  Adding is [$addToSet]: when two rules add, the
    result is that of one addition, and no duplicate is introduced. *)
Theorem task_replace_rules (id : string) (b : TaskBody) (s s' : Store)
    (r : Response) (t : Task) :
  run (taskRoute_put id b) [] s = (Some r, s') ->
  status r = 200%nat ->
  tasks s !! id = Some t ->
  exists t',
    tasks s' !! id = Some t' /\
    completed t' = b_completed b /\
    let prev := assignedUser t in
    let next := assignedUser t' in
    users s' = putRule3 id prev next (completed t) (completed t')
                 (putRule2 id next (completed t') (putRule1 id prev next (users s))) /\
    (prev ≠ "" -> prev ≠ next -> id ∉ pendingOf s' prev) /\
    (next ≠ "" -> completed t' = false -> id ∈ pendingOf s' next) /\
    (prev = next -> next ≠ "" -> completed t = true -> completed t' = false ->
       id ∈ pendingOf s' next /\
       users s' = alter (setPending (addToSet id)) next (users s)) /\
    (prev = next -> next ≠ "" -> completed t = false -> completed t' = true ->
       id ∉ pendingOf s' next) /\
    (forall uid, NoDup (pendingOf s uid) -> NoDup (pendingOf s' uid)).
Proof.
  intros Hrun Hst Ht.
  destruct (taskRoute_put_ok _ _ _ _ _ Hrun Hst)
    as (t0 & next & nextName & Ht0 & Hres & Hval & _ & ->).
  rewrite Ht in Ht0. injection Ht0 as <-.
  pose proof (resolved_exists _ _ _ _ Hres) as Hex.
  eexists. cbn [tasks users]. rewrite lookup_insert_eq.
  split; [reflexivity|]. cbn [completed assignedUser]. split; [reflexivity|].
  split; [reflexivity|].
  unfold pendingOf. cbn [users].
  assert (Hex1 : next = "" \/ is_Some (putRule1 id (assignedUser t) next (users s) !! next)).
  { destruct Hex; [by left|right]. by apply putRule1_is_Some. }
  assert (Hex2 : next = "" \/
     is_Some (putRule2 id next (b_completed b)
                (putRule1 id (assignedUser t) next (users s)) !! next)).
  { destruct Hex1; [by left|right]. by apply putRule2_is_Some. }
  split; [|split; [|split; [|split]]].
  - intros Hp Hpn. rewrite putRule3_mem, putRule2_mem, putRule1_mem by done.
    intuition congruence.
  - intros Hn Hc. rewrite putRule3_mem, putRule2_mem, putRule1_mem by done.
    left. split; [tauto|]. rewrite Hc. intuition congruence.
  - intros Hpn Hn Hc Hc'. split.
    + rewrite putRule3_mem, putRule2_mem, putRule1_mem by done. tauto.
    + unfold putRule1, putRule2, putRule3. rewrite Hpn, Hc, Hc'.
      rewrite String.eqb_refl. apply String.eqb_neq in Hn. rewrite Hn. cbn.
      rewrite alter_alter_eq. apply alter_ext. intros u _.
      unfold setPending, compose. cbn. by rewrite addToSet_idem.
  - intros Hp Hn Hc Hc'. rewrite putRule3_mem, putRule2_mem, putRule1_mem by done.
    intuition congruence.
  - intros uid Hnd. by apply putRules_NoDup.
Qed.

(** C10: a successful PUT /api/tasks/:id keeps the task under its
    identifier and keeps its [dateCreated]; name, description, deadline
    and completed are those of the body; the assignee is nobody or a user
    of the store with the name the store holds, and it is the one the
    body resolves to when the body spells it as the store does; no other
    task is touched. *)
Theorem task_replace_frame (id : string) (b : TaskBody) (s s' : Store)
    (r : Response) (t : Task) :
  run (taskRoute_put id b) [] s = (Some r, s') ->
  status r = 200%nat ->
  tasks s !! id = Some t ->
  exists t',
    tasks s' !! id = Some t' /\
    dateCreated t' = dateCreated t /\
    name t' = b_name b /\
    description t' = orDefault (b_description b) "" /\
    deadline t' = b_deadline b /\
    completed t' = b_completed b /\
    assigneeStored s (assignedUser t') (assignedUserName t') /\
    (canonicalAssignee b -> resolved s b (assignedUser t') (assignedUserName t')) /\
    dom (tasks s') = dom (tasks s) /\
    (forall id2, id2 ≠ id -> tasks s' !! id2 = tasks s !! id2).
Proof.
  intros Hrun Hst Ht.
  destruct (taskRoute_put_ok _ _ _ _ _ Hrun Hst)
    as (t0 & next & nextName & Ht0 & Hres & Hval & _ & ->).
  rewrite Ht in Ht0. injection Ht0 as <-.
  eexists. cbn [tasks]. rewrite lookup_insert_eq. split; [reflexivity|].
  cbn. repeat (split; [done|]).
  split; [by eapply resolved_stored|]. split; [done|]. split.
  - apply dom_insert_lookup_L. eauto.
  - intros id2 Hne. by rewrite lookup_insert_ne.
Qed.

Lemma castIds_calm ids s o :
  castIds ids (calm s o) =
  if forallb isValid ids then (inr tt, calm s o) else (inl castError_id, calm s o).
Proof.
  induction ids as [|i ids IH]; [done|].
  cbn. unfold bind, castId. destruct (isValid i); cbn; [apply IH|done].
Qed.

Lemma Task_updateMany_calm ids au upd s o :
  Task_updateMany ids au upd (calm s o) =
  if forallb isValid (default [] ids)
  then (inr tt,
        calm (mkStore
                (map_imap (fun id t => Some (if Task_matches ids au id t then upd t else t))
                   (tasks s))
                (users s)) o)
  else (inl castError_id, calm s o).
Proof.
  unfold Task_updateMany, bind. rewrite castIds_calm.
  by destruct (forallb isValid (default [] ids)).
Qed.

Lemma Task_deleteOne_calm id s o :
  Task_deleteOne id (calm s o) = (inr tt, calm (mkStore (delete id (tasks s)) (users s)) o).
Proof. reflexivity. Qed.

Lemma User_deleteOne_calm id s o :
  User_deleteOne id (calm s o) = (inr tt, calm (mkStore (tasks s) (delete id (users s))) o).
Proof. reflexivity. Qed.

Lemma User_save_calm id u s o :
  User_save id u (calm s o) =
  if emailTaken id u (users s) then (inl duplicateKey, calm s o)
  else (inr u, calm (mkStore (tasks s) (<[id := u]> (users s))) o).
Proof. unfold User_save, bind. cbn. by destruct (emailTaken id u (users s)). Qed.

Lemma userRoute_delete_catch_calm e s :
  exists r, userRoute_delete_catch e (calm s None) = (inr tt, calm s (Some r)) /\
            status r ≠ 200%nat.
Proof.
  unfold userRoute_delete_catch.
  destruct (isCastError e); eexists; (split; [reflexivity|done]).
Qed.

(** DELETE /api/users/:id when no operation fails and the answer is 200. *)
Lemma userRoute_delete_ok (id : string) (s s' : Store) (r : Response) :
  run (userRoute_delete id) [] s = (Some r, s') ->
  status r = 200%nat ->
  is_Some (users s !! id) /\
  s' = mkStore
         (map_imap (fun k t => Some (if Task_matches None (Some id) k t
                                     then unassign t else t)) (tasks s))
         (delete id (users s)).
Proof.
  unfold run, userRoute_delete, try_catch. unfold bind at 1.
  rewrite User_findById_calm.
  destruct (isValid id).
  2: { destruct (userRoute_delete_catch_calm castError_id s) as (r1 & -> & Hr1).
       cbn. intros [= <- <-]. done. }
  destruct (users s !! id) as [u|] eqn:Hu.
  2: { cbn. intros [= <- <-]. done. }
  unfold bind at 1. rewrite Task_updateMany_calm. cbn [default forallb].
  unfold bind at 1. rewrite User_deleteOne_calm. cbn.
  intros [= <- <-] _. split; [eauto|done].
Qed.

Lemma taskRoute_delete_catch_calm e s :
  exists r, taskRoute_delete_catch e (calm s None) = (inr tt, calm s (Some r)) /\
            status r ≠ 204%nat.
Proof.
  unfold taskRoute_delete_catch.
  destruct (isBadIdCast e); eexists; (split; [reflexivity|done]).
Qed.

(** DELETE /api/tasks/:id when no operation fails and the answer is 204. *)
Lemma taskRoute_delete_ok (id : string) (s s' : Store) (r : Response) :
  run (taskRoute_delete id) [] s = (Some r, s') ->
  status r = 204%nat ->
  exists t,
    tasks s !! id = Some t /\
    r = mkResponse 204 None /\
    s' = mkStore (delete id (tasks s))
           (if negb (String.eqb (assignedUser t) "") && negb (completed t)
            then alter (setPending (pull id)) (assignedUser t) (users s)
            else users s).
Proof.
  unfold run, taskRoute_delete, try_catch, withTransaction, taskRoute_delete_txn.
  unfold bind at 1. rewrite Task_findById_calm.
  destruct (isValid id).
  2: { cbn [db sent faults].
       destruct (taskRoute_delete_catch_calm castError_id s) as (r1 & -> & Hr1).
       cbn. intros [= <- <-]. done. }
  destruct (tasks s !! id) as [t|] eqn:Ht.
  2: { cbn. intros [= <- <-]. done. }
  unfold bind at 1. rewrite Task_deleteOne_calm.
  unfold bind at 1.
  match goal with |- context [when ?c (User_findByIdAndUpdate ?u ?f) (calm ?s0 ?o)] =>
    destruct (when_update_calm c u f s0 o) as [-> | ->] end.
  2: { cbn [db sent faults].
       destruct (taskRoute_delete_catch_calm castError_id s) as (r1 & -> & Hr1).
       cbn. intros [= <- <-]. done. }
  cbn. intros [= <- <-] _. exists t. done.
Qed.

(** C5: deleting a user of the store unassigns every task assigned to it,
    completed or not, and leaves the other tasks as they were; deleting a
    task of the store that had an assignee and was not completed pulls its
    identifier from that assignee's [pendingTasks]. *)
Theorem delete_cascades :
  (forall (id : string) (s s' : Store) (r : Response) (u : User),
     run (userRoute_delete id) [] s = (Some r, s') ->
     status r = 200%nat ->
     users s !! id = Some u ->
     users s' !! id = None /\
     forall tid t, tasks s !! tid = Some t ->
       tasks s' !! tid =
         Some (if String.eqb (assignedUser t) id
               then mkTask (name t) (description t) (deadline t) (completed t)
                      "" "unassigned" (dateCreated t)
               else t)) /\
  (forall (tid : string) (s s' : Store) (r : Response) (t : Task),
     run (taskRoute_delete tid) [] s = (Some r, s') ->
     status r = 204%nat ->
     tasks s !! tid = Some t ->
     tasks s' !! tid = None /\
     (assignedUser t ≠ "" -> completed t = false ->
        tid ∉ pendingOf s' (assignedUser t))).
Proof.
  split.
  - intros id s s' r u Hrun Hst _.
    destruct (userRoute_delete_ok _ _ _ _ Hrun Hst) as [_ ->]. cbn [tasks users].
    split; [apply lookup_delete_eq|].
    intros tid t Ht. rewrite updateMany_lookup, Ht. cbn.
    by destruct (String.eqb (assignedUser t) id).
  - intros tid s s' r t Hrun Hst Ht.
    destruct (taskRoute_delete_ok _ _ _ _ Hrun Hst) as (t0 & Ht0 & _ & ->).
    rewrite Ht in Ht0. injection Ht0 as <-. cbn [tasks users].
    split; [apply lookup_delete_eq|].
    intros Hne Hc. apply String.eqb_neq in Hne. rewrite Hne, Hc. cbn.
    unfold pendingOf. cbn [users]. rewrite pull_mem. tauto.
Qed.

Lemma userRoute_put_catch_calm e s :
  exists r, userRoute_put_catch e (calm s None) = (inr tt, calm s (Some r)) /\
            status r ≠ 200%nat.
Proof.
  unfold userRoute_put_catch.
  repeat match goal with |- context [if ?c then _ else _] => destruct c end;
    eexists; (split; [reflexivity|done]).
Qed.

Lemma when_updateMany_calm (c : bool) ids au upd s o :
  when c (Task_updateMany ids au upd) (calm s o) =
    (inr tt,
     calm (mkStore
             (if c
              then map_imap (fun id t => Some (if Task_matches ids au id t then upd t else t))
                     (tasks s)
              else tasks s)
             (users s)) o) \/
  when c (Task_updateMany ids au upd) (calm s o) = (inl castError_id, calm s o).
Proof.
  destruct c; cbn.
  - rewrite Task_updateMany_calm. destruct (forallb isValid (default [] ids)); auto.
  - left. by destruct s.
Qed.

(** PUT /api/users/:id when no operation fails and the answer is 200. *)
Lemma userRoute_put_ok (id : string) (b : UserBody) (s s' : Store) (r : Response) :
  run (userRoute_put id b) [] s = (Some r, s') ->
  status r = 200%nat ->
  exists u name_ email_,
    users s !! id = Some u /\
    ub_name b = Some name_ /\ name_ ≠ "" /\
    ub_email b = Some email_ /\ email_ ≠ "" /\
    let oldPending := Set_from (pendingTasks u) in
    let newPending := Set_from (default [] (ub_pendingTasks b)) in
    let u' := mkUser name_ email_ newPending (u_dateCreated u) in
    s' = mkStore
           (assignAdded id name_
              (List.filter (fun t => negb (Set_has oldPending t)) newPending)
              (unassignRemoved id
                 (List.filter (fun t => negb (Set_has newPending t)) oldPending)
                 (tasks s)))
           (<[id := u']> (users s)).
Proof.
  unfold run, userRoute_put, try_catch. unfold bind at 1.
  rewrite User_findById_calm.
  destruct (isValid id).
  2: { destruct (userRoute_put_catch_calm castError_id s) as (r1 & -> & Hr1).
       cbn. intros [= <- <-]. done. }
  destruct (users s !! id) as [u|] eqn:Hu.
  2: { cbn. intros [= <- <-]. done. }
  destruct (ub_name b) as [name_|] eqn:Hn; cbn [truthy negb orb].
  2: { cbn. intros [= <- <-]. done. }
  destruct (String.eqb name_ "") eqn:Hne; cbn [negb orb].
  { cbn. intros [= <- <-]. done. }
  destruct (ub_email b) as [email_|] eqn:He; cbn [truthy negb orb].
  2: { cbn. intros [= <- <-]. done. }
  destruct (String.eqb email_ "") eqn:Hee; cbn [negb orb].
  { cbn. intros [= <- <-]. done. }
  apply String.eqb_neq in Hne, Hee.
  unfold bind at 1. rewrite User_save_calm.
  match goal with |- context [emailTaken ?a ?b ?c] => destruct (emailTaken a b c) end.
  { destruct (userRoute_put_catch_calm duplicateKey s) as (r1 & -> & Hr1).
    cbn. intros [= <- <-]. done. }
  change (default "" (Some name_)) with name_.
  change (default "" (Some email_)) with email_.
  cbn [u_name].
  set (oldPending := Set_from (pendingTasks u)).
  set (newPending := Set_from (default [] (ub_pendingTasks b))).
  set (removed := List.filter (fun t => negb (Set_has newPending t)) oldPending).
  set (added := List.filter (fun t => negb (Set_has oldPending t)) newPending).
  unfold bind at 1.
  match goal with |- context [when ?c (Task_updateMany ?i ?a ?f) (calm ?s0 ?o)] =>
    destruct (when_updateMany_calm c i a f s0 o) as [-> | ->] end.
  2: { match goal with |- context [userRoute_put_catch ?e (calm ?s0 None)] =>
         destruct (userRoute_put_catch_calm e s0) as (r1 & -> & Hr1) end.
       cbn. intros [= <- <-]. done. }
  unfold bind at 1.
  match goal with |- context [when ?c (Task_updateMany ?i ?a ?f) (calm ?s0 ?o)] =>
    destruct (when_updateMany_calm c i a f s0 o) as [-> | ->] end.
  2: { match goal with |- context [userRoute_put_catch ?e (calm ?s0 None)] =>
         destruct (userRoute_put_catch_calm e s0) as (r1 & -> & Hr1) end.
       cbn. intros [= <- <-]. done. }
  cbn. intros [= <- <-] _. exists u, name_, email_. done.
Qed.

Lemma elem_of_cast_difference (l1 l2 : list string) (tid : string) :
  tid ∈ canon <$> List.filter (fun t => negb (Set_has (Set_from l2) t)) (Set_from l1) <->
  tid ∈ canon <$> list_difference l1 l2.
Proof.
  rewrite !list_elem_of_fmap. split; intros (x & -> & Hx); exists x; (split; [done|]).
  - apply list_elem_of_difference. by apply elem_of_difference_filter.
  - apply elem_of_difference_filter. by apply list_elem_of_difference.
Qed.

(** C4: a successful PUT /api/users/:id with a [pendingTasks] array stores
    the array as a set and updates the tasks by the difference with the
    previous set, under the cast of its elements to identifiers: a task
    whose identifier was added is assigned to this user, with this user's
    name, whatever its assignee was; a task whose identifier was removed
    is unassigned when it is assigned to this user; every other task is
    left as it was. *)
Theorem user_replace_pending (id : string) (b : UserBody) (s s' : Store)
    (r : Response) (u : User) (l : list string) :
  run (userRoute_put id b) [] s = (Some r, s') ->
  status r = 200%nat ->
  users s !! id = Some u ->
  ub_pendingTasks b = Some l ->
  exists u',
    users s' !! id = Some u' /\
    ub_name b = Some (u_name u') /\
    (forall x, x ∈ pendingTasks u' <-> x ∈ l) /\
    NoDup (pendingTasks u') /\
    forall tid t, tasks s !! tid = Some t ->
      tasks s' !! tid =
        Some (if bool_decide (tid ∈ canon <$> list_difference l (pendingTasks u))
              then mkTask (name t) (description t) (deadline t) (completed t)
                     id (u_name u') (dateCreated t)
              else if bool_decide (tid ∈ canon <$> list_difference (pendingTasks u) l)
                      && String.eqb (assignedUser t) id
              then mkTask (name t) (description t) (deadline t) (completed t)
                     "" "unassigned" (dateCreated t)
              else t).
Proof.
  intros Hrun Hst Hu Hl.
  destruct (userRoute_put_ok _ _ _ _ _ Hrun Hst)
    as (u0 & name_ & email_ & Hu0 & Hn & Hne & He & Hee & ->).
  rewrite Hu in Hu0. injection Hu0 as <-. rewrite Hl. cbn [default].
  eexists. cbn [tasks users]. rewrite lookup_insert_eq. split; [reflexivity|].
  cbn [u_name pendingTasks]. split; [done|]. split; [apply Set_from_elem|].
  split; [apply Set_from_NoDup|].
  intros tid t Ht.
  rewrite assignAdded_lookup, unassignRemoved_lookup, Ht. cbn [fmap option_fmap option_map].
  f_equal.
  rewrite (bool_decide_ext _ _ (elem_of_cast_difference l (pendingTasks u) tid)).
  rewrite (bool_decide_ext _ _ (elem_of_cast_difference (pendingTasks u) l tid)).
  destruct (bool_decide (tid ∈ canon <$> list_difference l (pendingTasks u))); [|done].
  by destruct (_ && _).
Qed.

(** ** POST /api/tasks and the validation of the assignee *)

Lemma Task_save_new_calm id t s o :
  Task_save true id t (calm s o) =
  if Task_validate t then
    if bool_decide (is_Some (tasks s !! id)) then (inl duplicateKey, calm s o)
    else (inr t, calm (mkStore (<[id := t]> (tasks s)) (users s)) o)
  else (inl validationError, calm s o).
Proof.
  unfold Task_save, bind. destruct (Task_validate t); [|done]. cbn.
  by destruct (bool_decide (is_Some (tasks s !! id))).
Qed.

Lemma tasksRoute_post_catch_calm e s :
  exists r, tasksRoute_post_catch e (calm s None) = (inr tt, calm s (Some r)) /\
            status r ≠ 201%nat.
Proof.
  unfold tasksRoute_post_catch.
  repeat match goal with |- context [if ?c then _ else _] => destruct c end;
    eexists; (split; [reflexivity|done]).
Qed.

(** POST /api/tasks when no operation fails and the answer is 201. *)
Lemma tasksRoute_post_ok (newId : string) (now : Z) (b : TaskBody)
    (s s' : Store) (r : Response) :
  run (tasksRoute_post newId now b) [] s = (Some r, s') ->
  status r = 201%nat ->
  exists next nextName,
    tasks s !! newId = None /\
    resolved s b next nextName /\
    let t' := mkTask (b_name b) (orDefault (b_description b) "") (b_deadline b)
                (b_completed b) next nextName now in
    Task_validate t' = true /\
    s' = mkStore (<[newId := t']> (tasks s))
           (putRule2 newId next (b_completed b) (users s)).
Proof.
  unfold run, tasksRoute_post, try_catch. unfold bind at 1.
  unfold withTransaction, tasksRoute_post_txn. unfold bind at 1.
  destruct (resolveAssignee_calm b s None) as [(next & nextName & -> & Hres)|(e & -> & He)].
  2: { cbn [db sent faults].
       destruct (tasksRoute_post_catch_calm e s) as (r1 & -> & Hr1).
       cbn. intros [= <- <-]. done. }
  cbn [fst snd]. unfold bind at 1. rewrite Task_save_new_calm.
  match goal with |- context [Task_validate ?x] => destruct (Task_validate x) eqn:Hval end.
  2: { cbn [db sent faults].
       destruct (tasksRoute_post_catch_calm validationError s) as (r1 & -> & Hr1).
       cbn. intros [= <- <-]. done. }
  destruct (bool_decide (is_Some (tasks s !! newId))) eqn:Hnew.
  { cbn [db sent faults].
    destruct (tasksRoute_post_catch_calm duplicateKey s) as (r1 & -> & Hr1).
    cbn. intros [= <- <-]. done. }
  apply bool_decide_eq_false in Hnew. rewrite <- eq_None_not_Some in Hnew.
  cbn [assignedUser completed]. unfold bind at 1.
  match goal with |- context [when ?c (User_findByIdAndUpdate ?u ?f) (calm ?s0 ?o)] =>
    destruct (when_update_calm c u f s0 o) as [-> | ->] end.
  2: { cbn [db sent faults].
       destruct (tasksRoute_post_catch_calm castError_id s) as (r1 & -> & Hr1).
       cbn. intros [= <- <-]. done. }
  cbn. intros [= <- <-] _. exists next, nextName. done.
Qed.

Lemma ensureUserExists_invalid str w :
  str ≠ "" -> isValid str = false ->
  ensureUserExists (Some str) w =
    (inl (httpError 400 "assignedUser must be a valid ObjectId"), w).
Proof.
  intros Hne Hv. unfold ensureUserExists, truthy.
  apply String.eqb_neq in Hne. rewrite Hne.
  change (default "" (Some str)) with str. by rewrite Hv.
Qed.

Lemma ensureUserExists_missing str s o :
  str ≠ "" -> isValid str = true -> users s !! str = None ->
  ensureUserExists (Some str) (calm s o) =
    (inl (httpError 400 "assignedUser not found"), calm s o).
Proof.
  intros Hne Hv Hu. unfold ensureUserExists, truthy.
  apply String.eqb_neq in Hne. rewrite Hne.
  change (default "" (Some str)) with str. rewrite Hv. cbn [negb].
  unfold bind. by rewrite User_findById_calm, Hv, Hu.
Qed.

Lemma ensureUserExists_found str s o u :
  str ≠ "" -> isValid str = true -> users s !! str = Some u ->
  ensureUserExists (Some str) (calm s o) = (inr (Some (str, u_name u)), calm s o).
Proof.
  intros Hne Hv Hu. unfold ensureUserExists, truthy.
  apply String.eqb_neq in Hne. rewrite Hne.
  change (default "" (Some str)) with str. rewrite Hv. cbn [negb].
  unfold bind. by rewrite User_findById_calm, Hv, Hu.
Qed.

Lemma resolveAssignee_blank b w :
  nonBlank (b_assignedUser b) = false ->
  resolveAssignee b w = (inr ("", "unassigned"), w).
Proof. intros Hnb. unfold resolveAssignee. by rewrite Hnb. Qed.

Lemma tasksRoute_post_refused newId now b s str msg :
  b_assignedUser b = Some str -> nonBlank (Some str) = true ->
  ensureUserExists (Some str) (calm s None) = (inl (httpError 400 msg), calm s None) ->
  run (tasksRoute_post newId now b) [] s = (Some (json 400 msg DEmpty), s).
Proof.
  intros Hb Hnb He.
  unfold run, tasksRoute_post, try_catch. unfold bind at 1.
  unfold withTransaction, tasksRoute_post_txn. unfold bind at 1.
  unfold resolveAssignee. rewrite Hb, Hnb. unfold bind at 1.
  rewrite He. reflexivity.
Qed.

(** C6: resolving an assignee.  [ensureUserExists] gives no assignee and
    no error for an absent or empty identifier; it throws an error of
    status 400 for a non-empty one that is not a valid identifier, and for
    a valid one with no user; otherwise its result is the identifier with
    the name the store holds.  The routes call it for an identifier that
    is not blank only: a blank one, empty or not, resolves to no assignee
    with no error.  POST /api/tasks answers both errors with 400 and
    writes nothing; the name it stores is the one read from the store,
    and the [assignedUserName] of the body has no effect.  No user is
    found when there is none under the string nor under the spelling of
    the store; the user found is stated for a string in that spelling. *)
Theorem reference_validator :
  (forall w, ensureUserExists None w = (inr None, w) /\
             ensureUserExists (Some "") w = (inr None, w)) /\
  (forall str w, str ≠ "" -> isValid str = false ->
     ensureUserExists (Some str) w =
       (inl (httpError 400 "assignedUser must be a valid ObjectId"), w)) /\
  (forall str s o, str ≠ "" -> isValid str = true ->
     users s !! str = None -> users s !! canon str = None ->
     ensureUserExists (Some str) (calm s o) =
       (inl (httpError 400 "assignedUser not found"), calm s o)) /\
  (forall str s o u, str ≠ "" -> isValid str = true -> canon str = str ->
     users s !! str = Some u ->
     ensureUserExists (Some str) (calm s o) = (inr (Some (str, u_name u)), calm s o)) /\
  (forall b w, nonBlank (b_assignedUser b) = false ->
     resolveAssignee b w = (inr ("", "unassigned"), w)) /\
  (forall newId now b s str,
     b_assignedUser b = Some str -> nonBlank (Some str) = true ->
     (isValid str = false ->
      run (tasksRoute_post newId now b) [] s =
        (Some (json 400 "assignedUser must be a valid ObjectId" DEmpty), s)) /\
     (isValid str = true -> users s !! str = None -> users s !! canon str = None ->
      run (tasksRoute_post newId now b) [] s =
        (Some (json 400 "assignedUser not found" DEmpty), s))) /\
  (forall newId now b s s' r,
     run (tasksRoute_post newId now b) [] s = (Some r, s') ->
     status r = 201%nat ->
     exists t', tasks s' !! newId = Some t' /\
                assigneeStored s (assignedUser t') (assignedUserName t') /\
                (canonicalAssignee b ->
                 resolved s b (assignedUser t') (assignedUserName t'))) /\
  (forall newId now b x fs s,
     run (tasksRoute_post newId now (withAssignedUserName x b)) fs s =
     run (tasksRoute_post newId now b) fs s).
Proof.
  split; [|split; [|split; [|split; [|split; [|split; [|split]]]]]].
  - done.
  - apply ensureUserExists_invalid.
  - intros str s o Hne Hv Hu _. by apply ensureUserExists_missing.
  - intros str s o u Hne Hv _. by apply ensureUserExists_found.
  - apply resolveAssignee_blank.
  - intros newId now b s str Hb Hnb.
    assert (Hne : str ≠ "").
    { cbn in Hnb. apply andb_prop in Hnb as [Hne _].
      apply negb_true_iff in Hne. by apply String.eqb_neq. }
    split.
    + intros Hv. apply (tasksRoute_post_refused _ _ _ _ str); [done|done|].
      by apply ensureUserExists_invalid.
    + intros Hv Hu _. apply (tasksRoute_post_refused _ _ _ _ str); [done|done|].
      by apply ensureUserExists_missing.
  - intros newId now b s s' r Hrun Hst.
    destruct (tasksRoute_post_ok _ _ _ _ _ _ Hrun Hst)
      as (next & nextName & _ & Hres & _ & ->).
    eexists. cbn [tasks]. rewrite lookup_insert_eq. split; [reflexivity|].
    cbn [assignedUser assignedUserName]. split; [by eapply resolved_stored|done].
  - reflexivity.
Qed.

Lemma parseJSON_inr q fieldName w j w' :
  parseJSON q fieldName w = (inr j, w') ->
  w' = w /\ j = (if truthy q then JSON_parse (default "" q) else None).
Proof.
  unfold parseJSON. destruct (truthy q); cbn.
  - destruct (JSON_parse (default "" q)); cbn; [|done]. by intros [= <- <-].
  - by intros [= <- <-].
Qed.

(** What a query that succeeds returns: the documents the filter keeps,
    in the order asked for, without the skipped ones, cut at the limit. *)
Lemma exec_inr {Doc} (flt : JSON -> option (string * Doc -> bool))
    (ord : JSON -> option (list (string * Doc) -> list (string * Doc)))
    (docs : list (string * Doc)) (q : Query) (w w' : World) (l : list (string * Doc)) :
  exec flt ord docs q w = (inr l, w') ->
  exists p srt,
    flt (filter_ q) = Some p /\
    match sort_ q with
    | None => srt = (fun l => l)
    | Some j => ord j = Some srt
    end /\
    l = (match limit_ q with Some k => take (Z.to_nat k) | None => fun l => l end)
          ((match skip_ q with Some n => drop (Z.to_nat n) | None => fun l => l end)
             (srt (List.filter p docs))).
Proof.
  unfold exec, bind.
  destruct (tick w) as [[e|[]] w1] eqn:Ht; [done|].
  destruct (projected (select_ q)); [|done]. cbn [negb].
  destruct (flt (filter_ q)) as [p|]; [|done].
  destruct (sort_ q) as [j|].
  - destruct (ord j) as [srt|] eqn:Hj; [|done].
    destruct (skip_ q) as [n|].
    + destruct (n <? 0); [done|]. intros [= <- <-]. exists p, srt.
      by destruct (limit_ q).
    + intros [= <- <-]. exists p, srt. by destruct (limit_ q).
  - destruct (skip_ q) as [n|].
    + destruct (n <? 0); [done|]. intros [= <- <-]. exists p, (fun l => l).
      by destruct (limit_ q).
    + intros [= <- <-]. exists p, (fun l => l). by destruct (limit_ q).
Qed.

Lemma Query_select_inr sel w w' :
  Query_select sel w = (inr tt, w') -> w' = w.
Proof.
  unfold Query_select. destruct sel as [v|]; [|by intros [= <-]].
  destruct (select_takes v); [by intros [= <-]|done].
Qed.

Lemma Query_select_taken sel w w' :
  Query_select sel w = (inr tt, w') -> projected sel = true -> accepted sel.
Proof.
  unfold Query_select, projected, accepted. destruct sel as [v|]; [|done].
  destruct (select_takes v); [done|done].
Qed.

Lemma Query_select_accepted sel w :
  accepted sel -> Query_select sel w = (inr tt, w) /\ projected sel = true.
Proof.
  unfold Query_select, projected, accepted. destruct sel as [v|]; [|done].
  by intros [-> ->].
Qed.

Lemma tasksRoute_query_inr rq where_ w q w' :
  tasksRoute_query rq where_ w = (inr q, w') ->
  w' = w /\ filter_ q = where_ /\ skip_ q = skipOf rq /\ limit_ q = limitOf rq (Some 100).
Proof.
  unfold tasksRoute_query, bind.
  destruct (parseJSON (q_sort rq) "sort" w) as [[e|j] w1] eqn:H1; [done|].
  apply parseJSON_inr in H1 as [-> _].
  destruct (parseJSON (q_select rq) "select" w) as [[e|j2] w2] eqn:H2; [done|].
  apply parseJSON_inr in H2 as [-> _].
  destruct (Query_select _ w) as [[e|[]] w3] eqn:H3; [done|].
  apply Query_select_inr in H3 as ->.
  by intros [= <- <-].
Qed.

Lemma usersRoute_query_inr rq where_ w q w' :
  usersRoute_query rq where_ w = (inr q, w') ->
  w' = w /\ filter_ q = where_ /\ skip_ q = skipOf rq /\ limit_ q = limitOf rq None /\
  (q_sort rq = None -> sort_ q = None).
Proof.
  unfold usersRoute_query, bind.
  destruct (parseJSON (q_sort rq) "sort" w) as [[e|j] w1] eqn:H1; [done|].
  apply parseJSON_inr in H1 as [-> Hj].
  destruct (parseJSON (q_select rq) "select" w) as [[e|j2] w2] eqn:H2; [done|].
  apply parseJSON_inr in H2 as [-> _].
  destruct (Query_select _ w) as [[e|[]] w3] eqn:H3; [done|].
  apply Query_select_inr in H3 as ->.
  intros [= <- <-]. cbn. split; [done|]. split; [done|]. split; [done|]. split; [done|].
  intros Hs. rewrite Hs in Hj. cbn in Hj. by subst.
Qed.

Lemma quiet_ret {A} (a : A) : quiet (ret a).
Proof. by intros w res w' [= <- <-]. Qed.

Lemma quiet_throw {A} (e : Err) : quiet (throw (A:=A) e).
Proof. by intros w res w' [= <- <-]. Qed.

Lemma quiet_tick : quiet tick.
Proof. intros w res w'. unfold tick. destruct (faults w) as [|[] fs]; by intros [= <- <-]. Qed.

Lemma quiet_getStore : quiet getStore.
Proof. by intros w res w' [= <- <-]. Qed.

Lemma quiet_bind {A B} (m : M A) (k : A -> M B) :
  quiet m -> (forall a, quiet (k a)) -> quiet (bind m k).
Proof.
  intros Hm Hk w res w'. unfold bind.
  destruct (m w) as [[e|a] w1] eqn:E; apply Hm in E as [E1 E2].
  - intros [= <- <-]. done.
  - intros H. apply Hk in H as [H1 H2]. split; congruence.
Qed.

Lemma quiet_parseJSON q fieldName : quiet (parseJSON q fieldName).
Proof.
  unfold parseJSON. destruct (truthy q); cbn; [|apply quiet_ret].
  destruct (JSON_parse _); [apply quiet_ret|apply quiet_throw].
Qed.

Lemma quiet_exec {Doc} flt ord (docs : list (string * Doc)) q : quiet (exec flt ord docs q).
Proof.
  unfold exec. apply quiet_bind; [apply quiet_tick|]. intros _.
  repeat case_match; first [apply quiet_ret | apply quiet_throw].
Qed.

Lemma quiet_countDocuments {Doc} flt (docs : list (string * Doc)) j :
  quiet (countDocuments flt docs j).
Proof.
  unfold countDocuments. apply quiet_bind; [apply quiet_tick|]. intros _.
  case_match; [apply quiet_ret|apply quiet_throw].
Qed.

Lemma quiet_Query_select sel : quiet (Query_select sel).
Proof.
  unfold Query_select. repeat case_match; first [apply quiet_ret | apply quiet_throw].
Qed.

Lemma quiet_tasksRoute_query rq j : quiet (tasksRoute_query rq j).
Proof.
  unfold tasksRoute_query.
  repeat (apply quiet_bind; [apply quiet_parseJSON|intros ?]).
  apply quiet_bind; [apply quiet_Query_select|intros ?]. apply quiet_ret.
Qed.

Lemma quiet_usersRoute_query rq j : quiet (usersRoute_query rq j).
Proof.
  unfold usersRoute_query.
  repeat (apply quiet_bind; [apply quiet_parseJSON|intros ?]).
  apply quiet_bind; [apply quiet_Query_select|intros ?]. apply quiet_ret.
Qed.

Lemma quiet_tasksRoute_data rq : quiet (tasksRoute_data rq).
Proof.
  unfold tasksRoute_data.
  apply quiet_bind; [apply quiet_parseJSON|intros ?].
  apply quiet_bind; [apply quiet_getStore|intros ?].
  case_match.
  - apply quiet_bind; [apply quiet_countDocuments|intros ?]. apply quiet_ret.
  - apply quiet_bind; [apply quiet_tasksRoute_query|intros ?].
    apply quiet_bind; [apply quiet_exec|intros ?]. apply quiet_ret.
Qed.

Lemma quiet_usersRoute_data rq : quiet (usersRoute_data rq).
Proof.
  unfold usersRoute_data.
  apply quiet_bind; [apply quiet_parseJSON|intros ?].
  apply quiet_bind; [apply quiet_getStore|intros ?].
  case_match.
  - apply quiet_bind; [apply quiet_countDocuments|intros ?]. apply quiet_ret.
  - apply quiet_bind; [apply quiet_usersRoute_query|intros ?].
    apply quiet_bind; [apply quiet_exec|intros ?]. apply quiet_ret.
Qed.

(** A step of a handler that has not answered yet. *)
Ltac quiet_step Hq :=
  match goal with
  | |- context [let (_, _) := ?m ?w0 in _] =>
      let H := fresh "Hstep" in
      let Hs := fresh "Hsent" in
      destruct (m w0) as [[?e|?a] ?w] eqn:H;
      pose proof (Hq _ _ _ H) as [Hs _]; cbn [sent] in Hs
  end.

Ltac answer_sent :=
  unfold send;
  repeat match goal with H : sent _ = _ |- _ => rewrite H end;
  cbn; intros [= <- _] [= <-].

(** A list handler answers 200 with the data computed, or answers from its
    [catch] clause with an empty object. *)
Lemma tasksRoute_get_data rq fs s r s' e :
  run (tasksRoute_get rq) fs s = (Some r, s') ->
  body r = Some e ->
  data e = DEmpty \/
  exists w', tasksRoute_data rq (mkWorld s None fs) = (inr (data e), w').
Proof.
  unfold run, tasksRoute_get, tasksRoute_data, try_catch, bind.
  quiet_step (quiet_parseJSON (q_where rq) "where").
  { answer_sent. by left. }
  cbn [getStore]. destruct (bool_decide (q_count rq = Some "true")).
  - quiet_step (quiet_countDocuments Task_filter (map_to_list (tasks (db w))) (orEmpty a)).
    { answer_sent. by left. }
    answer_sent. right. eexists. reflexivity.
  - quiet_step (quiet_tasksRoute_query rq (orEmpty a)).
    { answer_sent. by left. }
    quiet_step (quiet_exec Task_filter Task_order (map_to_list (tasks (db w))) a0).
    { answer_sent. by left. }
    answer_sent. right. eexists. reflexivity.
Qed.

Lemma usersRoute_get_data rq fs s r s' e :
  run (usersRoute_get rq) fs s = (Some r, s') ->
  body r = Some e ->
  data e = DEmpty \/
  exists w', usersRoute_data rq (mkWorld s None fs) = (inr (data e), w').
Proof.
  unfold run, usersRoute_get, usersRoute_data, try_catch, bind.
  quiet_step (quiet_parseJSON (q_where rq) "where").
  { answer_sent. by left. }
  cbn [getStore]. destruct (bool_decide (q_count rq = Some "true")).
  - quiet_step (quiet_countDocuments User_filter (map_to_list (users (db w))) (orEmpty a)).
    { answer_sent. by left. }
    answer_sent. right. eexists. reflexivity.
  - quiet_step (quiet_usersRoute_query rq (orEmpty a)).
    { answer_sent. by left. }
    quiet_step (quiet_exec User_filter User_order (map_to_list (users (db w))) a0).
    { answer_sent. by left. }
    answer_sent. right. eexists. reflexivity.
Qed.

(** ** The invariant is kept by the Task routes and by DELETE /api/users/:id *)

Lemma taskRoute_put_consistent (id : string) (b : TaskBody) (s s' : Store) (r : Response) :
  consistent s -> noEmptyUser s ->
  run (taskRoute_put id b) [] s = (Some r, s') ->
  status r = 200%nat ->
  consistent s'.
Proof.
  intros Hc Hne Hrun Hst.
  destruct (taskRoute_put_ok _ _ _ _ _ Hrun Hst)
    as (t & next & nextName & Ht & Hres & _ & _ & ->).
  pose proof (resolved_exists _ _ _ _ Hres) as Hex.
  rewrite consistent_pend in Hc. apply consistent_pend. cbn [tasks users].
  intros tid t2 uid Ht2 Hu. apply putRules_is_Some in Hu.
  assert (Huid : uid ≠ "").
  { intros ->. unfold noEmptyUser in Hne. rewrite Hne in Hu. by destruct Hu. }
  destruct (decide (tid = id)) as [->|Htid].
  - rewrite lookup_insert_eq in Ht2. injection Ht2 as <-. cbn [assignedUser completed].
    rewrite putRules_mem_id by done.
    apply put_invariant_step; [done|]. by apply Hc.
  - rewrite lookup_insert_ne in Ht2 by done.
    rewrite putRules_mem_other by done. by apply Hc.
Qed.

Lemma tasksRoute_post_consistent (newId : string) (now : Z) (b : TaskBody)
    (s s' : Store) (r : Response) :
  consistent s -> noEmptyUser s ->
  (forall uid, newId ∉ pendingOf s uid) ->
  run (tasksRoute_post newId now b) [] s = (Some r, s') ->
  status r = 201%nat ->
  consistent s'.
Proof.
  intros Hc Hne Hfresh Hrun Hst.
  destruct (tasksRoute_post_ok _ _ _ _ _ _ Hrun Hst)
    as (next & nextName & Hnew & Hres & _ & ->).
  pose proof (resolved_exists _ _ _ _ Hres) as Hex.
  rewrite consistent_pend in Hc. apply consistent_pend. cbn [tasks users].
  intros tid t2 uid Ht2 Hu. apply putRule2_is_Some in Hu.
  assert (Huid : uid ≠ "").
  { intros ->. unfold noEmptyUser in Hne. rewrite Hne in Hu. by destruct Hu. }
  rewrite putRule2_mem by done.
  destruct (decide (tid = newId)) as [->|Htid].
  - rewrite lookup_insert_eq in Ht2. injection Ht2 as <-. cbn [assignedUser completed].
    specialize (Hfresh uid). unfold pendingOf in Hfresh. intuition congruence.
  - rewrite lookup_insert_ne in Ht2 by done. specialize (Hc tid t2 uid Ht2 Hu). tauto.
Qed.

Lemma taskRoute_delete_consistent (id : string) (s s' : Store) (r : Response) :
  consistent s ->
  run (taskRoute_delete id) [] s = (Some r, s') ->
  status r = 204%nat ->
  consistent s'.
Proof.
  intros Hc Hrun Hst.
  destruct (taskRoute_delete_ok _ _ _ _ Hrun Hst) as (t & Ht & _ & ->).
  rewrite consistent_pend in Hc. apply consistent_pend. cbn [tasks users].
  intros tid t2 uid Ht2 Hu.
  apply lookup_delete_Some in Ht2 as [Htid Ht2].
  assert (Hu0 : is_Some (users s !! uid)).
  { destruct (negb _ && negb _); [by apply alter_is_Some in Hu|done]. }
  specialize (Hc tid t2 uid Ht2 Hu0).
  destruct (negb _ && negb _); [|done].
  rewrite pull_mem. intuition congruence.
Qed.

Lemma userRoute_delete_consistent (id : string) (s s' : Store) (r : Response) :
  consistent s -> noEmptyUser s ->
  run (userRoute_delete id) [] s = (Some r, s') ->
  status r = 200%nat ->
  consistent s'.
Proof.
  intros Hc Hne Hrun Hst.
  destruct (userRoute_delete_ok _ _ _ _ Hrun Hst) as (_ & ->).
  intros tid t2 uid u Ht2 Hu. cbn [tasks users] in Ht2, Hu.
  apply lookup_delete_Some in Hu as [Hid Hu].
  rewrite updateMany_lookup in Ht2.
  destruct (tasks s !! tid) as [t|] eqn:Ht; [|done]. cbn in Ht2. injection Ht2 as <-.
  specialize (Hc tid t uid u Ht Hu).
  assert (Huid : uid ≠ "").
  { intros ->. unfold noEmptyUser in Hne. congruence. }
  destruct (String.eqb (assignedUser t) id) eqn:Ha; cbn.
  - apply String.eqb_eq in Ha. intuition congruence.
  - done.
Qed.

(** ** The Task routes write all or nothing *)

Lemma quiet_silent {A} (m : M A) : quiet m -> silent m.
Proof. intros Hq w res w' Hm. by destruct (Hq _ _ _ Hm). Qed.

Lemma silent_ret {A} (a : A) : silent (ret a).
Proof. by intros w res w' [= <- <-]. Qed.

Lemma silent_throw {A} (e : Err) : silent (throw (A:=A) e).
Proof. by intros w res w' [= <- <-]. Qed.

Lemma silent_putStore s : silent (putStore s).
Proof. by intros w res w' [= <- <-]. Qed.

Lemma silent_bind {A B} (m : M A) (k : A -> M B) :
  silent m -> (forall a, silent (k a)) -> silent (bind m k).
Proof.
  intros Hm Hk w res w'. unfold bind.
  destruct (m w) as [[e|a] w1] eqn:E; apply Hm in E.
  - by intros [= <- <-].
  - intros H'. apply Hk in H'. congruence.
Qed.

Lemma quiet_castId id : quiet (castId id).
Proof. unfold castId. destruct (isValid id); [apply quiet_ret|apply quiet_throw]. Qed.

Lemma quiet_Task_findById id : quiet (Task_findById id).
Proof.
  unfold Task_findById.
  apply quiet_bind; [apply quiet_castId|intros _].
  apply quiet_bind; [apply quiet_tick|intros _].
  apply quiet_bind; [apply quiet_getStore|intros ?]. apply quiet_ret.
Qed.

Lemma quiet_User_findById id : quiet (User_findById id).
Proof.
  unfold User_findById.
  apply quiet_bind; [apply quiet_castId|intros _].
  apply quiet_bind; [apply quiet_tick|intros _].
  apply quiet_bind; [apply quiet_getStore|intros ?]. apply quiet_ret.
Qed.

Lemma quiet_resolveAssignee b : quiet (resolveAssignee b).
Proof.
  unfold resolveAssignee. case_match; [|apply quiet_ret].
  apply quiet_bind.
  - unfold ensureUserExists. repeat case_match; try apply quiet_ret; try apply quiet_throw.
    apply quiet_bind; [apply quiet_User_findById|intros ?].
    case_match; [apply quiet_ret|apply quiet_throw].
  - intros [[? ?]|]; [apply quiet_ret|apply quiet_throw].
Qed.

Ltac silent_steps :=
  repeat first
    [ apply silent_ret | apply silent_throw | apply silent_putStore
    | apply quiet_silent; first [ apply quiet_tick | apply quiet_getStore | apply quiet_castId ]
    | apply silent_bind; [|intros ?]
    | case_match ].

Lemma silent_Task_save isNew id t : silent (Task_save isNew id t).
Proof. unfold Task_save. silent_steps. Qed.

Lemma silent_Task_deleteOne id : silent (Task_deleteOne id).
Proof. unfold Task_deleteOne. silent_steps. Qed.

Lemma silent_User_findByIdAndUpdate id f : silent (User_findByIdAndUpdate id f).
Proof. unfold User_findByIdAndUpdate. silent_steps. Qed.

Lemma silent_when c (m : M unit) : silent m -> silent (when c m).
Proof. intros Hm. destruct c; [done|apply silent_ret]. Qed.

Lemma send_db r w : db (send r w).2 = db w.
Proof. unfold send. by destruct (sent w). Qed.

(** A transaction that fails leaves the collections as they were; one
    that returns leaves what its callback left. *)
Lemma withTransaction_inl {A} (body : M A) w e w' :
  withTransaction body w = (inl e, w') -> db w' = db w.
Proof.
  unfold withTransaction. destruct (body w) as [[e1|a] w1].
  - by intros [= <- <-].
  - destruct (tick w1) as [[e2|[]] w2]; [by intros [= <- <-]|done].
Qed.

Lemma withTransaction_inr {A} (body : M A) w a w' :
  withTransaction body w = (inr a, w') ->
  exists w1, body w = (inr a, w1) /\ db w' = db w1 /\ sent w' = sent w1.
Proof.
  unfold withTransaction. destruct (body w) as [[e1|a1] w1]; [done|].
  destruct (tick w1) as [[e2|[]] w2] eqn:Ht; [done|].
  intros [= <- <-]. exists w1. destruct (quiet_tick _ _ _ Ht). done.
Qed.

Lemma tasksRoute_post_catch_db e w : db (tasksRoute_post_catch e w).2 = db w.
Proof. unfold tasksRoute_post_catch. repeat case_match; apply send_db. Qed.

Lemma taskRoute_put_catch_db e w : db (taskRoute_put_catch e w).2 = db w.
Proof. unfold taskRoute_put_catch. repeat case_match; apply send_db. Qed.

Lemma taskRoute_delete_catch_db e w : db (taskRoute_delete_catch e w).2 = db w.
Proof. unfold taskRoute_delete_catch. repeat case_match; apply send_db. Qed.

Lemma silent_tasksRoute_post_txn newId now b : silent (tasksRoute_post_txn newId now b).
Proof.
  unfold tasksRoute_post_txn.
  apply silent_bind; [apply quiet_silent, quiet_resolveAssignee|intros ?].
  apply silent_bind; [apply silent_Task_save|intros ?].
  apply silent_bind; [apply silent_when, silent_User_findByIdAndUpdate|intros ?].
  apply silent_ret.
Qed.

(** POST /api/tasks, whatever operation fails: unless the answer is 201,
    the store is as it was. *)
Lemma tasksRoute_post_atomic newId now b fs s r s' :
  run (tasksRoute_post newId now b) fs s = (Some r, s') ->
  status r ≠ 201%nat -> s' = s.
Proof.
  unfold run, tasksRoute_post, try_catch, bind.
  destruct (withTransaction _ _) as [[e|t] w1] eqn:E.
  - apply withTransaction_inl in E. cbn in E.
    pose proof (tasksRoute_post_catch_db e w1) as Hdb.
    destruct (tasksRoute_post_catch e w1) as [res w2]. cbn in Hdb.
    intros [= _ <-] _. congruence.
  - apply withTransaction_inr in E as (w0 & Hb & _ & Hs).
    apply silent_tasksRoute_post_txn in Hb. cbn in Hb.
    unfold send. rewrite Hs, Hb. cbn. intros [= <- _]. done.
Qed.

(** The callback of PUT /api/tasks/:id answers only when it has written
    nothing. *)
Lemma taskRoute_put_txn_sent id b w v w' :
  taskRoute_put_txn id b w = (inr v, w') ->
  sent w' = sent w \/ db w' = db w.
Proof.
  unfold taskRoute_put_txn. unfold bind at 1.
  destruct (Task_findById id w) as [[e|[t|]] w1] eqn:E; [done| |];
    destruct (quiet_Task_findById _ _ _ _ E) as [Hs Hd].
  - intros Hrest. left. rewrite <- Hs. revert Hrest.
    match goal with |- ?m w1 = _ -> _ => assert (Hsil : silent m) end.
    { apply silent_bind; [apply quiet_silent, quiet_resolveAssignee|intros ?].
      apply silent_bind; [apply silent_Task_save|intros ?].
      apply silent_bind; [apply silent_when, silent_User_findByIdAndUpdate|intros ?].
      apply silent_bind; [apply silent_when, silent_User_findByIdAndUpdate|intros ?].
      apply silent_bind; [|intros ?; apply silent_ret].
      apply silent_when. repeat case_match;
        first [apply silent_User_findByIdAndUpdate | apply silent_ret]. }
    apply Hsil.
  - unfold bind. pose proof (send_db (json 404 "Task not found" DEmpty) w1) as Hdb.
    destruct (send _ w1) as [[e|[]] w2]; [done|]. cbn in Hdb.
    intros [= _ <-]. right. congruence.
Qed.

(** PUT /api/tasks/:id, whatever operation fails: unless the answer is
    200, the store is as it was. *)
Lemma taskRoute_put_atomic id b fs s r s' :
  run (taskRoute_put id b) fs s = (Some r, s') ->
  status r ≠ 200%nat -> s' = s.
Proof.
  unfold run, taskRoute_put, try_catch, bind.
  destruct (withTransaction _ _) as [[e|upd] w1] eqn:E.
  - apply withTransaction_inl in E. cbn in E.
    pose proof (taskRoute_put_catch_db e w1) as Hdb.
    destruct (taskRoute_put_catch e w1) as [res w2]. cbn in Hdb.
    intros [= _ <-] _. congruence.
  - apply withTransaction_inr in E as (w0 & Hb & Hd & Hs).
    apply taskRoute_put_txn_sent in Hb. cbn in Hb.
    unfold send at 1. destruct (sent w1) as [r0|] eqn:Hsent.
    + pose proof (taskRoute_put_catch_db headersSent w1) as Hdb.
      destruct (taskRoute_put_catch headersSent w1) as [res w2]. cbn in Hdb.
      intros [= _ <-] _. destruct Hb as [Hb|Hb]; congruence.
    + cbn. intros [= <- _]. done.
Qed.

(** The callback of DELETE /api/tasks/:id either has written nothing or
    has answered 204. *)
Lemma taskRoute_delete_txn_sent id w w' :
  taskRoute_delete_txn id w = (inr tt, w') -> sent w = None ->
  db w' = db w \/ sent w' = Some (mkResponse 204 None).
Proof.
  unfold taskRoute_delete_txn. unfold bind at 1.
  destruct (Task_findById id w) as [[e|[t|]] w1] eqn:E; [done| |];
    destruct (quiet_Task_findById _ _ _ _ E) as [Hs Hd].
  - unfold bind at 1.
    destruct (Task_deleteOne id w1) as [[e|[]] w2] eqn:E1; [done|].
    apply silent_Task_deleteOne in E1.
    unfold bind at 1.
    destruct (when _ _ w2) as [[e|[]] w3] eqn:E2; [done|].
    apply (silent_when _ _ (silent_User_findByIdAndUpdate _ _)) in E2.
    unfold send. intros Hsend Hn.
    assert (Hs3 : sent w3 = None) by congruence.
    rewrite Hs3 in Hsend. injection Hsend as <-. by right.
  - pose proof (send_db (json 404 "Task not found" DEmpty) w1) as Hdb.
    destruct (send _ w1) as [res w2]. cbn in Hdb.
    intros [= _ <-] _. left. congruence.
Qed.

(** DELETE /api/tasks/:id, whatever operation fails: unless the answer is
    204, the store is as it was. *)
Lemma taskRoute_delete_atomic id fs s r s' :
  run (taskRoute_delete id) fs s = (Some r, s') ->
  status r ≠ 204%nat -> s' = s.
Proof.
  unfold run, taskRoute_delete, try_catch.
  destruct (withTransaction _ _) as [[e|[]] w1] eqn:E.
  - apply withTransaction_inl in E. cbn in E.
    pose proof (taskRoute_delete_catch_db e w1) as Hdb.
    destruct (taskRoute_delete_catch e w1) as [res w2]. cbn in Hdb.
    intros [= _ <-] _. congruence.
  - apply withTransaction_inr in E as (w0 & Hb & Hd & Hs).
    apply taskRoute_delete_txn_sent in Hb; [|done]. cbn in Hb.
    intros [= Hr <-] Hst. destruct Hb as [Hb|Hb]; [congruence|].
    rewrite Hs, Hb in Hr. injection Hr as <-. done.
Qed.

End Properties.

(** * The remaining handlers and further properties *)

Section MoreRoutes.

Context {P : Platform}.

(** ** routes/users.js: POST /api/users *)

(** [user.save()] of a new document: the insert fails on an identifier or
    an email that is taken. *)
Definition User_save_new (id : string) (u : User) : M User :=
  let* _ := tick in
  let* s := getStore in
  if bool_decide (is_Some (users s !! id)) || emailTaken id u (users s)
  then throw duplicateKey else
  let* _ := putStore (mkStore (tasks s) (<[id := u]> (users s))) in
  ret u.

Definition usersRoute_post_catch (err : Err) : M unit :=
  if String.eqb (e_name err) "ValidationError" then
    send (json 400 "Validation error" (DErr err))
  else if bool_decide (e_code err = Some 11000) then
    send (json 409 "User with this email already exists" (DErr err))
  else send (json 500 "Error creating user" (DErr err)).

(** POST /api/users; [newId] is the identifier [new User] generates and
    [now] the value of [new Date()].  [new User(req.body)] takes
    [pendingTasks] as the body gives it, and the empty array when it gives
    none. *)
Definition usersRoute_post (newId : string) (now : Z) (b : UserBody) : M unit :=
  try_catch
    (if negb (truthy (ub_name b)) || negb (truthy (ub_email b)) then
       send (json 400 "name and email are required" DEmpty)
     else
       let user := mkUser (default "" (ub_name b)) (default "" (ub_email b))
                     (default [] (ub_pendingTasks b)) now in
       let* _ := User_save_new newId user in
       send (json 201 "User created successfully" (DUser newId user)))
    usersRoute_post_catch.

(** ** GET /api/tasks/:id and GET /api/users/:id *)

(** What a request for one document is answered: 200 with message OK and
    the document under a projection, or a status and a message with an
    empty object. *)
Inductive ItemAnswer (Doc : Type) :=
| ItemFound (sel : Projection) (id : string) (doc : Doc)
| ItemFailure (st : nat) (msg : string).

Arguments ItemFound {Doc} sel id doc.
Arguments ItemFailure {Doc} st msg.

(** The [try] block up to the answer: [parseJSON(req.query.select) || { __v: 0 }],
    which is the projection ['-__v'] of the list requests, then
    [findById(id).select(select).exec()]: [select] throws before anything
    is cast or read, and the store refuses a projection it does not
    accept. *)
Definition taskRoute_get_try (id : string) (q_select : option string)
    : M (Projection * option Task) :=
  let* select := parseJSON q_select "select" in
  let* _ := Query_select (projectionOf select) in
  let* task := Task_findById id in
  if negb (projected (projectionOf select)) then throw storeFailure else
  ret (projectionOf select, task).

(** GET /api/tasks/:id *)
Definition taskRoute_get (id : string) (q_select : option string)
    (fs : list bool) (s : Store) : ItemAnswer Task :=
  match taskRoute_get_try id q_select (mkWorld s None fs) with
  | (inr (sel, Some task), _) => ItemFound sel id task
  | (inr (_, None), _) => ItemFailure 404 "Task not found"
  | (inl err, _) =>
      if isBadIdCast err then ItemFailure 404 "Task not found"
      else ItemFailure 500 "Error getting task"
  end.

Definition userRoute_get_try (id : string) (q_select : option string)
    : M (Projection * option User) :=
  let* select := parseJSON q_select "select" in
  let* _ := Query_select (projectionOf select) in
  let* user := User_findById id in
  if negb (projected (projectionOf select)) then throw storeFailure else
  ret (projectionOf select, user).

(** GET /api/users/:id *)
Definition userRoute_get (id : string) (q_select : option string)
    (fs : list bool) (s : Store) : ItemAnswer User :=
  match userRoute_get_try id q_select (mkWorld s None fs) with
  | (inr (sel, Some user), _) => ItemFound sel id user
  | (inr (_, None), _) => ItemFailure 404 "User not found"
  | (inl err, _) =>
      if isCastError err then ItemFailure 404 "User not found"
      else ItemFailure 500 "Error getting user"
  end.

(** No two users have the same email. *)
Definition uniqueEmails (s : Store) : Prop :=
  forall i j u v,
    users s !! i = Some u -> users s !! j = Some v -> email u = email v -> i = j.

(** A query parameter that is given and is no JSON, and one that is absent,
    empty or JSON. *)
Definition malformed (q : option string) : Prop :=
  truthy q = true /\ JSON_parse (default "" q) = None.
Definition wellFormed (q : option string) : Prop :=
  truthy q = false \/ is_Some (JSON_parse (default "" q)).

(** The request that asks only for the count under a filter. *)
Definition countOnly (q_where : option string) : ListQuery :=
  mkListQuery q_where None None None None (Some "true").

(** ** Running the Task routes forward, when no operation fails *)

Lemma resolveAssignee_resolved b s o next nextName :
  resolved s b next nextName ->
  resolveAssignee b (calm s o) = (inr (next, nextName), calm s o).
Proof.
  intros [(Hnb & -> & ->)|(Hnb & Hb & Hv & u & Hu & ->)]; unfold resolveAssignee; rewrite Hnb.
  - done.
  - rewrite Hb. unfold bind.
    assert (Hne : next ≠ "").
    { rewrite Hb in Hnb. cbn in Hnb. apply andb_prop in Hnb as [Hne _].
      apply negb_true_iff in Hne. by apply String.eqb_neq. }
    by rewrite (ensureUserExists_found next s o u Hne Hv Hu).
Qed.

(** What [resolved] tells about the casts of the next assignee. *)
Lemma resolved_valid s b next nextName :
  resolved s b next nextName -> next = "" \/ isValid next = true.
Proof. intros [(_ & -> & _)|(_ & _ & Hv & _)]; auto. Qed.

Lemma User_findByIdAndUpdate_valid id f s o :
  isValid id = true ->
  User_findByIdAndUpdate id f (calm s o) =
    (inr tt, calm (mkStore (tasks s) (alter (setPending f) id (users s))) o).
Proof. intros Hv. by rewrite User_findByIdAndUpdate_calm, Hv. Qed.

Lemma when_update_valid (c : bool) id f s o :
  (c = true -> isValid id = true) ->
  when c (User_findByIdAndUpdate id f) (calm s o) =
    (inr tt, calm (mkStore (tasks s)
                     (if c then alter (setPending f) id (users s) else users s)) o).
Proof.
  intros Hv. destruct c; cbn.
  - by rewrite User_findByIdAndUpdate_valid by auto.
  - by destruct s.
Qed.

Lemma when_flip_valid (c a b : bool) id f g s o :
  (c = true -> isValid id = true) ->
  when c (if a then User_findByIdAndUpdate id f
          else if b then User_findByIdAndUpdate id g else ret tt) (calm s o) =
    (inr tt, calm (mkStore (tasks s)
                     (if c then
                        if a then alter (setPending f) id (users s)
                        else if b then alter (setPending g) id (users s) else users s
                      else users s)) o).
Proof.
  intros Hv. destruct c; cbn; [|by destruct s].
  destruct a; [by rewrite User_findByIdAndUpdate_valid by auto|].
  destruct b; [by rewrite User_findByIdAndUpdate_valid by auto|].
  by destruct s.
Qed.

Lemma taskRoute_put_run id b s t next nextName :
  isValid id = true ->
  tasks s !! id = Some t ->
  resolved s b next nextName ->
  let t' := mkTask (b_name b) (orDefault (b_description b) "") (b_deadline b)
              (b_completed b) next nextName (dateCreated t) in
  Task_validate t' = true ->
  assignedUser t = "" \/ assignedUser t = next \/ isValid (assignedUser t) = true ->
  run (taskRoute_put id b) [] s =
    (Some (json 200 "Task updated successfully" (DTask id t')),
     mkStore (<[id := t']> (tasks s))
       (putRule3 id (assignedUser t) next (completed t) (b_completed b)
          (putRule2 id next (b_completed b)
             (putRule1 id (assignedUser t) next (users s))))).
Proof.
  intros Hid Ht Hres t' Hval Hprev.
  pose proof (resolved_valid _ _ _ _ Hres) as Hnext.
  unfold run, taskRoute_put, try_catch. unfold bind at 1.
  unfold withTransaction, taskRoute_put_txn. unfold bind at 1.
  rewrite Task_findById_calm, Hid, Ht.
  unfold bind at 1. rewrite (resolveAssignee_resolved _ _ _ _ _ Hres). cbn [fst snd].
  unfold bind at 1. rewrite Task_save_calm. fold t'. rewrite Hval. cbn [completed].
  unfold bind at 1. rewrite when_update_valid.
  2: { intros Hc. apply andb_prop in Hc as [Ha Hb]. apply negb_true_iff in Ha, Hb.
       apply String.eqb_neq in Ha, Hb. destruct Hprev as [?|[?|?]]; done. }
  unfold bind at 1. rewrite when_update_valid.
  2: { intros Hc. apply andb_prop in Hc as [Ha _]. apply negb_true_iff in Ha.
       apply String.eqb_neq in Ha. destruct Hnext; done. }
  unfold bind at 1. rewrite when_flip_valid.
  2: { intros Hc. apply andb_prop in Hc as [_ Ha]. apply negb_true_iff in Ha.
       apply String.eqb_neq in Ha. destruct Hnext; done. }
  reflexivity.
Qed.


Lemma taskRoute_put_ok_valid id b s s' (r : Response) :
  run (taskRoute_put id b) [] s = (Some r, s') -> status r = 200%nat ->
  isValid id = true.
Proof.
  destruct (isValid id) eqn:Hid; [done|].
  unfold run, taskRoute_put, try_catch. unfold bind at 1.
  unfold withTransaction, taskRoute_put_txn. unfold bind at 1.
  rewrite Task_findById_calm, Hid. cbn. intros [= <- _]. done.
Qed.

(** The rules touch [pendingTasks] only: a user keeps its name, email and
    date, and no user appears or disappears. *)
Lemma alter_setPending_lookup f i (us : gmap string User) j :
  exists g, alter (setPending f) i us !! j = setPending g <$> us !! j.
Proof.
  destruct (decide (i = j)) as [->|Hne].
  - exists f. by rewrite lookup_alter_eq.
  - exists (fun l => l). rewrite lookup_alter_ne by done.
    destruct (us !! j) as [[]|]; done.
Qed.

Lemma setPending_compose_lookup (us us' : gmap string User) f j :
  (exists g, us' !! j = setPending g <$> us !! j) ->
  forall i, exists g, alter (setPending f) i us' !! j = setPending g <$> us !! j.
Proof.
  intros [g Hg] i. destruct (alter_setPending_lookup f i us' j) as [h Hh].
  exists (fun l => h (g l)). rewrite Hh, Hg. by destruct (us !! j).
Qed.

Lemma putRules_lookup id prev next pc nc (us : gmap string User) j :
  exists g,
    putRule3 id prev next pc nc (putRule2 id next nc (putRule1 id prev next us)) !! j =
    setPending g <$> us !! j.
Proof.
  assert (H0 : exists g, us !! j = setPending g <$> us !! j).
  { exists (fun l => l). destruct (us !! j) as [[]|]; done. }
  assert (H1 : exists g, putRule1 id prev next us !! j = setPending g <$> us !! j).
  { unfold putRule1. case_match; [by apply setPending_compose_lookup|done]. }
  assert (H2 : exists g, putRule2 id next nc (putRule1 id prev next us) !! j =
                         setPending g <$> us !! j).
  { unfold putRule2. case_match; [by apply setPending_compose_lookup|done]. }
  unfold putRule3. repeat case_match; try done; by apply setPending_compose_lookup.
Qed.

Lemma resolved_putRules s b next nextName ts id prev next' pc nc :
  resolved s b next nextName ->
  resolved
    (mkStore ts (putRule3 id prev next' pc nc
                   (putRule2 id next' nc (putRule1 id prev next' (users s)))))
    b next nextName.
Proof.
  intros [H1|(Hnb & Hb & Hv & u & Hu & ->)]; [by left|right].
  split; [done|]. split; [done|]. split; [done|]. cbn [users].
  destruct (putRules_lookup id prev next' pc nc (users s) next) as [g Hg].
  rewrite Hu in Hg. cbn in Hg. eauto.
Qed.

Lemma addToSet_elem (x : string) (l : list string) : x ∈ l -> addToSet x l = l.
Proof. intros Hx. unfold addToSet. by rewrite decide_True. Qed.

(** X1: replaying a PUT /api/tasks/:id that was answered 200 gives the
    same answer and leaves the store as the first request left it. *)
Theorem taskRoute_put_idempotent (id : string) (b : TaskBody) (s s' : Store)
    (r : Response) :
  run (taskRoute_put id b) [] s = (Some r, s') ->
  status r = 200%nat ->
  run (taskRoute_put id b) [] s' = (Some r, s').
Proof.
  intros Hrun Hst.
  pose proof (taskRoute_put_ok_valid _ _ _ _ _ Hrun Hst) as Hid.
  destruct (taskRoute_put_ok _ _ _ _ _ Hrun Hst)
    as (t & next & nextName & Ht & Hres & Hval & -> & ->).
  pose proof (resolved_exists _ _ _ _ Hres) as Hex.
  set (t' := mkTask (b_name b) (orDefault (b_description b) "") (b_deadline b)
               (b_completed b) next nextName (dateCreated t)) in *.
  set (us1 := putRule3 id (assignedUser t) next (completed t) (b_completed b)
                (putRule2 id next (b_completed b)
                   (putRule1 id (assignedUser t) next (users s)))).
  rewrite (taskRoute_put_run id b (mkStore (<[id := t']> (tasks s)) us1) t' next nextName).
  - cbn [tasks users dateCreated assignedUser completed]. fold t'. f_equal. f_equal.
    + apply insert_insert_eq.
    + unfold putRule1 at 1. rewrite String.eqb_refl, andb_false_r.
      unfold putRule3. rewrite String.eqb_refl.
      assert (Hflip : negb (b_completed b) && b_completed b = false) by by destruct (b_completed b).
      assert (Hflip' : b_completed b && negb (b_completed b) = false) by by destruct (b_completed b).
      change (completed t') with (b_completed b). rewrite Hflip, Hflip'.
      assert (Hr2 : putRule2 id next (b_completed b) us1 = us1).
      { unfold putRule2.
        destruct (negb (String.eqb next "") && negb (b_completed b)) eqn:Hc; [|done].
        apply andb_prop in Hc as [Hn Hc]. apply negb_true_iff in Hn, Hc.
        apply String.eqb_neq in Hn.
        apply alter_id. intros u Hu.
        assert (Hin : id ∈ pend us1 next).
        { unfold us1. apply putRules_mem_id; [done|]. left. done. }
        unfold pend in Hin. rewrite Hu in Hin.
        destruct u as [n e l d]. unfold setPending. cbn in *. by rewrite addToSet_elem. }
      rewrite Hr2. by case_match.
  - done.
  - cbn [tasks]. apply lookup_insert_eq.
  - by apply resolved_putRules.
  - done.
  - right; left. done.
Qed.


(** ** Identifiers with no task *)

(** X2: PUT and DELETE /api/tasks/:id on a string that is no identifier
    answer 404 and write nothing, whatever the store does; on an
    identifier with no task, neither under the string of the request nor
    under the spelling of the store, they answer 404 and write nothing as
    soon as the read succeeds, although PUT goes on to try a second
    answer. *)
Theorem task_unknown_id_404 (id : string) (b : TaskBody) (fs : list bool) (s : Store) :
  (isValid id = false \/
   (tasks s !! id = None /\ tasks s !! canon id = None /\ hd false fs = false)) ->
  run (taskRoute_put id b) fs s = (Some (json 404 "Task not found" DEmpty), s) /\
  run (taskRoute_delete id) fs s = (Some (json 404 "Task not found" DEmpty), s).
Proof.
  intros [Hid|(Ht & _ & Hfs)].
  - unfold run, taskRoute_put, taskRoute_delete, try_catch.
    unfold bind at 1. unfold withTransaction, taskRoute_put_txn, taskRoute_delete_txn.
    unfold bind at 1. unfold bind at 2.
    unfold Task_findById, castId. rewrite Hid. unfold bind. cbn. done.
  - unfold run, taskRoute_put, taskRoute_delete, try_catch.
    unfold bind at 1. unfold withTransaction, taskRoute_put_txn, taskRoute_delete_txn.
    unfold bind at 1. unfold bind at 2.
    unfold Task_findById, castId. destruct (isValid id) eqn:Hid.
    + destruct fs as [|[] [|[] fs]]; try done; unfold bind; cbn; rewrite Ht; cbn; done.
    + unfold bind. cbn. done.
Qed.


(** ** Deleting a task *)

Lemma taskRoute_delete_ok_valid id s s' (r : Response) :
  run (taskRoute_delete id) [] s = (Some r, s') -> status r = 204%nat ->
  isValid id = true.
Proof.
  destruct (isValid id) eqn:Hid; [done|].
  unfold run, taskRoute_delete, try_catch, withTransaction, taskRoute_delete_txn.
  unfold bind at 1. rewrite Task_findById_calm, Hid. cbn. intros [= <- _]. done.
Qed.

Lemma taskRoute_delete_run id s t :
  isValid id = true ->
  tasks s !! id = Some t ->
  assignedUser t = "" \/ completed t = true \/ isValid (assignedUser t) = true ->
  run (taskRoute_delete id) [] s =
    (Some (mkResponse 204 None),
     mkStore (delete id (tasks s))
       (if negb (String.eqb (assignedUser t) "") && negb (completed t)
        then alter (setPending (pull id)) (assignedUser t) (users s)
        else users s)).
Proof.
  intros Hid Ht Hc.
  unfold run, taskRoute_delete, try_catch, withTransaction, taskRoute_delete_txn.
  unfold bind at 1. rewrite Task_findById_calm, Hid, Ht.
  unfold bind at 1. rewrite Task_deleteOne_calm.
  unfold bind at 1. rewrite when_update_valid.
  2: { intros Hw. apply andb_prop in Hw as [Ha Hb]. apply negb_true_iff in Ha, Hb.
       apply String.eqb_neq in Ha. destruct Hc as [?|[?|?]]; [done|congruence|done]. }
  reflexivity.
Qed.

Lemma task_unknown_id_absent id s :
  isValid id = true -> tasks s !! id = None ->
  run (taskRoute_delete id) [] s = (Some (json 404 "Task not found" DEmpty), s).
Proof.
  intros Hid Ht.
  unfold run, taskRoute_delete, try_catch, withTransaction, taskRoute_delete_txn.
  unfold bind at 1. rewrite Task_findById_calm, Hid, Ht. reflexivity.
Qed.

(** X3: a second DELETE of a task that a first DELETE removed is answered
    404 and writes nothing: there is no second cascade. *)
Theorem task_delete_twice (id : string) (s s' : Store) (r : Response) :
  run (taskRoute_delete id) [] s = (Some r, s') ->
  status r = 204%nat ->
  run (taskRoute_delete id) [] s' = (Some (json 404 "Task not found" DEmpty), s').
Proof.
  intros Hrun Hst.
  pose proof (taskRoute_delete_ok_valid _ _ _ _ Hrun Hst) as Hid.
  destruct (taskRoute_delete_ok _ _ _ _ Hrun Hst) as (t & Ht & _ & ->).
  apply task_unknown_id_absent; [done|]. cbn [tasks]. apply lookup_delete_eq.
Qed.


(** ** Creating a task *)

Lemma tasksRoute_post_run newId now b s next nextName :
  resolved s b next nextName ->
  let t' := mkTask (b_name b) (orDefault (b_description b) "") (b_deadline b)
              (b_completed b) next nextName now in
  Task_validate t' = true ->
  tasks s !! newId = None ->
  run (tasksRoute_post newId now b) [] s =
    (Some (json 201 "Task created successfully" (DTask newId t')),
     mkStore (<[newId := t']> (tasks s)) (putRule2 newId next (b_completed b) (users s))).
Proof.
  intros Hres t' Hval Hnew.
  pose proof (resolved_valid _ _ _ _ Hres) as Hnext.
  unfold run, tasksRoute_post, try_catch. unfold bind at 1.
  unfold withTransaction, tasksRoute_post_txn. unfold bind at 1.
  rewrite (resolveAssignee_resolved _ _ _ _ _ Hres). cbn [fst snd].
  unfold bind at 1. rewrite Task_save_new_calm. fold t'. rewrite Hval.
  rewrite bool_decide_eq_false_2 by (rewrite Hnew; by intros [? ?]).
  cbn [assignedUser completed t'].
  unfold bind at 1. rewrite when_update_valid.
  2: { intros Hc. apply andb_prop in Hc as [Ha _]. apply negb_true_iff in Ha.
       apply String.eqb_neq in Ha. destruct Hnext; done. }
  reflexivity.
Qed.

Lemma pull_addToSet_fresh (x : string) (l : list string) :
  x ∉ l -> pull x (addToSet x l) = l.
Proof.
  intros Hx. unfold addToSet. rewrite decide_False by done.
  unfold pull. rewrite filter_app.
  rewrite (filter_cons _ x []), decide_False by (intros Hn; by apply Hn).
  rewrite filter_nil, app_nil_r.
  induction l as [|y l IH]; [done|].
  rewrite filter_cons, decide_True.
  - f_equal. apply IH. intros Hin. apply Hx. by right.
  - intros ->. apply Hx. by left.
Qed.

(** X4: a task created by POST /api/tasks and then deleted by
    DELETE /api/tasks/:id leaves the store as it was before the creation,
    when the new identifier was in no [pendingTasks]. *)
Theorem task_create_then_delete (newId : string) (now : Z) (b : TaskBody)
    (s s1 : Store) (r : Response) :
  run (tasksRoute_post newId now b) [] s = (Some r, s1) ->
  status r = 201%nat ->
  isValid newId = true ->
  (forall uid, newId ∉ pendingOf s uid) ->
  run (taskRoute_delete newId) [] s1 = (Some (mkResponse 204 None), s).
Proof.
  intros Hrun Hst Hid Hfresh.
  destruct (tasksRoute_post_ok _ _ _ _ _ _ Hrun Hst)
    as (next & nextName & Hnew & Hres & _ & ->).
  pose proof (resolved_valid _ _ _ _ Hres) as Hnext.
  erewrite taskRoute_delete_run; [|done|cbn [tasks]; apply lookup_insert_eq|].
  2: { cbn [assignedUser]. destruct Hnext; auto. }
  cbn [tasks users assignedUser completed]. f_equal.
  destruct s as [ts us]. cbn [tasks users] in *. f_equal.
  - rewrite delete_insert_eq. by apply delete_id.
  - unfold putRule2.
    destruct (negb (String.eqb next "") && negb (b_completed b)); [|done].
    rewrite alter_alter_eq. apply alter_id. intros u Hu.
    specialize (Hfresh next). unfold pendingOf, pend in Hfresh. cbn in Hfresh.
    rewrite Hu in Hfresh.
    destruct u as [n e l d]. unfold compose, setPending.
    cbn [pendingTasks u_name email u_dateCreated] in *.
    by rewrite pull_addToSet_fresh.
Qed.

(** X5: POST /api/tasks answered 201 adds one task, under the new
    identifier, with the fields of the body and the date of the request,
    and changes no other task; its assignee is nobody or a user of the
    store with the name the store holds, and it is the one the body
    resolves to when the body spells it as the store does; it adds the
    identifier to the [pendingTasks] of the assignee when the task is not
    completed, and changes no other list and no user's name or email. *)
Theorem task_create_effect (newId : string) (now : Z) (b : TaskBody)
    (s s' : Store) (r : Response) :
  run (tasksRoute_post newId now b) [] s = (Some r, s') ->
  status r = 201%nat ->
  exists t',
    tasks s !! newId = None /\
    tasks s' !! newId = Some t' /\
    r = json 201 "Task created successfully" (DTask newId t') /\
    name t' = b_name b /\ description t' = orDefault (b_description b) "" /\
    deadline t' = b_deadline b /\ completed t' = b_completed b /\
    dateCreated t' = now /\
    assigneeStored s (assignedUser t') (assignedUserName t') /\
    (canonicalAssignee b -> resolved s b (assignedUser t') (assignedUserName t')) /\
    (forall id2, id2 ≠ newId -> tasks s' !! id2 = tasks s !! id2) /\
    (forall uid,
       pendingOf s' uid =
         if bool_decide (uid = assignedUser t' /\ uid ≠ "" /\ completed t' = false)
         then addToSet newId (pendingOf s uid) else pendingOf s uid) /\
    (forall uid, exists g, users s' !! uid = setPending g <$> users s !! uid).
Proof.
  intros Hrun Hst.
  destruct (tasksRoute_post_ok _ _ _ _ _ _ Hrun Hst)
    as (next & nextName & Hnew & Hres & Hval & ->).
  pose proof (resolved_exists _ _ _ _ Hres) as Hex.
  assert (Hr : r = json 201 "Task created successfully"
                 (DTask newId (mkTask (b_name b) (orDefault (b_description b) "")
                                 (b_deadline b) (b_completed b) next nextName now))).
  { rewrite (tasksRoute_post_run _ _ _ _ _ _ Hres Hval Hnew) in Hrun. congruence. }
  eexists. cbn [tasks users]. rewrite lookup_insert_eq.
  split; [done|]. split; [reflexivity|]. split; [done|]. cbn.
  repeat (split; [done|]).
  split; [by eapply resolved_stored|]. split; [done|]. split; [|split].
  - intros id2 Hne. by rewrite lookup_insert_ne.
  - intros uid. unfold pendingOf. cbn [users]. unfold putRule2.
    destruct (String.eqb next "") eqn:E1; cbn [negb andb].
    { apply String.eqb_eq in E1. rewrite bool_decide_eq_false_2; [done|].
      intros (-> & ? & _). done. }
    apply String.eqb_neq in E1. destruct (b_completed b); cbn [negb].
    { rewrite bool_decide_eq_false_2; [done|]. intros (_ & _ & ?). done. }
    destruct Hex as [?|Hex]; [done|].
    destruct (decide (uid = next)) as [->|Hne].
    + rewrite bool_decide_eq_true_2 by done. by apply pend_alter_add.
    + rewrite bool_decide_eq_false_2 by (intros (? & _); done).
      apply pend_alter_ne. congruence.
  - intros uid. unfold putRule2. case_match.
    + apply alter_setPending_lookup.
    + exists (fun l => l). destruct (users s !! uid) as [[]|]; done.
Qed.


(** ** Requests the schema rejects *)

Lemma Task_validate_missing (t : Task) :
  name t = None \/ name t = Some "" \/ deadline t = None -> Task_validate t = false.
Proof.
  unfold Task_validate. intros [-> | [-> | ->]]; [done|by destruct (deadline t)|].
  by destruct (name t).
Qed.

(** X6: when the name is absent or empty, or the deadline is absent, and
    the assignee resolves, POST /api/tasks and PUT /api/tasks/:id on an
    existing task answer 400 with the one fixed message and write
    nothing. *)
Theorem task_rejected_by_schema (newId id : string) (now : Z) (b : TaskBody)
    (s : Store) (t : Task) (next nextName : string) :
  b_name b = None \/ b_name b = Some "" \/ b_deadline b = None ->
  resolved s b next nextName ->
  run (tasksRoute_post newId now b) [] s =
    (Some (json 400 "Invalid task data: name and deadline are required" DEmpty), s) /\
  (isValid id = true -> tasks s !! id = Some t ->
   run (taskRoute_put id b) [] s =
     (Some (json 400 "Invalid task data: name and deadline are required" DEmpty), s)).
Proof.
  intros Hb Hres. split.
  - unfold run, tasksRoute_post, try_catch. unfold bind at 1.
    unfold withTransaction, tasksRoute_post_txn. unfold bind at 1.
    rewrite (resolveAssignee_resolved _ _ _ _ _ Hres). cbn [fst snd].
    unfold bind at 1. rewrite Task_save_new_calm.
    rewrite Task_validate_missing by done. reflexivity.
  - intros Hid Ht.
    unfold run, taskRoute_put, try_catch. unfold bind at 1.
    unfold withTransaction, taskRoute_put_txn. unfold bind at 1.
    rewrite Task_findById_calm, Hid, Ht.
    unfold bind at 1. rewrite (resolveAssignee_resolved _ _ _ _ _ Hres). cbn [fst snd].
    unfold bind at 1. rewrite Task_save_calm.
    rewrite Task_validate_missing by done. reflexivity.
Qed.

(** ** An assignee of white space *)

(** X7: an [assignedUser] made of white space only is no assignee and no
    error: a POST /api/tasks answered 201 creates the task unassigned,
    with the name "unassigned", and changes no user. *)
Theorem task_blank_assignee (newId : string) (now : Z) (b : TaskBody) (str : string)
    (s s' : Store) (r : Response) :
  b_assignedUser b = Some str -> isBlank str = true ->
  run (tasksRoute_post newId now b) [] s = (Some r, s') ->
  status r = 201%nat ->
  exists t', tasks s' !! newId = Some t' /\ assignedUser t' = "" /\
             assignedUserName t' = "unassigned" /\ users s' = users s.
Proof.
  intros Hb Hblank Hrun Hst.
  destruct (tasksRoute_post_ok _ _ _ _ _ _ Hrun Hst)
    as (next & nextName & _ & Hres & _ & ->).
  assert (Hnb : nonBlank (b_assignedUser b) = false).
  { rewrite Hb. cbn. rewrite Hblank. apply andb_false_r. }
  destruct Hres as [(_ & -> & ->)|(Hnb' & _)]; [|congruence].
  eexists. cbn [tasks users]. rewrite lookup_insert_eq. done.
Qed.

(** ** The answer of DELETE /api/tasks/:id comes before the commit *)

(** X8: DELETE /api/tasks/:id answers 204 from inside the transaction:
    when every operation succeeds and the commit fails, the client has
    received 204 and the store is as it was, the task still there. *)
Theorem task_delete_answers_before_commit (id : string) (s : Store) (t : Task) :
  isValid id = true ->
  tasks s !! id = Some t ->
  assignedUser t = "" \/ completed t = true \/ isValid (assignedUser t) = true ->
  run (taskRoute_delete id)
      (if negb (String.eqb (assignedUser t) "") && negb (completed t)
       then [false; false; false; true] else [false; false; true]) s =
    (Some (mkResponse 204 None), s).
Proof.
  intros Hid Ht Hc.
  unfold run, taskRoute_delete, try_catch, withTransaction, taskRoute_delete_txn.
  unfold Task_findById, Task_deleteOne, User_findByIdAndUpdate, castId, bind.
  rewrite Hid.
  destruct (negb (String.eqb (assignedUser t) "") && negb (completed t)) eqn:Hw; cbn.
  - rewrite Ht. cbn. rewrite Hw. cbn.
    assert (Hv : isValid (assignedUser t) = true).
    { apply andb_prop in Hw as [Ha Hb]. apply negb_true_iff in Ha, Hb.
      apply String.eqb_neq in Ha. destruct Hc as [?|[?|?]]; [done|congruence|done]. }
    rewrite Hv. cbn. reflexivity.
  - rewrite Ht. cbn. rewrite Hw. cbn. reflexivity.
Qed.

(** ** The Task routes, whatever the store does *)

(** X9: each of POST /api/tasks, PUT /api/tasks/:id and
    DELETE /api/tasks/:id, whichever store operations fail, leaves the
    store exactly as it was unless it answers with its success status
    (201, 200, 204). *)
Theorem task_routes_all_or_nothing :
  (forall newId now b fs s (r : Response) s',
     run (tasksRoute_post newId now b) fs s = (Some r, s') ->
     status r ≠ 201%nat -> s' = s) /\
  (forall id b fs s (r : Response) s',
     run (taskRoute_put id b) fs s = (Some r, s') ->
     status r ≠ 200%nat -> s' = s) /\
  (forall id fs s (r : Response) s',
     run (taskRoute_delete id) fs s = (Some r, s') ->
     status r ≠ 204%nat -> s' = s).
Proof.
  split; [|split].
  - apply tasksRoute_post_atomic.
  - apply taskRoute_put_atomic.
  - apply taskRoute_delete_atomic.
Qed.

(** X10: the three Task routes keep the invariant between [assignedUser],
    [completed] and [pendingTasks]: when it holds before a request that
    is answered with the success status and no user has the empty
    identifier, it holds after (for POST, when the new identifier is in no
    [pendingTasks]). *)
Theorem task_routes_keep_invariant :
  (forall newId now b s s' (r : Response),
     consistent s -> noEmptyUser s ->
     (forall uid, newId ∉ pendingOf s uid) ->
     run (tasksRoute_post newId now b) [] s = (Some r, s') ->
     status r = 201%nat -> consistent s') /\
  (forall id b s s' (r : Response),
     consistent s -> noEmptyUser s ->
     run (taskRoute_put id b) [] s = (Some r, s') ->
     status r = 200%nat -> consistent s') /\
  (forall id s s' (r : Response),
     consistent s ->
     run (taskRoute_delete id) [] s = (Some r, s') ->
     status r = 204%nat -> consistent s').
Proof.
  split; [|split].
  - intros. by eapply tasksRoute_post_consistent.
  - intros. by eapply taskRoute_put_consistent.
  - intros. by eapply taskRoute_delete_consistent.
Qed.


(** ** routes/users.js *)

(** X11: DELETE /api/users/:id keeps the invariant between
    [assignedUser], [completed] and [pendingTasks]: when it holds before a
    request answered 200 and no user has the empty identifier, it holds
    after. *)
Theorem user_delete_keeps_invariant (id : string) (s s' : Store) (r : Response) :
  consistent s -> noEmptyUser s ->
  run (userRoute_delete id) [] s = (Some r, s') ->
  status r = 200%nat ->
  consistent s'.
Proof. intros. by eapply userRoute_delete_consistent. Qed.

Lemma emailTaken_spec id u (us : gmap string User) :
  emailTaken id u us = true <->
  exists k v, us !! k = Some v /\ k ≠ id /\ email v = email u.
Proof.
  unfold emailTaken. rewrite bool_decide_eq_true, Exists_exists. split.
  - intros ([k v] & Hin & Hk & He). apply elem_of_map_to_list in Hin. eauto.
  - intros (k & v & Hl & Hk & He). exists (k, v). split; [|done].
    by apply elem_of_map_to_list.
Qed.

Lemma emailTaken_false id u (us : gmap string User) :
  emailTaken id u us = false <->
  forall k v, us !! k = Some v -> k ≠ id -> email v ≠ email u.
Proof.
  rewrite <- not_true_iff_false, emailTaken_spec. split.
  - intros Hn k v Hl Hk He. apply Hn. eauto.
  - intros Hall (k & v & Hl & Hk & He). by eapply Hall.
Qed.

Lemma emailTaken_insert id u v (us : gmap string User) :
  emailTaken id u (<[id := v]> us) = emailTaken id u us.
Proof.
  apply eq_true_iff_eq. rewrite !emailTaken_spec.
  split; intros (k & w & Hl & Hk & He); exists k, w.
  - by rewrite lookup_insert_ne in Hl.
  - by rewrite lookup_insert_ne.
Qed.

Lemma usersRoute_post_catch_calm e s :
  exists r, usersRoute_post_catch e (calm s None) = (inr tt, calm s (Some r)) /\
            status r ≠ 201%nat.
Proof.
  unfold usersRoute_post_catch.
  repeat match goal with |- context [if ?c then _ else _] => destruct c end;
    eexists; (split; [reflexivity|done]).
Qed.

Lemma User_save_new_calm id u s o :
  User_save_new id u (calm s o) =
  if bool_decide (is_Some (users s !! id)) || emailTaken id u (users s)
  then (inl duplicateKey, calm s o)
  else (inr u, calm (mkStore (tasks s) (<[id := u]> (users s))) o).
Proof. unfold User_save_new, bind. cbn. by destruct (_ || _). Qed.

(** POST /api/users when no operation fails and the answer is 201. *)
Lemma usersRoute_post_ok (newId : string) (now : Z) (b : UserBody)
    (s s' : Store) (r : Response) :
  run (usersRoute_post newId now b) [] s = (Some r, s') ->
  status r = 201%nat ->
  exists name_ email_,
    ub_name b = Some name_ /\ name_ ≠ "" /\
    ub_email b = Some email_ /\ email_ ≠ "" /\
    let u := mkUser name_ email_ (default [] (ub_pendingTasks b)) now in
    users s !! newId = None /\
    emailTaken newId u (users s) = false /\
    r = json 201 "User created successfully" (DUser newId u) /\
    s' = mkStore (tasks s) (<[newId := u]> (users s)).
Proof.
  unfold run, usersRoute_post, try_catch.
  destruct (ub_name b) as [name_|] eqn:Hn; cbn [truthy negb orb].
  2: { cbn. intros [= <- <-]. done. }
  destruct (String.eqb name_ "") eqn:Hne; cbn [negb orb].
  { cbn. intros [= <- <-]. done. }
  destruct (ub_email b) as [email_|] eqn:He; cbn [truthy negb orb].
  2: { cbn. intros [= <- <-]. done. }
  destruct (String.eqb email_ "") eqn:Hee; cbn [negb orb].
  { cbn. intros [= <- <-]. done. }
  apply String.eqb_neq in Hne, Hee.
  change (default "" (Some name_)) with name_.
  change (default "" (Some email_)) with email_.
  unfold bind at 1. rewrite User_save_new_calm.
  destruct (bool_decide (is_Some (users s !! newId))) eqn:Hnew; cbn [orb].
  { destruct (usersRoute_post_catch_calm duplicateKey s) as (r1 & -> & Hr1).
    cbn. intros [= <- <-]. done. }
  match goal with |- context [emailTaken ?a ?b ?c] => destruct (emailTaken a b c) eqn:Het end.
  { destruct (usersRoute_post_catch_calm duplicateKey s) as (r1 & -> & Hr1).
    cbn. intros [= <- <-]. done. }
  apply bool_decide_eq_false in Hnew. rewrite <- eq_None_not_Some in Hnew.
  cbn. intros [= <- <-] _. exists name_, email_. done.
Qed.

(** X12: POST /api/users answered 201 stores one user under the new
    identifier, with the name, email and [pendingTasks] of the body (the
    empty list when the body has none) and the date of the request; no
    user of the store had that email; every other user and every task,
    also those named in [pendingTasks], is as it was. *)
Theorem user_create_effect (newId : string) (now : Z) (b : UserBody)
    (s s' : Store) (r : Response) :
  run (usersRoute_post newId now b) [] s = (Some r, s') ->
  status r = 201%nat ->
  exists u,
    users s !! newId = None /\
    users s' !! newId = Some u /\
    ub_name b = Some (u_name u) /\ ub_email b = Some (email u) /\
    pendingTasks u = default [] (ub_pendingTasks b) /\
    u_dateCreated u = now /\
    (forall k v, users s !! k = Some v -> email v ≠ email u) /\
    (forall k, k ≠ newId -> users s' !! k = users s !! k) /\
    tasks s' = tasks s.
Proof.
  intros Hrun Hst.
  destruct (usersRoute_post_ok _ _ _ _ _ _ Hrun Hst)
    as (name_ & email_ & Hn & _ & He & _ & Hnew & Het & _ & ->).
  eexists. cbn [tasks users]. rewrite lookup_insert_eq.
  split; [done|]. split; [reflexivity|]. cbn.
  repeat (split; [done|]). split; [|split; [|done]].
  - intros k v Hl. rewrite emailTaken_false in Het. apply (Het k v Hl).
    intros ->. congruence.
  - intros k Hk. by rewrite lookup_insert_ne.
Qed.

(** X13: POST /api/users without a name or without an email (absent or
    empty) answers 400 before any store operation, whatever the store
    would do; with an email that another user has it answers 409; in both
    cases nothing is written. *)
Theorem user_create_rejected (newId : string) (now : Z) (b : UserBody) (s : Store) :
  (truthy (ub_name b) = false \/ truthy (ub_email b) = false ->
   forall fs, run (usersRoute_post newId now b) fs s =
                (Some (json 400 "name and email are required" DEmpty), s)) /\
  (forall name_ email_ k v,
     ub_name b = Some name_ -> name_ ≠ "" ->
     ub_email b = Some email_ -> email_ ≠ "" ->
     users s !! k = Some v -> k ≠ newId -> email v = email_ ->
     run (usersRoute_post newId now b) [] s =
       (Some (json 409 "User with this email already exists" (DErr duplicateKey)), s)).
Proof.
  split.
  - intros Hb fs. unfold run, usersRoute_post, try_catch.
    assert (Hc : negb (truthy (ub_name b)) || negb (truthy (ub_email b)) = true).
    { destruct Hb as [-> | ->]; [done|apply orb_true_r]. }
    rewrite Hc. reflexivity.
  - intros name_ email_ k v Hn Hne He Hee Hl Hk Hv.
    unfold run, usersRoute_post, try_catch. rewrite Hn, He. cbn [truthy].
    apply String.eqb_neq in Hne, Hee. rewrite Hne, Hee. cbn [negb orb].
    change (default "" (Some name_)) with name_.
    change (default "" (Some email_)) with email_.
    unfold bind at 1. rewrite User_save_new_calm.
    match goal with |- context [emailTaken ?a ?b ?c] =>
      assert (Het : emailTaken a b c = true) by (apply emailTaken_spec; eauto) end.
    rewrite Het, orb_true_r. reflexivity.
Qed.


(** ** Replacing and deleting a user *)

Lemma filter_all_ne (x : string) (l : list string) :
  x ∉ l -> filter (fun y => y ≠ x) l = l.
Proof.
  induction l as [|y l IH]; [done|].
  rewrite not_elem_of_cons. intros [Hne Hl].
  rewrite filter_cons_True by done. by rewrite IH.
Qed.

Lemma Set_from_NoDup_id (l : list string) : NoDup l -> Set_from l = l.
Proof.
  induction 1 as [|x l Hx Hl IH]; [done|].
  cbn. by rewrite IH, filter_all_ne.
Qed.

Lemma Set_from_idemp (l : list string) : Set_from (Set_from l) = Set_from l.
Proof. apply Set_from_NoDup_id, Set_from_NoDup. Qed.

Lemma filter_own_members (l l' : list string) :
  (forall x, x ∈ l' -> x ∈ l) ->
  List.filter (fun t => negb (Set_has l t)) l' = [].
Proof.
  induction l' as [|y l' IH]; [done|].
  intros Hsub. cbn. unfold Set_has at 1.
  rewrite bool_decide_eq_true_2 by (apply Hsub; left). cbn.
  apply IH. intros x Hx. apply Hsub. by right.
Qed.

(** PUT /api/users/:id when no operation fails and the answer is 200, with
    the answer and the checks that were passed. *)
Lemma userRoute_put_inv (id : string) (b : UserBody) (s s' : Store) (r : Response) :
  run (userRoute_put id b) [] s = (Some r, s') ->
  status r = 200%nat ->
  exists u name_ email_,
    isValid id = true /\
    users s !! id = Some u /\
    ub_name b = Some name_ /\ name_ ≠ "" /\
    ub_email b = Some email_ /\ email_ ≠ "" /\
    let oldPending := Set_from (pendingTasks u) in
    let newPending := Set_from (default [] (ub_pendingTasks b)) in
    let u' := mkUser name_ email_ newPending (u_dateCreated u) in
    emailTaken id u' (users s) = false /\
    r = json 200 "User updated successfully" (DUser id u') /\
    s' = mkStore
           (assignAdded id name_
              (List.filter (fun t => negb (Set_has oldPending t)) newPending)
              (unassignRemoved id
                 (List.filter (fun t => negb (Set_has newPending t)) oldPending)
                 (tasks s)))
           (<[id := u']> (users s)).
Proof.
  unfold run, userRoute_put, try_catch. unfold bind at 1.
  rewrite User_findById_calm.
  destruct (isValid id) eqn:Hid.
  2: { destruct (userRoute_put_catch_calm castError_id s) as (r1 & -> & Hr1).
       cbn. intros [= <- <-]. done. }
  destruct (users s !! id) as [u|] eqn:Hu.
  2: { cbn. intros [= <- <-]. done. }
  destruct (ub_name b) as [name_|] eqn:Hn; cbn [truthy negb orb].
  2: { cbn. intros [= <- <-]. done. }
  destruct (String.eqb name_ "") eqn:Hne; cbn [negb orb].
  { cbn. intros [= <- <-]. done. }
  destruct (ub_email b) as [email_|] eqn:He; cbn [truthy negb orb].
  2: { cbn. intros [= <- <-]. done. }
  destruct (String.eqb email_ "") eqn:Hee; cbn [negb orb].
  { cbn. intros [= <- <-]. done. }
  apply String.eqb_neq in Hne, Hee.
  unfold bind at 1. rewrite User_save_calm.
  match goal with |- context [emailTaken ?a ?b ?c] => destruct (emailTaken a b c) eqn:Het end.
  { destruct (userRoute_put_catch_calm duplicateKey s) as (r1 & -> & Hr1).
    cbn. intros [= <- <-]. done. }
  change (default "" (Some name_)) with name_ in *.
  change (default "" (Some email_)) with email_ in *.
  cbn [u_name].
  set (oldPending := Set_from (pendingTasks u)) in *.
  set (newPending := Set_from (default [] (ub_pendingTasks b))) in *.
  set (removed := List.filter (fun t => negb (Set_has newPending t)) oldPending).
  set (added := List.filter (fun t => negb (Set_has oldPending t)) newPending).
  unfold bind at 1.
  match goal with |- context [when ?c (Task_updateMany ?i ?a ?f) (calm ?s0 ?o)] =>
    destruct (when_updateMany_calm c i a f s0 o) as [-> | ->] end.
  2: { match goal with |- context [userRoute_put_catch ?e (calm ?s0 None)] =>
         destruct (userRoute_put_catch_calm e s0) as (r1 & -> & Hr1) end.
       cbn. intros [= <- <-]. done. }
  unfold bind at 1.
  match goal with |- context [when ?c (Task_updateMany ?i ?a ?f) (calm ?s0 ?o)] =>
    destruct (when_updateMany_calm c i a f s0 o) as [-> | ->] end.
  2: { match goal with |- context [userRoute_put_catch ?e (calm ?s0 None)] =>
         destruct (userRoute_put_catch_calm e s0) as (r1 & -> & Hr1) end.
       cbn. intros [= <- <-]. done. }
  cbn. intros [= <- <-] _. exists u, name_, email_. done.
Qed.

Lemma when_updateMany_valid (c : bool) ids au upd s o :
  forallb isValid (default [] ids) = true ->
  when c (Task_updateMany ids au upd) (calm s o) =
    (inr tt,
     calm (mkStore
             (if c
              then map_imap (fun id t => Some (if Task_matches ids au id t then upd t else t))
                     (tasks s)
              else tasks s)
             (users s)) o).
Proof.
  intros Hv. destruct c; cbn.
  - by rewrite Task_updateMany_calm, Hv.
  - by destruct s.
Qed.

(** PUT /api/users/:id computed forward when no operation fails. *)
Lemma userRoute_put_run (id : string) (b : UserBody) (s : Store) (u : User)
    (name_ email_ : string) :
  isValid id = true ->
  users s !! id = Some u ->
  ub_name b = Some name_ -> name_ ≠ "" ->
  ub_email b = Some email_ -> email_ ≠ "" ->
  let oldPending := Set_from (pendingTasks u) in
  let newPending := Set_from (default [] (ub_pendingTasks b)) in
  let u' := mkUser name_ email_ newPending (u_dateCreated u) in
  let removed := List.filter (fun t => negb (Set_has newPending t)) oldPending in
  let added := List.filter (fun t => negb (Set_has oldPending t)) newPending in
  emailTaken id u' (users s) = false ->
  forallb isValid removed = true ->
  forallb isValid added = true ->
  run (userRoute_put id b) [] s =
    (Some (json 200 "User updated successfully" (DUser id u')),
     mkStore (assignAdded id name_ added (unassignRemoved id removed (tasks s)))
       (<[id := u']> (users s))).
Proof.
  intros Hid Hu Hn Hne He Hee oldPending newPending u' removed added Het Hrem Hadd.
  unfold run, userRoute_put, try_catch. unfold bind at 1.
  rewrite User_findById_calm, Hid, Hu, Hn, He. cbn [truthy].
  apply String.eqb_neq in Hne, Hee. rewrite Hne, Hee. cbn [negb orb].
  change (default "" (Some name_)) with name_.
  change (default "" (Some email_)) with email_.
  fold oldPending newPending. fold u'.
  unfold bind at 1. rewrite User_save_calm, Het. cbn [u_name].
  fold removed added.
  unfold bind at 1. rewrite when_updateMany_valid by done.
  unfold bind at 1. rewrite when_updateMany_valid by done.
  reflexivity.
Qed.

(** X14: PUT /api/users/:id is idempotent: a request answered 200, sent
    again, is answered the same and leaves the store as the first request
    left it. *)
Theorem user_replace_idempotent (id : string) (b : UserBody) (s s' : Store)
    (r : Response) :
  run (userRoute_put id b) [] s = (Some r, s') ->
  status r = 200%nat ->
  run (userRoute_put id b) [] s' = (Some r, s').
Proof.
  intros Hrun Hst.
  destruct (userRoute_put_inv _ _ _ _ _ Hrun Hst)
    as (u & name_ & email_ & Hid & Hu & Hn & Hne & He & Hee & Het & -> & ->).
  clear Hrun Hst.
  remember (Set_from (default [] (ub_pendingTasks b))) as new eqn:Hnew.
  assert (Hset : Set_from new = new) by (rewrite Hnew; apply Set_from_idemp).
  assert (Hfil : List.filter (fun t => negb (Set_has new t)) new = [])
    by by apply filter_own_members.
  match goal with |- context [mkStore ?ts _] => remember ts as ts' eqn:Hts' end.
  pose proof (userRoute_put_run id b
                (mkStore ts' (<[id := mkUser name_ email_ new (u_dateCreated u)]> (users s)))
                (mkUser name_ email_ new (u_dateCreated u)) name_ email_ Hid
                (lookup_insert_eq _ _ _) Hn Hne He Hee) as H2.
  cbv zeta in H2. cbn [pendingTasks u_dateCreated users tasks] in H2.
  rewrite <- Hnew, Hset, Hfil, emailTaken_insert in H2.
  rewrite (H2 Het eq_refl eq_refl).
  unfold assignAdded, unassignRemoved. cbn [List.length Nat.eqb negb].
  by rewrite insert_insert_eq.
Qed.

(** X15: a PUT /api/users/:id of a user of the store, answered 200, keeps
    the user under its identifier with its creation date, stores the email
    of the body, which no other user has, leaves every other user as it
    was, and neither adds nor removes a task nor changes any field of a
    task other than its assignee. *)
Theorem user_replace_frame (id : string) (b : UserBody) (s s' : Store) (r : Response)
    (u : User) :
  run (userRoute_put id b) [] s = (Some r, s') ->
  status r = 200%nat ->
  users s !! id = Some u ->
  exists u',
    users s' !! id = Some u' /\
    u_dateCreated u' = u_dateCreated u /\
    ub_email b = Some (email u') /\
    (forall k v, users s !! k = Some v -> k ≠ id -> email v ≠ email u') /\
    (forall k, k ≠ id -> users s' !! k = users s !! k) /\
    (forall tid, tasks s' !! tid = None <-> tasks s !! tid = None) /\
    (forall tid t t', tasks s !! tid = Some t -> tasks s' !! tid = Some t' ->
       name t' = name t /\ description t' = description t /\
       deadline t' = deadline t /\ completed t' = completed t /\
       dateCreated t' = dateCreated t).
Proof.
  intros Hrun Hst Hu0.
  destruct (userRoute_put_inv _ _ _ _ _ Hrun Hst)
    as (u1 & name_ & email_ & Hid & Hu & Hn & Hne & He & Hee & Het & _ & ->).
  rewrite Hu0 in Hu. injection Hu as <-.
  eexists. cbn [tasks users]. rewrite lookup_insert_eq.
  split; [reflexivity|]. cbn [u_dateCreated email].
  split; [done|]. split; [done|]. split.
  { rewrite emailTaken_false in Het. exact Het. }
  split.
  { intros k Hk. by rewrite lookup_insert_ne. }
  split.
  - intros tid. rewrite assignAdded_lookup, unassignRemoved_lookup.
    by rewrite !fmap_None.
  - intros tid t t' Ht. rewrite assignAdded_lookup, unassignRemoved_lookup, Ht.
    cbn [fmap option_fmap option_map]. intros [= <-].
    repeat case_match; done.
Qed.

(** X16: PUT and DELETE /api/users/:id on a string that is no identifier
    answer 404 and write nothing, whatever the store does and whatever the
    body holds; on an identifier with no user, neither under the string of
    the request nor under the spelling of the store, they do so as soon as
    the read succeeds: the user is looked up before the body is
    examined. *)
Theorem user_unknown_id_404 (id : string) (b : UserBody) (fs : list bool) (s : Store) :
  (isValid id = false \/
   (users s !! id = None /\ users s !! canon id = None /\ hd false fs = false)) ->
  run (userRoute_put id b) fs s = (Some (json 404 "User not found" DEmpty), s) /\
  run (userRoute_delete id) fs s = (Some (json 404 "User not found" DEmpty), s).
Proof.
  intros [Hid|(Hu & _ & Hfs)].
  - unfold run, userRoute_put, userRoute_delete, try_catch.
    unfold bind at 1. unfold bind at 3.
    unfold User_findById, castId. rewrite Hid. unfold bind. cbn. done.
  - unfold run, userRoute_put, userRoute_delete, try_catch.
    unfold bind at 1. unfold bind at 3.
    unfold User_findById, castId. destruct (isValid id) eqn:Hid.
    + destruct fs as [|[] fs]; try done; unfold bind; cbn; rewrite Hu; cbn; done.
    + unfold bind. cbn. done.
Qed.

(** X17: PUT /api/users/:id of a user that exists is refused with nothing
    written when the body has no name or no email (400, as soon as the
    read succeeds), and when another user has the email of the body
    (409). *)
Theorem user_replace_rejected (id : string) (b : UserBody) (s : Store) (u : User) :
  isValid id = true ->
  users s !! id = Some u ->
  (truthy (ub_name b) = false \/ truthy (ub_email b) = false ->
   forall fs, hd false fs = false ->
     run (userRoute_put id b) fs s =
       (Some (json 400 "name and email are required for PUT" DEmpty), s)) /\
  (forall name_ email_ k v,
     ub_name b = Some name_ -> name_ ≠ "" ->
     ub_email b = Some email_ -> email_ ≠ "" ->
     users s !! k = Some v -> k ≠ id -> email v = email_ ->
     run (userRoute_put id b) [] s =
       (Some (json 409 "User with this email already exists" (DErr duplicateKey)), s)).
Proof.
  intros Hid Hu. split.
  - intros Hb fs Hfs. unfold run, userRoute_put, try_catch. unfold bind at 1.
    assert (Hc : negb (truthy (ub_name b)) || negb (truthy (ub_email b)) = true).
    { destruct Hb as [-> | ->]; [done|apply orb_true_r]. }
    unfold User_findById, castId. rewrite Hid.
    destruct fs as [|[] fs]; try done; unfold bind; cbn; rewrite Hu, Hc; cbn; done.
  - intros name_ email_ k v Hn Hne He Hee Hl Hk Hv.
    unfold run, userRoute_put, try_catch. unfold bind at 1.
    rewrite User_findById_calm, Hid, Hu, Hn, He. cbn [truthy].
    apply String.eqb_neq in Hne, Hee. rewrite Hne, Hee. cbn [negb orb].
    change (default "" (Some name_)) with name_.
    change (default "" (Some email_)) with email_.
    unfold bind at 1. rewrite User_save_calm.
    match goal with |- context [emailTaken ?a ?b ?c] =>
      assert (Het : emailTaken a b c = true) by (apply emailTaken_spec; eauto) end.
    rewrite Het. reflexivity.
Qed.

Lemma userRoute_delete_ok_valid id s s' (r : Response) :
  run (userRoute_delete id) [] s = (Some r, s') -> status r = 200%nat ->
  isValid id = true.
Proof.
  destruct (isValid id) eqn:Hid; [done|].
  unfold run, userRoute_delete, try_catch.
  unfold bind at 1. rewrite User_findById_calm, Hid. cbn. intros [= <- _]. done.
Qed.

Lemma updateMany_unassign_lookup id (ts : gmap string Task) tid :
  map_imap (fun k t => Some (if Task_matches None (Some id) k t then unassign t else t))
    ts !! tid =
  (fun t => if String.eqb (assignedUser t) id then unassign t else t) <$> ts !! tid.
Proof.
  rewrite map_lookup_imap. by destruct (ts !! tid).
Qed.

(** X18: DELETE /api/users/:id of a user of the store, answered 200,
    removes that user and no other, keeps every task, and leaves no task
    assigned to the removed user unless the identifier is the empty
    string: each task that was assigned to it is unassigned, completed or
    not, and every other task is as it was. *)
Theorem user_delete_effect (id : string) (s s' : Store) (r : Response) (u : User) :
  run (userRoute_delete id) [] s = (Some r, s') ->
  status r = 200%nat ->
  users s !! id = Some u ->
  users s' !! id = None /\
  (forall k, k ≠ id -> users s' !! k = users s !! k) /\
  (forall tid t, tasks s !! tid = Some t ->
     tasks s' !! tid = Some (if String.eqb (assignedUser t) id then unassign t else t)) /\
  (forall tid, tasks s !! tid = None -> tasks s' !! tid = None) /\
  (id ≠ "" -> forall tid t', tasks s' !! tid = Some t' -> assignedUser t' ≠ id).
Proof.
  intros Hrun Hst _.
  destruct (userRoute_delete_ok _ _ _ _ Hrun Hst) as (_ & ->).
  cbn [tasks users]. split; [apply lookup_delete_eq|].
  split; [intros k Hk; by rewrite lookup_delete_ne|].
  split; [intros tid t Ht; by rewrite updateMany_unassign_lookup, Ht|].
  split; [intros tid Ht; by rewrite updateMany_unassign_lookup, Ht|].
  intros Hne tid t'. rewrite updateMany_unassign_lookup.
  destruct (tasks s !! tid) as [t|]; [|done].
  cbn [fmap option_fmap option_map]. intros [= <-].
  destruct (String.eqb (assignedUser t) id) eqn:Hau.
  - cbn. congruence.
  - by apply String.eqb_neq.
Qed.

Lemma user_unknown_id_absent (id : string) (s : Store) :
  isValid id = true -> users s !! id = None ->
  run (userRoute_delete id) [] s = (Some (json 404 "User not found" DEmpty), s).
Proof.
  intros Hid Hu. unfold run, userRoute_delete, try_catch.
  unfold bind at 1. rewrite User_findById_calm, Hid, Hu. reflexivity.
Qed.

(** X19: a second DELETE of a user that a first DELETE removed is answered
    404 and writes nothing. *)
Theorem user_delete_twice (id : string) (s s' : Store) (r : Response) :
  run (userRoute_delete id) [] s = (Some r, s') ->
  status r = 200%nat ->
  run (userRoute_delete id) [] s' = (Some (json 404 "User not found" DEmpty), s').
Proof.
  intros Hrun Hst.
  pose proof (userRoute_delete_ok_valid _ _ _ _ Hrun Hst) as Hid.
  destruct (userRoute_delete_ok _ _ _ _ Hrun Hst) as (_ & ->).
  apply user_unknown_id_absent; [done|]. cbn [users]. apply lookup_delete_eq.
Qed.

(** ** Emails are unique *)

(** X20: when no two users of the store share an email, none do after a
    POST /api/users answered 201, a PUT /api/users/:id answered 200 or a
    DELETE /api/users/:id answered 200. *)
Theorem user_routes_keep_unique_emails (s s' : Store) (r : Response) :
  uniqueEmails s ->
  (forall newId now b,
     run (usersRoute_post newId now b) [] s = (Some r, s') ->
     status r = 201%nat -> uniqueEmails s') /\
  (forall id b,
     run (userRoute_put id b) [] s = (Some r, s') ->
     status r = 200%nat -> uniqueEmails s') /\
  (forall id,
     run (userRoute_delete id) [] s = (Some r, s') ->
     status r = 200%nat -> uniqueEmails s').
Proof.
  intros Huniq.
  assert (Hins : forall id u ts,
            emailTaken id u (users s) = false ->
            uniqueEmails (mkStore ts (<[id := u]> (users s)))).
  { intros id u ts Het i j v w. cbn [users].
    rewrite emailTaken_false in Het.
    destruct (decide (i = id)) as [->|Hi], (decide (j = id)) as [->|Hj]; [done|..].
    - rewrite lookup_insert_eq, lookup_insert_ne by done.
      intros [= <-] Hw He. by destruct (Het j w Hw Hj).
    - rewrite lookup_insert_eq, lookup_insert_ne by done.
      intros Hv [= <-] He. by destruct (Het i v Hv Hi).
    - rewrite !lookup_insert_ne by done. apply Huniq. }
  split; [|split].
  - intros newId now b Hrun Hst.
    destruct (usersRoute_post_ok _ _ _ _ _ _ Hrun Hst)
      as (name_ & email_ & _ & _ & _ & _ & _ & Het & _ & ->).
    by apply Hins.
  - intros id b Hrun Hst.
    destruct (userRoute_put_inv _ _ _ _ _ Hrun Hst)
      as (u & name_ & email_ & _ & _ & _ & _ & _ & _ & Het & _ & ->).
    by apply Hins.
  - intros id Hrun Hst.
    destruct (userRoute_delete_ok _ _ _ _ Hrun Hst) as (_ & ->).
    intros i j v w. cbn [users]. rewrite !lookup_delete_Some.
    intros [_ Hv] [_ Hw]. by apply Huniq.
Qed.


(** ** Creating a user and deleting it again *)

Lemma userRoute_delete_run (id : string) (s : Store) (u : User) :
  isValid id = true ->
  users s !! id = Some u ->
  run (userRoute_delete id) [] s =
    (Some (json 200 "User deleted successfully" DEmpty),
     mkStore
       (map_imap (fun k t => Some (if Task_matches None (Some id) k t
                                   then unassign t else t)) (tasks s))
       (delete id (users s))).
Proof.
  intros Hid Hu. unfold run, userRoute_delete, try_catch.
  unfold bind at 1. rewrite User_findById_calm, Hid, Hu.
  unfold bind at 1. rewrite Task_updateMany_calm. cbn [default forallb].
  unfold bind at 1. rewrite User_deleteOne_calm. reflexivity.
Qed.

(** X21: a user created by POST /api/users and then deleted by
    DELETE /api/users/:id leaves the store as it was before the creation,
    when no task named the new identifier as its assignee. *)
Theorem user_create_then_delete (newId : string) (now : Z) (b : UserBody)
    (s s1 : Store) (r : Response) :
  run (usersRoute_post newId now b) [] s = (Some r, s1) ->
  status r = 201%nat ->
  isValid newId = true ->
  (forall tid t, tasks s !! tid = Some t -> assignedUser t ≠ newId) ->
  run (userRoute_delete newId) [] s1 =
    (Some (json 200 "User deleted successfully" DEmpty), s).
Proof.
  intros Hrun Hst Hid Hfresh.
  destruct (usersRoute_post_ok _ _ _ _ _ _ Hrun Hst)
    as (name_ & email_ & _ & _ & _ & _ & Hnew & _ & _ & ->).
  erewrite userRoute_delete_run; [|done|cbn [users]; apply lookup_insert_eq].
  cbn [tasks users]. f_equal.
  destruct s as [ts us]. cbn [tasks users] in *. f_equal.
  - apply map_eq. intros tid. rewrite updateMany_unassign_lookup.
    destruct (ts !! tid) as [t|] eqn:Ht; [|done]. cbn.
    apply (Hfresh tid t) in Ht. apply String.eqb_neq in Ht. by rewrite Ht.
  - rewrite delete_insert_eq. by apply delete_id.
Qed.

(** X22: POST /api/users stores the [pendingTasks] of the body without
    assigning the tasks it names: after a request answered 201 whose
    [pendingTasks] names a task of the store that is not already assigned
    to the new identifier, the invariant between [assignedUser],
    [completed] and [pendingTasks] does not hold. *)
Theorem user_create_pending_not_assigned (newId : string) (now : Z) (b : UserBody)
    (s s' : Store) (r : Response) (l : list string) (tid : string) (t : Task) :
  run (usersRoute_post newId now b) [] s = (Some r, s') ->
  status r = 201%nat ->
  ub_pendingTasks b = Some l ->
  tid ∈ l ->
  tasks s !! tid = Some t ->
  assignedUser t ≠ newId ->
  tasks s' !! tid = Some t /\ ~ consistent s'.
Proof.
  intros Hrun Hst Hl Hin Ht Hau.
  destruct (usersRoute_post_ok _ _ _ _ _ _ Hrun Hst)
    as (name_ & email_ & _ & _ & _ & _ & Hnew & _ & _ & ->).
  cbn [tasks]. split; [done|]. intros Hc.
  specialize (Hc tid t newId _ Ht (lookup_insert_eq _ _ _)).
  cbn [pendingTasks] in Hc. rewrite Hl in Hc. cbn [default] in Hc.
  apply Hc in Hin as [? _]. done.
Qed.

(** ** The list requests *)

Lemma parseJSON_malformed q fieldName w :
  malformed q ->
  parseJSON q fieldName w =
    (inl (httpError 400 ("Invalid JSON in " ++ dquote ++ fieldName ++ dquote)), w).
Proof. intros [Ht Hp]. unfold parseJSON. by rewrite Ht, Hp. Qed.

Lemma parseJSON_wellFormed q fieldName w :
  wellFormed q ->
  parseJSON q fieldName w =
    (inr (if truthy q then JSON_parse (default "" q) else None), w).
Proof.
  intros [Ht|[j Hp]]; unfold parseJSON.
  - by rewrite Ht.
  - rewrite Hp. by destruct (truthy q).
Qed.

(** A handler that computes without answering or writing, then answers
    with the result or, from its [catch] clause, with the error, answers
    once and writes nothing. *)
Lemma answer_once {A} (m : M A) (k : A -> Response) (h : Err -> Response)
    (fs : list bool) (s : Store) :
  quiet m ->
  run (try_catch (bind m (fun a => send (k a))) (fun e => send (h e))) fs s =
    (Some (match (m (mkWorld s None fs)).1 with inr a => k a | inl e => h e end), s).
Proof.
  intros Hq. unfold run, try_catch, bind.
  destruct (m (mkWorld s None fs)) as [[e|a] w1] eqn:Hm;
    apply Hq in Hm as [Hs Hd]; cbn [sent db] in Hs, Hd;
    unfold send; rewrite Hs; cbn; by rewrite Hd.
Qed.

Lemma tasksRoute_get_eq rq w :
  tasksRoute_get rq w =
  try_catch (bind (tasksRoute_data rq) (fun d => send (json 200 "OK" d)))
    (fun e => send (json (match e_status e with Some 0%nat | None => 500%nat | Some st => st end)
                      (if bool_decide (e_status e = Some 400%nat) then e_message e
                       else "Error getting tasks") DEmpty)) w.
Proof.
  unfold tasksRoute_get, tasksRoute_data, try_catch, bind.
  destruct (parseJSON _ _ w) as [[e|j] w1]; [done|]. cbn [getStore].
  destruct (bool_decide (q_count rq = Some "true")).
  - by destruct (countDocuments _ _ _ _) as [[e|n] w2].
  - destruct (tasksRoute_query _ _ _) as [[e|q] w2]; [done|].
    by destruct (exec _ _ _ _ _) as [[e|l] w3].
Qed.

Lemma usersRoute_get_eq rq w :
  usersRoute_get rq w =
  try_catch (bind (usersRoute_data rq) (fun d => send (json 200 "OK" d)))
    (fun e => send (json (match e_status e with Some 0%nat | None => 500%nat | Some st => st end)
                      (orDefault (Some (e_message e)) "Error getting users") DEmpty)) w.
Proof.
  unfold usersRoute_get, usersRoute_data, try_catch, bind.
  destruct (parseJSON _ _ w) as [[e|j] w1]; [done|]. cbn [getStore].
  destruct (bool_decide (q_count rq = Some "true")).
  - by destruct (countDocuments _ _ _ _) as [[e|n] w2].
  - destruct (usersRoute_query _ _ _) as [[e|q] w2]; [done|].
    by destruct (exec _ _ _ _ _) as [[e|l] w3].
Qed.

(** X23: GET /api/tasks and GET /api/users answer every request, once,
    and leave the store as it was, whichever store operations fail. *)
Theorem list_routes_read_only (rq : ListQuery) (fs : list bool) (s : Store) :
  (exists r, run (tasksRoute_get rq) fs s = (Some r, s)) /\
  (exists r, run (usersRoute_get rq) fs s = (Some r, s)).
Proof.
  split; eexists.
  - unfold run. rewrite tasksRoute_get_eq.
    apply (answer_once (tasksRoute_data rq) (fun d => json 200 "OK" d)).
    apply quiet_tasksRoute_data.
  - unfold run. rewrite usersRoute_get_eq.
    apply (answer_once (usersRoute_data rq) (fun d => json 200 "OK" d)).
    apply quiet_usersRoute_data.
Qed.

(** X24: a [where] that is no JSON, and on a list request a [sort] or a
    [select] that is no JSON, is answered 400 with a message that names
    the parameter, on tasks and on users, before any store operation: the
    parameters are examined in the order where, sort, select. *)
Theorem list_malformed_parameter (rq : ListQuery) (field : string) :
  (malformed (q_where rq) /\ field = "where") \/
  (q_count rq ≠ Some "true" /\ wellFormed (q_where rq) /\
   malformed (q_sort rq) /\ field = "sort") \/
  (q_count rq ≠ Some "true" /\ wellFormed (q_where rq) /\ wellFormed (q_sort rq) /\
   malformed (q_select rq) /\ field = "select") ->
  forall fs s,
    run (tasksRoute_get rq) fs s =
      (Some (json 400 ("Invalid JSON in " ++ dquote ++ field ++ dquote) DEmpty), s) /\
    run (usersRoute_get rq) fs s =
      (Some (json 400 ("Invalid JSON in " ++ dquote ++ field ++ dquote) DEmpty), s).
Proof.
  intros [(Hm & ->)|[(Hc & Hw & Hm & ->)|(Hc & Hw & Hs & Hm & ->)]] fs s;
    split; unfold run, tasksRoute_get, usersRoute_get, try_catch.
  - unfold bind at 1. by rewrite parseJSON_malformed.
  - unfold bind at 1. by rewrite parseJSON_malformed.
  - unfold bind at 1. rewrite parseJSON_wellFormed by done.
    unfold bind at 1. cbn [getStore]. rewrite bool_decide_eq_false_2 by done.
    unfold bind at 1. unfold tasksRoute_query. unfold bind at 1.
    by rewrite parseJSON_malformed.
  - unfold bind at 1. rewrite parseJSON_wellFormed by done.
    unfold bind at 1. cbn [getStore]. rewrite bool_decide_eq_false_2 by done.
    unfold bind at 1. unfold usersRoute_query. unfold bind at 1.
    by rewrite parseJSON_malformed.
  - unfold bind at 1. rewrite parseJSON_wellFormed by done.
    unfold bind at 1. cbn [getStore]. rewrite bool_decide_eq_false_2 by done.
    unfold bind at 1. unfold tasksRoute_query. unfold bind at 1.
    rewrite parseJSON_wellFormed by done. unfold bind at 1.
    by rewrite parseJSON_malformed.
  - unfold bind at 1. rewrite parseJSON_wellFormed by done.
    unfold bind at 1. cbn [getStore]. rewrite bool_decide_eq_false_2 by done.
    unfold bind at 1. unfold usersRoute_query. unfold bind at 1.
    rewrite parseJSON_wellFormed by done. unfold bind at 1.
    by rewrite parseJSON_malformed.
Qed.

(** X25: with [count=true] the parameters sort, select, skip and limit are
    not examined, be they malformed: the answer is that of the request
    with only [where] and [count]; when [where] is well formed, the store
    accepts the filter and no operation fails, it is 200 with the number
    of documents the filter keeps, not cut at the default limit of the
    tasks. *)
Theorem count_ignores_list_parameters (rq : ListQuery) (s : Store) :
  q_count rq = Some "true" ->
  (forall fs,
     run (tasksRoute_get rq) fs s = run (tasksRoute_get (countOnly (q_where rq))) fs s /\
     run (usersRoute_get rq) fs s = run (usersRoute_get (countOnly (q_where rq))) fs s) /\
  (wellFormed (q_where rq) ->
   (forall p, Task_filter (whereOf rq) = Some p ->
      run (tasksRoute_get rq) [] s =
        (Some (json 200 "OK"
                 (DCount (List.length (List.filter p (map_to_list (tasks s)))))), s)) /\
   (forall p, User_filter (whereOf rq) = Some p ->
      run (usersRoute_get rq) [] s =
        (Some (json 200 "OK"
                 (DCount (List.length (List.filter p (map_to_list (users s)))))), s))).
Proof.
  intros Hc. split.
  - intros fs. unfold run, tasksRoute_get, usersRoute_get, countOnly.
    cbn [q_where q_count]. rewrite Hc.
    by rewrite !bool_decide_eq_true_2 by done.
  - intros Hw. split; intros p Hp; unfold run, tasksRoute_get, usersRoute_get, try_catch.
    + unfold bind at 1. rewrite parseJSON_wellFormed by done.
      unfold bind at 1. cbn [getStore]. rewrite bool_decide_eq_true_2 by done.
      unfold bind at 1. unfold countDocuments, bind. cbn [tick faults].
      unfold whereOf in Hp. rewrite Hp. reflexivity.
    + unfold bind at 1. rewrite parseJSON_wellFormed by done.
      unfold bind at 1. cbn [getStore]. rewrite bool_decide_eq_true_2 by done.
      unfold bind at 1. unfold countDocuments, bind. cbn [tick faults].
      unfold whereOf in Hp. rewrite Hp. reflexivity.
Qed.

Lemma limitOf_positive rq dflt n :
  truthy (q_limit rq) = true ->
  parseInt (default "" (q_limit rq)) = Some n ->
  0 < n ->
  limitOf rq dflt = Some n.
Proof.
  intros Ht Hp Hn. unfold limitOf. rewrite Ht, Hp.
  by rewrite (proj2 (Z.ltb_lt 0 n) Hn).
Qed.

(** X26: a [limit] that reads as a positive number bounds the list a
    GET /api/tasks or a GET /api/users returns, also above the default of
    100 of the tasks. *)
Theorem list_limit_bounds (rq : ListQuery) (n : Z) :
  truthy (q_limit rq) = true ->
  parseInt (default "" (q_limit rq)) = Some n ->
  0 < n ->
  (forall fs s s' r msg sel l,
     run (tasksRoute_get rq) fs s = (Some r, s') ->
     body r = Some (mkEnvelope msg (DTasks sel l)) ->
     (List.length l <= Z.to_nat n)%nat) /\
  (forall fs s s' r msg sel l,
     run (usersRoute_get rq) fs s = (Some r, s') ->
     body r = Some (mkEnvelope msg (DUsers sel l)) ->
     (List.length l <= Z.to_nat n)%nat).
Proof.
  intros Ht Hp Hn. split.
  - intros fs s s' r msg sel l Hrun Hb.
    destruct (tasksRoute_get_data _ _ _ _ _ _ Hrun Hb) as [?|[w' Hd]]; [done|].
    cbn [data] in Hd. unfold tasksRoute_data, bind in Hd.
    destruct (parseJSON _ _ _) as [[e|j] w1] eqn:H1; [done|].
    apply parseJSON_inr in H1 as [-> Hj]. cbn [getStore db] in Hd.
    destruct (bool_decide (q_count rq = Some "true")).
    { destruct (countDocuments _ _ _ _) as [[e|k] w1]; done. }
    destruct (tasksRoute_query _ _ _) as [[e|q] w1] eqn:Hq; [done|].
    apply tasksRoute_query_inr in Hq as (-> & _ & _ & Hl).
    rewrite (limitOf_positive _ _ n) in Hl by done.
    destruct (exec _ _ _ _ _) as [[e|l0] w1] eqn:He; [done|].
    injection Hd as _ <- _.
    apply exec_inr in He as (p & srt & _ & _ & ->). rewrite Hl.
    rewrite length_take. lia.
  - intros fs s s' r msg sel l Hrun Hb.
    destruct (usersRoute_get_data _ _ _ _ _ _ Hrun Hb) as [?|[w' Hd]]; [done|].
    cbn [data] in Hd. unfold usersRoute_data, bind in Hd.
    destruct (parseJSON _ _ _) as [[e|j] w1] eqn:H1; [done|].
    apply parseJSON_inr in H1 as [-> Hj]. cbn [getStore db] in Hd.
    destruct (bool_decide (q_count rq = Some "true")).
    { destruct (countDocuments _ _ _ _) as [[e|k] w1]; done. }
    destruct (usersRoute_query _ _ _) as [[e|q] w1] eqn:Hq; [done|].
    apply usersRoute_query_inr in Hq as (-> & _ & _ & Hl & _).
    rewrite (limitOf_positive _ _ n) in Hl by done.
    destruct (exec _ _ _ _ _) as [[e|l0] w1] eqn:He; [done|].
    injection Hd as _ <- _.
    apply exec_inr in He as (p & srt & _ & _ & ->). rewrite Hl.
    rewrite length_take. lia.
Qed.

(** ** The default limits *)

Lemma exec_calm {Doc} (flt : JSON -> option (string * Doc -> bool))
    (ord : JSON -> option (list (string * Doc) -> list (string * Doc)))
    (docs : list (string * Doc)) (q : Query) (s : Store) (o : option Response) p srt :
  projected (select_ q) = true ->
  flt (filter_ q) = Some p ->
  orderBy ord (sort_ q) = Some srt ->
  (forall n, skip_ q = Some n -> 0 <= n) ->
  exec flt ord docs q (calm s o) =
    (inr ((match limit_ q with Some k => take (Z.to_nat k) | None => fun l => l end)
            ((match skip_ q with Some n => drop (Z.to_nat n) | None => fun l => l end)
               (srt (List.filter p docs)))),
     calm s o).
Proof.
  intros Hp Hf Ho Hs. unfold exec, bind. cbn [tick faults]. rewrite Hp, Hf. cbn [negb].
  unfold orderBy in Ho. destruct (sort_ q) as [j|].
  - rewrite Ho. destruct (skip_ q) as [n|]; [|by destruct (limit_ q)].
    rewrite (proj2 (Z.ltb_ge n 0)) by by apply Hs. by destruct (limit_ q).
  - injection Ho as <-. destruct (skip_ q) as [n|]; [|by destruct (limit_ q)].
    rewrite (proj2 (Z.ltb_ge n 0)) by by apply Hs. by destruct (limit_ q).
Qed.

Lemma tasksRoute_query_calm rq where_ w :
  wellFormed (q_sort rq) -> wellFormed (q_select rq) ->
  accepted (selectOf (q_select rq)) ->
  tasksRoute_query rq where_ w =
    (inr (mkQuery where_ (sortOf rq) (selectOf (q_select rq)) (skipOf rq)
            (limitOf rq (Some 100))), w).
Proof.
  intros Hs Hsel Hacc. unfold tasksRoute_query, bind.
  rewrite !parseJSON_wellFormed by done. fold (selectOf (q_select rq)).
  by destruct (Query_select_accepted _ w Hacc) as [-> _].
Qed.

Lemma usersRoute_query_calm rq where_ w :
  wellFormed (q_sort rq) -> wellFormed (q_select rq) ->
  accepted (selectOf (q_select rq)) ->
  usersRoute_query rq where_ w =
    (inr (mkQuery where_ (sortOf rq) (selectOf (q_select rq)) (skipOf rq)
            (limitOf rq None)), w).
Proof.
  intros Hs Hsel Hacc. unfold usersRoute_query, bind.
  rewrite !parseJSON_wellFormed by done. fold (selectOf (q_select rq)).
  by destruct (Query_select_accepted _ w Hacc) as [-> _].
Qed.

(** C9: a list request with no [limit] parameter, whose parameters are
    well formed and accepted by the store and whose skip is not negative,
    is answered 200 when no operation fails: by GET /api/tasks with the
    first 100 of the documents the filter keeps, in the order asked for
    and after the skipped ones; by GET /api/users with all of them, none
    cut off.  Whichever operations fail, a list GET /api/tasks answers
    with no [limit] parameter has at most 100 documents. *)
Theorem list_default_limit (rq : ListQuery) (s : Store)
    (pt : string * Task -> bool) (srtT : list (string * Task) -> list (string * Task))
    (pu : string * User -> bool) (srtU : list (string * User) -> list (string * User)) :
  q_limit rq = None ->
  q_count rq ≠ Some "true" ->
  wellFormed (q_where rq) -> wellFormed (q_sort rq) -> wellFormed (q_select rq) ->
  accepted (selectOf (q_select rq)) ->
  (forall n, skipOf rq = Some n -> 0 <= n) ->
  Task_filter (whereOf rq) = Some pt -> orderBy Task_order (sortOf rq) = Some srtT ->
  User_filter (whereOf rq) = Some pu -> orderBy User_order (sortOf rq) = Some srtU ->
  run (tasksRoute_get rq) [] s =
    (Some (json 200 "OK"
             (DTasks (selectOf (q_select rq))
                (take 100 (skipped rq (srtT (List.filter pt (map_to_list (tasks s)))))))),
     s) /\
  run (usersRoute_get rq) [] s =
    (Some (json 200 "OK"
             (DUsers (selectOf (q_select rq))
                (skipped rq (srtU (List.filter pu (map_to_list (users s))))))),
     s) /\
  (forall fs s' r msg sel l,
     run (tasksRoute_get rq) fs s = (Some r, s') ->
     body r = Some (mkEnvelope msg (DTasks sel l)) ->
     (List.length l <= 100)%nat).
Proof.
  intros Hlim Hc Hw Hso Hsel Hacc Hskip Hpt Hst Hpu Hsu.
  destruct (Query_select_accepted _ (calm s None) Hacc) as [_ Hproj].
  split; [|split].
  - unfold run, tasksRoute_get, try_catch.
    unfold bind at 1. rewrite parseJSON_wellFormed by done. fold (whereOf rq).
    unfold bind at 1. cbn [getStore]. rewrite bool_decide_eq_false_2 by done.
    unfold bind at 1. rewrite tasksRoute_query_calm by done.
    unfold bind at 1.
    rewrite (exec_calm _ _ _ _ _ _ pt srtT) by done.
    cbn [limit_ skip_ select_]. rewrite limitOf_absent by done.
    unfold skipped. by destruct (skipOf rq).
  - unfold run, usersRoute_get, try_catch.
    unfold bind at 1. rewrite parseJSON_wellFormed by done. fold (whereOf rq).
    unfold bind at 1. cbn [getStore]. rewrite bool_decide_eq_false_2 by done.
    unfold bind at 1. rewrite usersRoute_query_calm by done.
    unfold bind at 1.
    rewrite (exec_calm _ _ _ _ _ _ pu srtU) by done.
    cbn [limit_ skip_ select_]. rewrite limitOf_absent by done.
    unfold skipped. by destruct (skipOf rq).
  - intros fs s' r msg sel l Hrun Hb.
    destruct (tasksRoute_get_data _ _ _ _ _ _ Hrun Hb) as [?|[w' Hd]]; [done|].
    cbn [data] in Hd. unfold tasksRoute_data, bind in Hd.
    destruct (parseJSON _ _ _) as [[e|j] w1] eqn:H1; [done|].
    apply parseJSON_inr in H1 as [-> Hj]. cbn [getStore db] in Hd.
    destruct (bool_decide (q_count rq = Some "true")).
    { destruct (countDocuments _ _ _ _) as [[e|n] w1]; done. }
    destruct (tasksRoute_query _ _ _) as [[e|q] w1] eqn:Hq; [done|].
    apply tasksRoute_query_inr in Hq as (-> & _ & _ & Hl).
    rewrite limitOf_absent in Hl by done.
    destruct (exec _ _ _ _ _) as [[e|l0] w1] eqn:He; [done|].
    injection Hd as _ <- _.
    apply exec_inr in He as (p & srt & _ & _ & ->). rewrite Hl.
    rewrite length_take. change (Z.to_nat 100) with 100%nat. lia.
Qed.

(** ** Requests for one document *)

(** X27: GET /api/tasks/:id and GET /api/users/:id answer a [select] that
    is no JSON with 500, where the list requests answer 400, and do so
    before the identifier is looked at. *)
Theorem item_malformed_select_500 (id : string) (q_select : option string)
    (fs : list bool) (s : Store) :
  malformed q_select ->
  taskRoute_get id q_select fs s = ItemFailure 500 "Error getting task" /\
  userRoute_get id q_select fs s = ItemFailure 500 "Error getting user".
Proof.
  intros Hm. unfold taskRoute_get, userRoute_get, taskRoute_get_try, userRoute_get_try.
  unfold bind. by rewrite !parseJSON_malformed.
Qed.

Lemma Task_findById_inr id w o w' :
  Task_findById id w = (inr o, w') -> isValid id = true /\ o = tasks (db w) !! id.
Proof.
  unfold Task_findById, castId, bind. destruct (isValid id); [|done]. cbn.
  unfold tick. destruct (faults w) as [|[] fs]; [|done|]; by intros [= <- <-].
Qed.

Lemma User_findById_inr id w o w' :
  User_findById id w = (inr o, w') -> isValid id = true /\ o = users (db w) !! id.
Proof.
  unfold User_findById, castId, bind. destruct (isValid id); [|done]. cbn.
  unfold tick. destruct (faults w) as [|[] fs]; [|done|]; by intros [= <- <-].
Qed.

(** X28: for an identifier spelled as the store spells it,
    GET /api/tasks/:id and GET /api/users/:id return a document only under
    that identifier, which is then a valid one, only the document the
    store holds under it, and only under a projection that was accepted;
    with a well-formed [select] that is accepted and no failing operation
    they return it whenever there is one, and answer 404 when there is
    none or the identifier is not a valid one; a [select] that parses and
    is not accepted is answered 500 for a valid identifier, whatever the
    store holds. *)
Theorem item_get_sound_complete (id : string) (q_select : option string) (s : Store) :
  canonical id ->
  (forall fs sel i t, taskRoute_get id q_select fs s = ItemFound sel i t ->
     i = id /\ isValid id = true /\ tasks s !! id = Some t /\
     sel = selectOf q_select /\ accepted sel) /\
  (forall fs sel i u, userRoute_get id q_select fs s = ItemFound sel i u ->
     i = id /\ isValid id = true /\ users s !! id = Some u /\
     sel = selectOf q_select /\ accepted sel) /\
  (wellFormed q_select -> accepted (selectOf q_select) ->
   taskRoute_get id q_select [] s =
     match (if isValid id then tasks s !! id else None) with
     | Some t => ItemFound (selectOf q_select) id t
     | None => ItemFailure 404 "Task not found"
     end /\
   userRoute_get id q_select [] s =
     match (if isValid id then users s !! id else None) with
     | Some u => ItemFound (selectOf q_select) id u
     | None => ItemFailure 404 "User not found"
     end) /\
  (wellFormed q_select -> ~ accepted (selectOf q_select) -> isValid id = true ->
   forall fs,
     taskRoute_get id q_select fs s = ItemFailure 500 "Error getting task" /\
     userRoute_get id q_select fs s = ItemFailure 500 "Error getting user").
Proof.
  intros _. split; [|split; [|split]].
  - intros fs sel i t.
    unfold taskRoute_get, taskRoute_get_try, bind.
    destruct (parseJSON _ _ _) as [[e|j] w1] eqn:H1.
    { case_match; done. }
    apply parseJSON_inr in H1 as [-> ->].
    destruct (Query_select _ _) as [[e|[]] w2] eqn:H2.
    { by destruct (isBadIdCast e), (isCastError e). }
    pose proof (Query_select_taken _ _ _ H2) as Hacc.
    apply Query_select_inr in H2 as ->.
    destruct (Task_findById id _) as [[e|o] w3] eqn:H3.
    { by destruct (isBadIdCast e). }
    apply Task_findById_inr in H3 as [Hid ->]. cbn [db].
    destruct (projected _) eqn:Hp; cbn [negb]; [|done].
    destruct (tasks s !! id); [|done]. intros [= <- <- <-].
    repeat (split; [done|]). by apply Hacc.
  - intros fs sel i u.
    unfold userRoute_get, userRoute_get_try, bind.
    destruct (parseJSON _ _ _) as [[e|j] w1] eqn:H1.
    { case_match; done. }
    apply parseJSON_inr in H1 as [-> ->].
    destruct (Query_select _ _) as [[e|[]] w2] eqn:H2.
    { by destruct (isBadIdCast e), (isCastError e). }
    pose proof (Query_select_taken _ _ _ H2) as Hacc.
    apply Query_select_inr in H2 as ->.
    destruct (User_findById id _) as [[e|o] w3] eqn:H3.
    { by destruct (isCastError e). }
    apply User_findById_inr in H3 as [Hid ->]. cbn [db].
    destruct (projected _) eqn:Hp; cbn [negb]; [|done].
    destruct (users s !! id); [|done]. intros [= <- <- <-].
    repeat (split; [done|]). by apply Hacc.
  - intros Hw Hacc.
    unfold taskRoute_get, userRoute_get, taskRoute_get_try, userRoute_get_try.
    unfold bind. rewrite !parseJSON_wellFormed by done. fold (selectOf q_select).
    destruct (Query_select_accepted _ (calm s None) Hacc) as [-> ->]. cbn [negb].
    rewrite Task_findById_calm, User_findById_calm.
    destruct (isValid id); [|done].
    split; [by destruct (tasks s !! id)|by destruct (users s !! id)].
  - intros Hw Hacc Hid fs.
    unfold taskRoute_get, userRoute_get, taskRoute_get_try, userRoute_get_try.
    unfold bind. rewrite !parseJSON_wellFormed by done. fold (selectOf q_select).
    unfold accepted in Hacc. unfold Query_select, projected.
    destruct (selectOf q_select) as [v|]; [|done].
    destruct (select_takes v); [|done].
    destruct (projection_ok v); [by destruct Hacc|]. cbn [negb].
    unfold Task_findById, User_findById, castId, bind. rewrite Hid. cbn.
    destruct fs as [|[] fs]; cbn; done.
Qed.

End MoreRoutes.

Arguments ItemFound {P Doc} sel id doc.
Arguments ItemFailure {P Doc} st msg.

(** * Examples *)

#[local] Existing Instance examplePlatform.

(** ** Handing a task over: PUT /api/tasks/[task1] with Bob as assignee *)

Lemma handover_run :
  run (taskRoute_put task1 toBob) [] store0 =
  (Some (json 200 "Task updated successfully" (DTask task1 handedOver)), store1).
Proof. vm_compute. reflexivity. Qed.

Lemma store1_task1 : tasks store1 !! task1 = Some handedOver.
Proof. vm_compute. reflexivity. Qed.

Lemma task_replace_rules_witness :
  (task1 ∉ pendingOf store1 alice) /\ (task1 ∈ pendingOf store1 bob).
Proof.
  destruct (task_replace_rules task1 toBob store0 store1 _ writeTask handover_run
              eq_refl eq_refl) as (t' & Ht' & _ & _ & Hout & Hin & _).
  assert (t' = handedOver) as -> by (pose proof store1_task1; congruence).
  split; [apply Hout|apply Hin]; done.
Defined.

Lemma task_replace_frame_witness :
  exists t', tasks store1 !! task1 = Some t' /\ dateCreated t' = 1 /\
             dom (tasks store1) = dom (tasks store0).
Proof.
  destruct (task_replace_frame task1 toBob store0 store1 _ writeTask handover_run
              eq_refl eq_refl) as (t' & Ht' & Hd & _ & _ & _ & _ & _ & _ & Hdom & _).
  exists t'. split; [exact Ht'|]. split; [exact Hd|exact Hdom].
Defined.

(** ** Claiming a task: PUT /api/users/[bob] with [task1] pending *)

Lemma claim_run :
  run (userRoute_put bob bobClaims) [] store0 =
  (Some (json 200 "User updated successfully"
           (DUser bob (mkUser "Bob" "bob@example.org" [task1] 0))), store2).
Proof. vm_compute. reflexivity. Qed.

Lemma claim_upper_run :
  run (userRoute_put bob bobClaimsUpper) [] store5 =
  (Some (json 200 "User updated successfully"
           (DUser bob (mkUser "Bob" "bob@example.org" [task4_upper] 0))), store6).
Proof. vm_compute. reflexivity. Qed.

Lemma user_replace_pending_witness :
  tasks store2 !! task1 = Some handedOver /\ tasks store2 !! task2 = Some readTask /\
  tasks store6 !! task4 = Some (mkTask (Some "plan") "" (Some 30) false bob "Bob" 4).
Proof.
  destruct (user_replace_pending bob bobClaims store0 store2 _ bobUser [task1]
              claim_run eq_refl eq_refl eq_refl) as (u' & Hu' & _ & _ & _ & Hts).
  assert (u' = mkUser "Bob" "bob@example.org" [task1] 0) as ->.
  { assert (Hl : users store2 !! bob = Some (mkUser "Bob" "bob@example.org" [task1] 0))
      by (vm_compute; reflexivity).
    congruence. }
  destruct (user_replace_pending bob bobClaimsUpper store5 store6 _ bobUser [task4_upper]
              claim_upper_run eq_refl eq_refl eq_refl) as (v' & Hv' & _ & _ & _ & Hts').
  assert (v' = mkUser "Bob" "bob@example.org" [task4_upper] 0) as ->.
  { assert (Hl : users store6 !! bob =
                 Some (mkUser "Bob" "bob@example.org" [task4_upper] 0))
      by (vm_compute; reflexivity).
    congruence. }
  split; [|split].
  - rewrite (Hts task1 writeTask eq_refl). reflexivity.
  - rewrite (Hts task2 readTask eq_refl). reflexivity.
  - rewrite (Hts' task4 planTask eq_refl). reflexivity.
Defined.

(** After the claim Alice still lists [task1], which is now Bob's. *)
Lemma store0_consistent : consistent store0.
Proof. apply consistentb_spec. vm_compute. reflexivity. Qed.

Lemma store2_inconsistent : ~ consistent store2.
Proof.
  intros Hc.
  assert (Ht : tasks store2 !! task1 = Some handedOver) by (vm_compute; reflexivity).
  assert (Hu : users store2 !! alice = Some aliceUser) by (vm_compute; reflexivity).
  destruct (Hc task1 handedOver alice aliceUser Ht Hu) as [_ Hback].
  assert (Hin : task1 ∈ pendingTasks aliceUser) by (cbn; apply list_elem_of_here).
  destruct (Hback Hin) as [Heq _]. discriminate Heq.
Qed.

(** C1 fails on the code: PUT /api/users/[bob] with [pendingTasks: [task1]],
    on a store where the invariant holds and [task1] is pending for Alice,
    answers 200 and leaves a store where it does not hold: the task is
    assigned to Bob and is in Bob's [pendingTasks], and it still is in
    Alice's. *)
Theorem user_replace_breaks_invariant :
  consistent store0 /\
  run (userRoute_put bob bobClaims) [] store0 =
    (Some (json 200 "User updated successfully"
             (DUser bob (mkUser "Bob" "bob@example.org" [task1] 0))), store2) /\
  (assignedUser handedOver = bob /\ tasks store2 !! task1 = Some handedOver /\
   task1 ∈ pendingOf store2 bob /\ task1 ∈ pendingOf store2 alice) /\
  ~ consistent store2.
Proof.
  split; [exact store0_consistent|]. split; [exact claim_run|].
  split; [|exact store2_inconsistent].
  split; [reflexivity|]. split; [vm_compute; reflexivity|].
  split; vm_compute; apply list_elem_of_here.
Qed.

(** The same request on a completed task: PUT /api/users/[alice] with
    [pendingTasks: [task1, task2]] puts the completed [task2] in Alice's
    [pendingTasks]. *)
Lemma claim_completed_breaks_invariant :
  let res := run (userRoute_put alice
                    (mkUserBody (Some "Alice") (Some "alice@example.org")
                       (Some [task1; task2]))) [] store0 in
  option_map status res.1 = Some 200%nat /\ consistentb res.2 = false.
Proof. split; vm_compute; reflexivity. Qed.

(** ** A store failure between the writes of PUT /api/users/:id *)

(** C2 fails on the code: when the store fails on the third operation of
    PUT /api/users/[bob] (the update of the tasks), the answer is 500 and
    the user document written by the second operation stays: Bob lists
    [task1], which is still assigned to Alice. *)
Theorem user_replace_not_atomic :
  run (userRoute_put bob bobClaims) [false; false; true] store0 =
    (Some (json 500 "Error updating user" (DErr storeFailure)), store2_half) /\
  store2_half ≠ store0 /\
  pendingOf store2_half bob = [task1] /\
  tasks store2_half !! task1 = Some writeTask.
Proof.
  split; [vm_compute; reflexivity|]. split.
  - intros Heq. assert (Hp : pendingOf store2_half bob = pendingOf store0 bob) by by rewrite Heq.
    vm_compute in Hp. discriminate Hp.
  - split; vm_compute; reflexivity.
Qed.

(** The same without any failure of the store: an element of
    [pendingTasks] that is no identifier makes the update of the tasks fail
    on its cast, after the user document has been written; the answer is
    404. *)
Lemma user_replace_cast_not_atomic :
  let res := run (userRoute_put bob
                    (mkUserBody (Some "Bob") (Some "bob@example.org")
                       (Some ["nonsense"]))) [] store0 in
  res.1 = Some (json 404 "User not found" DEmpty) /\
  pendingOf res.2 bob = ["nonsense"].
Proof. split; vm_compute; reflexivity. Qed.

(** ** Deleting *)

Lemma delete_alice_run :
  run (userRoute_delete alice) [] store0 =
  (Some (json 200 "User deleted successfully" DEmpty), store0_noAlice).
Proof. vm_compute. reflexivity. Qed.

Lemma delete_task1_run :
  run (taskRoute_delete task1) [] store0 = (Some (mkResponse 204 None), store0_noTask1).
Proof. vm_compute. reflexivity. Qed.

Lemma delete_cascades_witness :
  (tasks store0_noAlice !! task2 =
     Some (mkTask (Some "read") "" (Some 20) true "" "unassigned" 2)) /\
  (task1 ∉ pendingOf store0_noTask1 alice).
Proof.
  destruct delete_cascades as [Huser Htask]. split.
  - destruct (Huser alice store0 store0_noAlice _ aliceUser delete_alice_run
                eq_refl eq_refl) as [_ Hts].
    rewrite (Hts task2 readTask eq_refl). reflexivity.
  - destruct (Htask task1 store0 store0_noTask1 _ writeTask delete_task1_run
                eq_refl eq_refl) as [_ Hp].
    apply Hp; [discriminate|reflexivity].
Defined.

(** C8 fails on the code: DELETE /api/tasks/[task1] of an existing task
    answers 204 with no body at all, where DELETE /api/users/[alice]
    answers 200 with a message and an empty object. *)
Theorem task_delete_no_body :
  (exists s', run (taskRoute_delete task1) [] store0 = (Some (mkResponse 204 None), s')) /\
  (exists s', run (userRoute_delete alice) [] store0 =
                (Some (mkResponse 200
                         (Some (mkEnvelope "User deleted successfully" DEmpty))), s')).
Proof.
  split.
  - exists store0_noTask1. exact delete_task1_run.
  - exists store0_noAlice. exact delete_alice_run.
Qed.

(** ** Resolving an assignee *)

Lemma create_run :
  run (tasksRoute_post task3 3 toBob) [] store0 =
  (Some (json 201 "Task created successfully" (DTask task3 created)), store3).
Proof. vm_compute. reflexivity. Qed.

Lemma reference_validator_witness :
  ensureUserExists (Some "nonsense") (calm store0 None) =
    (inl (httpError 400 "assignedUser must be a valid ObjectId"), calm store0 None) /\
  ensureUserExists (Some carol) (calm store0 None) =
    (inl (httpError 400 "assignedUser not found"), calm store0 None) /\
  ensureUserExists (Some bob) (calm store0 None) =
    (inr (Some (bob, "Bob")), calm store0 None) /\
  resolveAssignee (mkTaskBody (Some "plan") None (Some 30) false (Some nbsp) None)
      (calm store0 None) =
    (inr ("", "unassigned"), calm store0 None) /\
  run (tasksRoute_post task3 3 (mkTaskBody (Some "plan") None (Some 30) false
                                  (Some carol) None)) [] store0 =
    (Some (json 400 "assignedUser not found" DEmpty), store0) /\
  (exists t',
     tasks store3 !! task3 = Some t' /\
     resolved store0 toBob (assignedUser t') (assignedUserName t')).
Proof.
  destruct reference_validator as (_ & Hinv & Hmiss & Hfound & Hblank & Hpost & Hname & _).
  split; [apply Hinv; [discriminate|reflexivity]|].
  split; [apply Hmiss; [discriminate|reflexivity|reflexivity|reflexivity]|].
  split; [apply (Hfound bob store0 None bobUser);
            [discriminate|reflexivity|reflexivity|reflexivity]|].
  split; [apply Hblank; reflexivity|].
  split.
  - apply (proj2 (Hpost task3 3 (mkTaskBody (Some "plan") None (Some 30) false
                                    (Some carol) None) store0 carol eq_refl eq_refl));
      reflexivity.
  - destruct (Hname task3 3 toBob store0 store3 _ create_run eq_refl)
      as (t' & Ht' & _ & Hres).
    exists t'. split; [exact Ht'|]. apply Hres. intros str [= <-] _. reflexivity.
Defined.

(** C6 as the specification words it fails on the code: the string of one
    space is not empty and is not a valid identifier, and
    [ensureUserExists] refuses it, but the routes do not call it for a
    blank string: the assignee resolves to nobody with no error and
    POST /api/tasks answers 201 with the task unassigned. *)
Theorem blank_reference_not_refused :
  " " ≠ "" /\ isValid " " = false /\
  ensureUserExists (Some " ") (calm store0 None) =
    (inl (httpError 400 "assignedUser must be a valid ObjectId"), calm store0 None) /\
  resolveAssignee toBlank (calm store0 None) = (inr ("", "unassigned"), calm store0 None) /\
  run (tasksRoute_post task3 3 toBlank) [] store0 =
    (Some (json 201 "Task created successfully"
             (DTask task3 (mkTask (Some "write") "" (Some 10) false "" "unassigned" 3))),
     store3_unassigned).
Proof.
  split; [discriminate|]. split; [reflexivity|]. split; [reflexivity|].
  split; [reflexivity|]. vm_compute. reflexivity.
Qed.

(** The same with a NO-BREAK SPACE, which [trim] strips and [parseInt]
    skips. *)
Lemma blank_unicode :
  isBlank nbsp = true /\
  parseInt (nbsp ++ "7") = Some 7 /\
  (run (tasksRoute_post task3 3
          (mkTaskBody (Some "write") None (Some 10) false (Some nbsp) None)) [] store0).2 =
    store3_unassigned.
Proof. repeat split; vm_compute; reflexivity. Qed.

(** ** Listing *)

Lemma list_default_limit_witness :
  listed (run (tasksRoute_get noParameters) [] bigStore).1 = Some 100%nat /\
  listed (run (usersRoute_get noParameters) [] bigStore).1 = Some 101%nat.
Proof.
  assert (Hskip : forall n, skipOf noParameters = Some n -> 0 <= n) by discriminate.
  destruct (list_default_limit noParameters bigStore
              (fun _ => true) (fun l => l) (fun _ => true) (fun l => l)
              eq_refl (fun H => ltac:(discriminate H))
              (or_introl eq_refl) (or_introl eq_refl) (or_introl eq_refl) I Hskip
              eq_refl eq_refl eq_refl eq_refl) as (Htasks & Husers & _).
  rewrite Htasks, Husers. split; vm_compute; reflexivity.
Defined.

Lemma list_counts :
  listed (run (tasksRoute_get noParameters) [] bigStore).1 = Some 100%nat /\
  listed (run (usersRoute_get noParameters) [] bigStore).1 = Some 101%nat.
Proof. split; vm_compute; reflexivity. Qed.

(** C7 fails on the code: a [limit] that is not a number, or is negative,
    is not treated as an absent one on the tasks: no limit at all is
    set, where an absent [limit] sets 100, and all 101 tasks are returned;
    and a negative [skip] is not ignored: it is set on the query, which
    the store then refuses, and the answer is 500. *)
Theorem invalid_limit_and_skip :
  limitOf noParameters (Some 100) = Some 100 /\
  limitOf (withLimit "abc") (Some 100) = None /\
  limitOf (withLimit "-1") (Some 100) = None /\
  listed (run (tasksRoute_get noParameters) [] bigStore).1 = Some 100%nat /\
  listed (run (tasksRoute_get (withLimit "abc")) [] bigStore).1 = Some 101%nat /\
  listed (run (tasksRoute_get (withLimit "-1")) [] bigStore).1 = Some 101%nat /\
  skipOf noParameters = None /\
  skipOf (withSkip "-5") = Some (-5) /\
  (run (tasksRoute_get (withSkip "-5")) [] store0).1 =
    Some (json 500 "Error getting tasks" DEmpty) /\
  (run (usersRoute_get (withSkip "-5")) [] store0).1 =
    Some (json 500 "store failure" DEmpty) /\
  listed (run (tasksRoute_get (withSkip "abc")) [] store0).1 = Some 2%nat.
Proof. repeat split; vm_compute; reflexivity. Qed.

(** ** A task that does not exist *)

(** PUT and DELETE on an identifier with no task answer 404 from inside
    the transaction and write nothing; an identifier that is no
    identifier is answered 404 from the [catch] clause. *)
Lemma missing_task_404 :
  run (taskRoute_put task3 toBob) [] store0 =
    (Some (json 404 "Task not found" DEmpty), store0) /\
  run (taskRoute_delete task3) [] store0 =
    (Some (json 404 "Task not found" DEmpty), store0) /\
  run (taskRoute_put "nonsense" toBob) [] store0 =
    (Some (json 404 "Task not found" DEmpty), store0).
Proof. repeat split; vm_compute; reflexivity. Qed.

(** ** Further runs on the example store *)

Lemma taskRoute_put_idempotent_witness :
  run (taskRoute_put task1 toBob) [] store1 =
    (Some (json 200 "Task updated successfully" (DTask task1 handedOver)), store1).
Proof. exact (taskRoute_put_idempotent task1 toBob store0 store1 _ handover_run eq_refl). Defined.

Lemma task_unknown_id_404_witness :
  (run (taskRoute_put "nonsense" toBob) [true] store0 =
     (Some (json 404 "Task not found" DEmpty), store0) /\
   run (taskRoute_delete "nonsense") [true] store0 =
     (Some (json 404 "Task not found" DEmpty), store0)) /\
  (run (taskRoute_put task3 toBob) [] store0 =
     (Some (json 404 "Task not found" DEmpty), store0) /\
   run (taskRoute_delete task3) [] store0 =
     (Some (json 404 "Task not found" DEmpty), store0)).
Proof.
  split.
  - exact (task_unknown_id_404 "nonsense" toBob [true] store0 (or_introl eq_refl)).
  - exact (task_unknown_id_404 task3 toBob [] store0
             (or_intror (conj eq_refl (conj eq_refl eq_refl)))).
Defined.

Lemma task_delete_twice_witness :
  run (taskRoute_delete task1) [] store0_noTask1 =
    (Some (json 404 "Task not found" DEmpty), store0_noTask1).
Proof. exact (task_delete_twice task1 store0 store0_noTask1 _ delete_task1_run eq_refl). Defined.

Lemma store0_users (uid : string) (u : User) :
  users store0 !! uid = Some u ->
  (uid = alice /\ u = aliceUser) \/ (uid = bob /\ u = bobUser).
Proof.
  unfold store0. cbn [users].
  rewrite lookup_insert_Some, lookup_insert_Some, lookup_empty.
  intros [[<- <-]|[_ [[<- <-]|[_ ?]]]]; [by left|by right|done].
Qed.

Lemma store0_tasks (tid : string) (t : Task) :
  tasks store0 !! tid = Some t ->
  (tid = task1 /\ t = writeTask) \/ (tid = task2 /\ t = readTask).
Proof.
  unfold store0. cbn [tasks].
  rewrite lookup_insert_Some, lookup_insert_Some, lookup_empty.
  intros [[<- <-]|[_ [[<- <-]|[_ ?]]]]; [by left|by right|done].
Qed.

Lemma store0_task3_fresh (uid : string) : task3 ∉ pendingOf store0 uid.
Proof.
  unfold pendingOf, pend. destruct (users store0 !! uid) as [u|] eqn:Hu.
  - apply store0_users in Hu as [[_ ->]|[_ ->]]; cbn.
    + rewrite not_elem_of_cons. split; [done|apply not_elem_of_nil].
    + apply not_elem_of_nil.
  - apply not_elem_of_nil.
Qed.

Lemma task_create_then_delete_witness :
  run (taskRoute_delete task3) [] store3 = (Some (mkResponse 204 None), store0).
Proof.
  exact (task_create_then_delete task3 3 toBob store0 store3 _ create_run eq_refl eq_refl
           store0_task3_fresh).
Defined.

Lemma task_create_effect_witness :
  exists t', tasks store3 !! task3 = Some t' /\ dateCreated t' = 3 /\
             tasks store3 !! task1 = tasks store0 !! task1.
Proof.
  destruct (task_create_effect task3 3 toBob store0 store3 _ create_run eq_refl)
    as (t' & _ & Ht' & _ & _ & _ & _ & _ & Hd & _ & _ & Hother & _).
  exists t'. split; [exact Ht'|]. split; [exact Hd|].
  apply Hother. discriminate.
Defined.

Lemma task_rejected_by_schema_witness :
  run (tasksRoute_post task3 3 nameless) [] store0 =
    (Some (json 400 "Invalid task data: name and deadline are required" DEmpty), store0) /\
  run (taskRoute_put task1 nameless) [] store0 =
    (Some (json 400 "Invalid task data: name and deadline are required" DEmpty), store0).
Proof.
  destruct (task_rejected_by_schema task3 task1 3 nameless store0 writeTask "" "unassigned"
              (or_introl eq_refl) (or_introl (conj eq_refl (conj eq_refl eq_refl))))
    as [Hpost Hput].
  split; [exact Hpost|exact (Hput eq_refl eq_refl)].
Defined.

Lemma create_blank_run :
  run (tasksRoute_post task3 3 toBlank) [] store0 =
  (Some (json 201 "Task created successfully"
           (DTask task3 (mkTask (Some "write") "" (Some 10) false "" "unassigned" 3))),
   store3_unassigned).
Proof. vm_compute. reflexivity. Qed.

Lemma task_blank_assignee_witness :
  exists t', tasks store3_unassigned !! task3 = Some t' /\ assignedUser t' = "" /\
             assignedUserName t' = "unassigned" /\
             users store3_unassigned = users store0.
Proof.
  exact (task_blank_assignee task3 3 toBlank " " store0 store3_unassigned _
           eq_refl eq_refl create_blank_run eq_refl).
Defined.

Lemma task_delete_answers_before_commit_witness :
  run (taskRoute_delete task1) [false; false; false; true] store0 =
    (Some (mkResponse 204 None), store0).
Proof.
  exact (task_delete_answers_before_commit task1 store0 writeTask eq_refl eq_refl
           (or_intror (or_intror eq_refl))).
Defined.

Lemma task_routes_all_or_nothing_witness :
  (run (taskRoute_put task1 toBob) [false; false; true] store0).2 = store0.
Proof.
  assert (H : (run (taskRoute_put task1 toBob) [false; false; true] store0).1 =
              Some (json 500 "Error updating task" DEmpty)) by (vm_compute; reflexivity).
  destruct (run (taskRoute_put task1 toBob) [false; false; true] store0) as [o s'] eqn:Hrun.
  cbn [fst snd] in *. subst o.
  refine (proj1 (proj2 task_routes_all_or_nothing) _ _ _ _ _ _ Hrun _). discriminate.
Defined.

Lemma store0_noEmptyUser : noEmptyUser store0.
Proof. reflexivity. Qed.

Lemma task_routes_keep_invariant_witness :
  consistent store3 /\ consistent store1 /\ consistent store0_noTask1.
Proof.
  destruct task_routes_keep_invariant as (Hpost & Hput & Hdel).
  split; [|split].
  - exact (Hpost task3 3 toBob store0 store3 _ store0_consistent store0_noEmptyUser
             store0_task3_fresh create_run eq_refl).
  - exact (Hput task1 toBob store0 store1 _ store0_consistent store0_noEmptyUser
             handover_run eq_refl).
  - exact (Hdel task1 store0 store0_noTask1 _ store0_consistent delete_task1_run eq_refl).
Defined.

(** ** Users *)

Lemma user_delete_keeps_invariant_witness : consistent store0_noAlice.
Proof.
  exact (user_delete_keeps_invariant alice store0 store0_noAlice _ store0_consistent
           store0_noEmptyUser delete_alice_run eq_refl).
Defined.

Lemma join_run :
  run (usersRoute_post carol 5 carolJoins) [] store0 =
  (Some (json 201 "User created successfully" (DUser carol carolUser)), store4).
Proof. vm_compute. reflexivity. Qed.

Lemma user_create_effect_witness :
  exists u, users store4 !! carol = Some u /\ u_dateCreated u = 5 /\
            pendingTasks u = [task1] /\ tasks store4 = tasks store0.
Proof.
  destruct (user_create_effect carol 5 carolJoins store0 store4 _ join_run eq_refl)
    as (u & _ & Hu & _ & _ & Hp & Hd & _ & _ & Hts).
  exists u. split; [exact Hu|]. split; [exact Hd|]. split; [exact Hp|exact Hts].
Defined.

Lemma user_create_rejected_witness :
  run (usersRoute_post carol 5 (mkUserBody None (Some "carol@example.org") None))
      [true] store0 =
    (Some (json 400 "name and email are required" DEmpty), store0) /\
  run (usersRoute_post carol 5 (mkUserBody (Some "Carol") (Some "bob@example.org") None))
      [] store0 =
    (Some (json 409 "User with this email already exists" (DErr duplicateKey)), store0).
Proof.
  split.
  - exact (proj1 (user_create_rejected carol 5
                    (mkUserBody None (Some "carol@example.org") None) store0)
             (or_introl eq_refl) [true]).
  - refine (proj2 (user_create_rejected carol 5
                     (mkUserBody (Some "Carol") (Some "bob@example.org") None) store0)
              "Carol" "bob@example.org"
              bob bobUser eq_refl _ eq_refl _ eq_refl _ eq_refl); discriminate.
Defined.

Lemma user_replace_idempotent_witness :
  run (userRoute_put bob bobClaims) [] store2 =
    (Some (json 200 "User updated successfully"
             (DUser bob (mkUser "Bob" "bob@example.org" [task1] 0))), store2).
Proof. exact (user_replace_idempotent bob bobClaims store0 store2 _ claim_run eq_refl). Defined.

Lemma user_replace_frame_witness :
  users store2 !! alice = users store0 !! alice /\
  (tasks store2 !! task3 = None <-> tasks store0 !! task3 = None).
Proof.
  destruct (user_replace_frame bob bobClaims store0 store2 _ bobUser claim_run
              eq_refl eq_refl) as (u' & _ & _ & _ & _ & Hk & Hdom & _).
  split; [apply Hk; discriminate|apply Hdom].
Defined.

Lemma user_unknown_id_404_witness :
  (run (userRoute_put "nonsense" bobClaims) [true] store0 =
     (Some (json 404 "User not found" DEmpty), store0) /\
   run (userRoute_delete "nonsense") [true] store0 =
     (Some (json 404 "User not found" DEmpty), store0)) /\
  (run (userRoute_put carol bobClaims) [] store0 =
     (Some (json 404 "User not found" DEmpty), store0) /\
   run (userRoute_delete carol) [] store0 =
     (Some (json 404 "User not found" DEmpty), store0)).
Proof.
  split.
  - exact (user_unknown_id_404 "nonsense" bobClaims [true] store0 (or_introl eq_refl)).
  - exact (user_unknown_id_404 carol bobClaims [] store0
             (or_intror (conj eq_refl (conj eq_refl eq_refl)))).
Defined.

Lemma user_replace_rejected_witness :
  run (userRoute_put bob (mkUserBody None (Some "bob@example.org") None)) [false; true] store0 =
    (Some (json 400 "name and email are required for PUT" DEmpty), store0) /\
  run (userRoute_put bob (mkUserBody (Some "Bob") (Some "alice@example.org") None)) [] store0 =
    (Some (json 409 "User with this email already exists" (DErr duplicateKey)), store0).
Proof.
  split.
  - exact (proj1 (user_replace_rejected bob (mkUserBody None (Some "bob@example.org") None)
                    store0 bobUser eq_refl eq_refl)
             (or_introl eq_refl) [false; true] eq_refl).
  - refine (proj2 (user_replace_rejected bob
                     (mkUserBody (Some "Bob") (Some "alice@example.org") None)
                     store0 bobUser eq_refl eq_refl)
              "Bob" "alice@example.org" alice aliceUser eq_refl _ eq_refl _ eq_refl _ eq_refl);
      discriminate.
Defined.

Lemma user_delete_effect_witness :
  users store0_noAlice !! alice = None /\
  users store0_noAlice !! bob = users store0 !! bob /\
  tasks store0_noAlice !! task1 = Some (unassign writeTask).
Proof.
  destruct (user_delete_effect alice store0 store0_noAlice _ aliceUser delete_alice_run
              eq_refl eq_refl) as (Hgone & Hk & Hts & _).
  split; [exact Hgone|]. split; [apply Hk; discriminate|].
  exact (Hts task1 writeTask eq_refl).
Defined.

Lemma user_delete_twice_witness :
  run (userRoute_delete alice) [] store0_noAlice =
    (Some (json 404 "User not found" DEmpty), store0_noAlice).
Proof. exact (user_delete_twice alice store0 store0_noAlice _ delete_alice_run eq_refl). Defined.

Lemma store0_uniqueEmails : uniqueEmails store0.
Proof.
  intros i j u v Hu Hv He.
  apply store0_users in Hu as [[-> ->]|[-> ->]];
    apply store0_users in Hv as [[-> ->]|[-> ->]]; done.
Qed.

Lemma user_routes_keep_unique_emails_witness :
  uniqueEmails store4 /\ uniqueEmails store2 /\ uniqueEmails store0_noAlice.
Proof.
  split; [|split].
  - exact (proj1 (user_routes_keep_unique_emails store0 store4 _ store0_uniqueEmails)
             carol 5 carolJoins join_run eq_refl).
  - exact (proj1 (proj2 (user_routes_keep_unique_emails store0 store2 _ store0_uniqueEmails))
             bob bobClaims claim_run eq_refl).
  - exact (proj2 (proj2 (user_routes_keep_unique_emails store0 store0_noAlice _
                           store0_uniqueEmails))
             alice delete_alice_run eq_refl).
Defined.

Lemma store0_no_task_of_carol (tid : string) (t : Task) :
  tasks store0 !! tid = Some t -> assignedUser t ≠ carol.
Proof. intros Ht. by apply store0_tasks in Ht as [[_ ->]|[_ ->]]. Qed.

Lemma user_create_then_delete_witness :
  run (userRoute_delete carol) [] store4 =
    (Some (json 200 "User deleted successfully" DEmpty), store0).
Proof.
  exact (user_create_then_delete carol 5 carolJoins store0 store4 _ join_run eq_refl eq_refl
           store0_no_task_of_carol).
Defined.

Lemma user_create_pending_not_assigned_witness :
  tasks store4 !! task1 = Some writeTask /\ ~ consistent store4.
Proof.
  refine (user_create_pending_not_assigned carol 5 carolJoins store0 store4 _ [task1] task1
            writeTask join_run eq_refl eq_refl _ eq_refl _).
  - apply list_elem_of_here.
  - discriminate.
Defined.

(** ** Reading *)

Lemma list_routes_read_only_witness :
  (run (tasksRoute_get (withSkip "-5")) [true] store0).2 = store0 /\
  (run (usersRoute_get (withSkip "-5")) [true] store0).2 = store0.
Proof.
  destruct (list_routes_read_only (withSkip "-5") [true] store0) as [[r1 ->] [r2 ->]].
  split; reflexivity.
Defined.

Lemma list_malformed_parameter_witness :
  run (tasksRoute_get (withWhere "{")) [true] store0 =
    (Some (json 400 ("Invalid JSON in " ++ dquote ++ "where" ++ dquote) DEmpty), store0) /\
  run (usersRoute_get (withWhere "{")) [true] store0 =
    (Some (json 400 ("Invalid JSON in " ++ dquote ++ "where" ++ dquote) DEmpty), store0).
Proof.
  exact (list_malformed_parameter (withWhere "{") "where"
           (or_introl (conj (conj eq_refl eq_refl) eq_refl)) [true] store0).
Defined.

Lemma count_ignores_list_parameters_witness :
  run (tasksRoute_get (countWithSort "{")) [] store0 =
    (Some (json 200 "OK" (DCount 2)), store0) /\
  run (usersRoute_get (countWithSort "{")) [] store0 =
    (Some (json 200 "OK" (DCount 2)), store0).
Proof.
  destruct (count_ignores_list_parameters (countWithSort "{") store0 eq_refl) as [_ Hcount].
  destruct (Hcount (or_introl eq_refl)) as [Ht Hu].
  split; [exact (Ht (fun _ => true) eq_refl)|exact (Hu (fun _ => true) eq_refl)].
Defined.

Lemma limit_one_run :
  exists l, run (tasksRoute_get (withLimit "1")) [] store0 =
              (Some (json 200 "OK" (DTasks HideVersion l)), store0).
Proof. eexists. vm_compute. reflexivity. Qed.

Lemma list_limit_bounds_witness :
  exists l, run (tasksRoute_get (withLimit "1")) [] store0 =
              (Some (json 200 "OK" (DTasks HideVersion l)), store0) /\
            (List.length l <= 1)%nat.
Proof.
  destruct limit_one_run as [l Hl]. exists l. split; [exact Hl|].
  exact (proj1 (list_limit_bounds (withLimit "1") 1 eq_refl eq_refl eq_refl)
           [] store0 _ _ _ _ l Hl eq_refl).
Defined.

Lemma item_malformed_select_500_witness :
  taskRoute_get task1 (Some "{") [] store0 = ItemFailure 500 "Error getting task" /\
  userRoute_get alice (Some "{") [] store0 = ItemFailure 500 "Error getting user".
Proof.
  split.
  - exact (proj1 (item_malformed_select_500 task1 (Some "{") [] store0 (conj eq_refl eq_refl))).
  - exact (proj2 (item_malformed_select_500 alice (Some "{") [] store0 (conj eq_refl eq_refl))).
Defined.

Lemma item_get_sound_complete_witness :
  taskRoute_get task1 None [] store0 = ItemFound HideVersion task1 writeTask /\
  userRoute_get task1 None [] store0 = ItemFailure 404 "User not found".
Proof.
  exact (proj1 (proj2 (proj2 (item_get_sound_complete task1 None store0 (fun _ => eq_refl))))
           (or_introl eq_refl) I).
Defined.

